(** * docker-stats: the stats aggregation engine

    A shallow embedding of [internal/docker/client.go], the formatting
    helpers of package [docker], [internal/ui/app.go] and the bubbletea
    model of [main.go], followed by the properties of the collector, the
    derivation functions, the sorter and the session state.

    Conventions.
    - Go's [uint64], [int64] and [int] are integers of [Z]; every
      operation that can leave the range is written with its wrap-around.
    - Go's [float64] is IEEE 754 binary64, here [spec_float] at precision 53
      and maximal exponent 1024, with round-to-nearest-even operations.
    - Go strings are byte strings, here [string].
    - A Go function that returns [(T, error)] returns a pair whose second
      component is [option error]; a run-time panic is a separate outcome. *)

From Stdlib Require Import ZArith List Bool String Ascii Lia Permutation Sorted.
From Stdlib Require Import SpecFloat DecimalString.
Import ListNotations.

Open Scope string_scope.
Open Scope Z_scope.

(** ** Machine integers *)

(** Reduction of an integer to [uint64]. *)
Definition wrap64 (z : Z) : Z := z mod 2 ^ 64.

(** Reduction of an integer to the two's complement [int64] (Go's [int]
    on the 64-bit targets the program is built for). *)
Definition wrap_int (z : Z) : Z := (z + 2 ^ 63) mod 2 ^ 64 - 2 ^ 63.

Definition in_uint64 (z : Z) : bool := (0 <=? z) && (z <? 2 ^ 64).
Definition in_uint32 (z : Z) : bool := (0 <=? z) && (z <? 2 ^ 32).
Definition in_int64 (z : Z) : bool := (- 2 ^ 63 <=? z) && (z <? 2 ^ 63).

(** ** Results, errors and panics *)

Definition error := string.

Inductive Result (A : Type) : Type :=
| Ok (a : A)
| Err (e : error).
Arguments Ok {A} a.
Arguments Err {A} e.

Inductive Outcome (A : Type) : Type :=
| Returned (a : A)
| Panicked.
Arguments Returned {A} a.
Arguments Panicked {A}.

(** ** float64 *)

Module Float64.

Definition prec : Z := 53.
Definition emax : Z := 1024.

Definition t : Type := spec_float.

(** The conversion [float64(n)] of an integer, rounded to nearest even. *)
Definition of_Z (n : Z) : t := binary_normalize prec emax n 0 false.

(** The zero value of a [float64] field and the constant [0]. *)
Definition zero : t := S754_zero false.

Definition mul : t -> t -> t := SFmul prec emax.
Definition div : t -> t -> t := SFdiv prec emax.
Definition ltb : t -> t -> bool := SFltb.
Definition eqb : t -> t -> bool := SFeqb.

End Float64.

(** ** The two verbs of [fmt.Sprintf] that package [docker] uses *)

Module fmt.

(** [%d] of a non-negative integer. *)
Definition d (n : Z) : string := NilZero.string_of_uint (N.to_uint (Z.to_N n)).

(** Division by [2 ^ k] rounded to the nearest integer, ties to even. *)
Definition div_pow2_half_even (n k : Z) : Z :=
    let q := n / 2 ^ k in
    let r := n mod 2 ^ k in
    match 2 * r ?= 2 ^ k with
    | Lt => q
    | Gt => q + 1
    | Eq => if Z.even q then q else q + 1
    end.

(** The number of tenths nearest to [m * 2 ^ e], ties to even. *)
Definition tenths (m : positive) (e : Z) : Z :=
    if 0 <=? e then Zpos m * 2 ^ e * 10
    else div_pow2_half_even (Zpos m * 10) (- e).

Definition fixed1 (neg : bool) (t : Z) : string :=
    (if neg then "-" else "") ++ d (t / 10) ++ "." ++ d (t mod 10).

(** [%.1f]: the exact value of the float, correctly rounded to one digit
      after the point. *)
Definition f1 (x : Float64.t) : string :=
    match x with
    | S754_zero s => fixed1 s 0
    | S754_infinity s => if s then "-Inf" else "+Inf"
    | S754_nan => "NaN"
    | S754_finite s m e => fixed1 s (tenths m e)
    end.

End fmt.

(** ** Package docker: the stats payload

    A field whose Go name is also the name of its type carries the name
    of its JSON tag ([cpu_usage], [cpu_stats], ...). *)

Record CPUUsage : Type := {
  TotalUsage : Z;            (* uint64 *)
  PercpuUsage : list Z       (* []uint64 *)
}.

Record CPUStats : Type := {
  cpu_usage : CPUUsage;
  SystemUsage : Z;           (* uint64 *)
  OnlineCPUs : Z             (* uint32 *)
}.

Record MemoryStats : Type := {
  Usage : Z;                 (* uint64 *)
  Limit : Z                  (* uint64 *)
}.

Record NetStats : Type := {
  RxBytes : Z;               (* uint64 *)
  TxBytes : Z                (* uint64 *)
}.

Record BlkioStatEntry : Type := {
  Op : string;
  Value : Z                  (* uint64 *)
}.

Record BlkioStats : Type := {
  IoServiceBytesRecursive : list BlkioStatEntry
}.

Record PidsStats : Type := {
  Current : Z                (* uint64 *)
}.

(** [Networks] is a Go map; the list gives its entries in the order in
    which the [range] loop of [getContainerStats] visits them. *)
Record StatsJSON : Type := {
  cpu_stats : CPUStats;
  precpu_stats : CPUStats;
  memory_stats : MemoryStats;
  networks : list (string * NetStats);
  blkio_stats : BlkioStats;
  pids_stats : PidsStats
}.

Definition zeroCPUStats : CPUStats :=
  {| cpu_usage := {| TotalUsage := 0; PercpuUsage := [] |};
     SystemUsage := 0; OnlineCPUs := 0 |}.

(** The zero value of [StatsJSON], what [var statsJSON StatsJSON] holds
    before the decoder writes into it. *)
Definition zeroStatsJSON : StatsJSON :=
  {| cpu_stats := zeroCPUStats;
     precpu_stats := zeroCPUStats;
     memory_stats := {| Usage := 0; Limit := 0 |};
     networks := [];
     blkio_stats := {| IoServiceBytesRecursive := [] |};
     pids_stats := {| Current := 0 |} |}.

(** The payloads the JSON decoder can produce: every field in the range of
    its Go type. *)
Definition wf_CPUStats (c : CPUStats) : bool :=
  in_uint64 (TotalUsage (cpu_usage c)) &&
  forallb in_uint64 (PercpuUsage (cpu_usage c)) &&
  in_uint64 (SystemUsage c) && in_uint32 (OnlineCPUs c).

Definition wf_StatsJSON (s : StatsJSON) : bool :=
  wf_CPUStats (cpu_stats s) && wf_CPUStats (precpu_stats s) &&
  in_uint64 (Usage (memory_stats s)) && in_uint64 (Limit (memory_stats s)) &&
  forallb (fun kv => in_uint64 (RxBytes (snd kv)) && in_uint64 (TxBytes (snd kv)))
          (networks s) &&
  forallb (fun b => in_uint64 (Value b)) (IoServiceBytesRecursive (blkio_stats s)) &&
  in_uint64 (Current (pids_stats s)).

(** ** Package docker: container snapshots *)

Record ContainerStats : Type := {
  ID : string;
  Name : string;
  Image : string;
  Status : string;
  State : string;
  CPUPercent : Float64.t;
  CPULimit : Float64.t;
  MemUsage : Z;              (* uint64 *)
  MemLimit : Z;              (* uint64 *)
  MemPercent : Float64.t;
  NetRx : Z;                 (* uint64 *)
  NetTx : Z;                 (* uint64 *)
  BlockRead : Z;             (* uint64 *)
  BlockWrite : Z;            (* uint64 *)
  PIDs : Z;                  (* uint64 *)
  ImageSize : Z;             (* int64 *)
  ContainerSize : Z;         (* int64 *)
  Created : Z                (* time.Unix(seconds, 0) *)
}.

(** [SortField] is an [int]; the constants are numbered by [iota]. *)
Definition SortField : Type := Z.
Definition SortByName : SortField := 0.
Definition SortByCPU : SortField := 1.
Definition SortByMemory : SortField := 2.
Definition SortByNetIO : SortField := 3.
Definition SortByBlockIO : SortField := 4.
Definition SortByImageSize : SortField := 5.

(** ** The runtime API the collector consumes *)

Module container.

(** The fields of [container.Summary] that the collector reads. *)
Record Summary : Type := {
  ID : string;
  Names : list string;
  Image : string;
  ImageID : string;
  Status : string;
  State : string;
  Created : Z;             (* int64 *)
  SizeRw : Z               (* int64 *)
}.

(** The fields of [HostConfig] that the collector reads. *)
Record HostConfig : Type := {
  NanoCPUs : Z;            (* int64 *)
  CPUQuota : Z;            (* int64 *)
  CPUPeriod : Z            (* int64 *)
}.

(** The part of [InspectResponse] that the collector reads: its field
    [HostConfig], a pointer (the name of the type is taken here). It is
    nil, [None], when the response of the daemon carries no host
    configuration; the response embeds its base by pointer too, and a
    read through either nil pointer panics alike. *)
Record InspectResponse : Type := {
  HostConfigPtr : option HostConfig      (* *HostConfig *)
}.

End container.

Module image.

Record InspectResponse : Type := { Size : Z (* int64 *) }.

Record Summary : Type := { SummarySize : Z (* int64 *) }.

End image.

Module system.

Record Info : Type := {
  ServerVersion : string;
  Containers : Z;
  ContainersRunning : Z;
  ContainersPaused : Z;
  ContainersStopped : Z;
  MemTotal : Z;
  NCPU : Z;
  OSType : string;
  Architecture : string
}.

End system.

(** What reading and decoding the body of a stats response gives:
    a payload, the error [io.EOF], or another decoding error. *)
Inductive Decoded : Type :=
| DecodeOk (s : StatsJSON)
| DecodeEOF
| DecodeErr (e : error).

Module client.

(** The answers of the daemon during one collect cycle, one field per
    method of the SDK client that package [docker] calls. [ContainerList]
    takes the [All] option, the inspect and stats calls the reference
    they are given. [ContainerStats] answers with what decoding the body
    of the response gives.
    The context argument is left out: a cancelled call is a failed call. *)
Record Client : Type := {
  ContainerList : bool -> Result (list container.Summary);
  ImageInspect : string -> Result image.InspectResponse;
  ContainerInspect : string -> Result container.InspectResponse;
  ContainerStats : string -> Result Decoded;
  Info : Result system.Info;
  ImageList : Result (list image.Summary)
}.

End client.

(** ** Package docker: derivation *)

(** [calculateCPUPercent]: both deltas are differences of [uint64]
    counters, taken in [uint64] and then converted. *)
Definition calculateCPUPercent (stats : StatsJSON) : Float64.t :=
  let cpuDelta :=
    Float64.of_Z (wrap64 (TotalUsage (cpu_usage (cpu_stats stats))
                          - TotalUsage (cpu_usage (precpu_stats stats)))) in
  let systemDelta :=
    Float64.of_Z (wrap64 (SystemUsage (cpu_stats stats)
                          - SystemUsage (precpu_stats stats))) in
  if Float64.ltb Float64.zero systemDelta && Float64.ltb Float64.zero cpuDelta then
    let cpuCount := Float64.of_Z (OnlineCPUs (cpu_stats stats)) in
    let cpuCount :=
      if Float64.eqb cpuCount Float64.zero
      then Float64.of_Z (Z.of_nat (List.length (PercpuUsage (cpu_usage (cpu_stats stats)))))
      else cpuCount in
    let cpuCount :=
      if Float64.eqb cpuCount Float64.zero then Float64.of_Z 1 else cpuCount in
    Float64.mul (Float64.mul (Float64.div cpuDelta systemDelta) cpuCount)
                (Float64.of_Z 100)
  else Float64.zero.

(** [trimContainerName] *)
Definition trimContainerName (names : list string) : string :=
  match names with
  | [] => ""
  | name :: _ =>
      match name with
      | String "/" rest => rest
      | _ => name
      end
  end.

(** The slice expression [s[:n]] of a string: it panics when [n] exceeds
    the length, which is [None] here. *)
Definition slice_to (s : string) (n : nat) : option string :=
  if (n <=? String.length s)%nat then Some (substring 0 n s) else None.

(** The memory percentage of [getContainerStats]; [old] is the value the
    field holds before the statement. *)
Definition memPercent (old : Float64.t) (usage limit : Z) : Float64.t :=
  if 0 <? limit
  then Float64.mul (Float64.div (Float64.of_Z usage) (Float64.of_Z limit))
                   (Float64.of_Z 100)
  else old.

(** The loop over [statsJSON.Networks], from the accumulators [(rx, tx)]. *)
Definition sumNetworks (nets : list (string * NetStats)) (acc : Z * Z) : Z * Z :=
  fold_left
    (fun (a : Z * Z) (kv : string * NetStats) =>
       (wrap64 (fst a + RxBytes (snd kv)), wrap64 (snd a + TxBytes (snd kv))))
    nets acc.

(** One turn of the loop over [IoServiceBytesRecursive]: the [switch] on
    the operation tag. *)
Definition blkioStep (acc : Z * Z) (blkStats : BlkioStatEntry) : Z * Z :=
  if (Op blkStats =? "read")%string || (Op blkStats =? "Read")%string
  then (wrap64 (fst acc + Value blkStats), snd acc)
  else if (Op blkStats =? "write")%string || (Op blkStats =? "Write")%string
  then (fst acc, wrap64 (snd acc + Value blkStats))
  else acc.

(** The loop over [IoServiceBytesRecursive], from the accumulators
    [(read, write)]. *)
Definition sumBlkio (entries : list BlkioStatEntry) (acc : Z * Z) : Z * Z :=
  fold_left blkioStep entries acc.

(** The CPU limit read from the host configuration; [old] is the value
    the field holds before the statement. *)
Definition cpuLimit (old : Float64.t) (h : container.HostConfig) : Float64.t :=
  if 0 <? container.NanoCPUs h
  then Float64.div (Float64.of_Z (container.NanoCPUs h)) (Float64.of_Z 1000000000)
  else if (0 <? container.CPUQuota h) && (0 <? container.CPUPeriod h)
  then Float64.div (Float64.of_Z (container.CPUQuota h))
                   (Float64.of_Z (container.CPUPeriod h))
  else old.

(** Assignments to fields of the local [stats]. *)
Definition set_ContainerSize (s : ContainerStats) (v : Z) : ContainerStats :=
  {| ID := ID s; Name := Name s; Image := Image s; Status := Status s;
     State := State s; CPUPercent := CPUPercent s; CPULimit := CPULimit s;
     MemUsage := MemUsage s; MemLimit := MemLimit s; MemPercent := MemPercent s;
     NetRx := NetRx s; NetTx := NetTx s; BlockRead := BlockRead s;
     BlockWrite := BlockWrite s; PIDs := PIDs s; ImageSize := ImageSize s;
     ContainerSize := v; Created := Created s |}.

Definition set_ImageSize (s : ContainerStats) (v : Z) : ContainerStats :=
  {| ID := ID s; Name := Name s; Image := Image s; Status := Status s;
     State := State s; CPUPercent := CPUPercent s; CPULimit := CPULimit s;
     MemUsage := MemUsage s; MemLimit := MemLimit s; MemPercent := MemPercent s;
     NetRx := NetRx s; NetTx := NetTx s; BlockRead := BlockRead s;
     BlockWrite := BlockWrite s; PIDs := PIDs s; ImageSize := v;
     ContainerSize := ContainerSize s; Created := Created s |}.

Definition set_CPULimit (s : ContainerStats) (v : Float64.t) : ContainerStats :=
  {| ID := ID s; Name := Name s; Image := Image s; Status := Status s;
     State := State s; CPUPercent := CPUPercent s; CPULimit := v;
     MemUsage := MemUsage s; MemLimit := MemLimit s; MemPercent := MemPercent s;
     NetRx := NetRx s; NetTx := NetTx s; BlockRead := BlockRead s;
     BlockWrite := BlockWrite s; PIDs := PIDs s; ImageSize := ImageSize s;
     ContainerSize := ContainerSize s; Created := Created s |}.

(** The statements of [getContainerStats] after a payload was decoded. *)
Definition applyStats (s : ContainerStats) (statsJSON : StatsJSON) : ContainerStats :=
  let usage := Usage (memory_stats statsJSON) in
  let limit := Limit (memory_stats statsJSON) in
  let net := sumNetworks (networks statsJSON) (NetRx s, NetTx s) in
  let blk := sumBlkio (IoServiceBytesRecursive (blkio_stats statsJSON))
                      (BlockRead s, BlockWrite s) in
  {| ID := ID s; Name := Name s; Image := Image s; Status := Status s;
     State := State s;
     CPUPercent := calculateCPUPercent statsJSON;
     CPULimit := CPULimit s;
     MemUsage := usage; MemLimit := limit;
     MemPercent := memPercent (MemPercent s) usage limit;
     NetRx := fst net; NetTx := snd net;
     BlockRead := fst blk; BlockWrite := snd blk;
     PIDs := Current (pids_stats statsJSON);
     ImageSize := ImageSize s;
     ContainerSize := ContainerSize s; Created := Created s |}.

(** The statements of [getContainerStats] up to the test of the
    container's state: identity, sizes and CPU limit. [short] is the
    value of [cont.ID[:12]]. After a container inspect that succeeded
    the fields of [containerInfo.HostConfig] are read: a nil pointer
    there panics. *)
Definition partialStats (c : client.Client) (cont : container.Summary)
  (short : string) : Outcome ContainerStats :=
  let stats :=
    {| ID := short;
       Name := trimContainerName (container.Names cont);
       Image := container.Image cont;
       Status := container.Status cont;
       State := container.State cont;
       CPUPercent := Float64.zero; CPULimit := Float64.zero;
       MemUsage := 0; MemLimit := 0; MemPercent := Float64.zero;
       NetRx := 0; NetTx := 0; BlockRead := 0; BlockWrite := 0;
       PIDs := 0; ImageSize := 0; ContainerSize := 0;
       Created := container.Created cont |} in
  let stats := set_ContainerSize stats (container.SizeRw cont) in
  let stats :=
    match client.ImageInspect c (container.ImageID cont) with
    | Ok imageInfo => set_ImageSize stats (image.Size imageInfo)
    | Err _ => stats
    end in
  match client.ContainerInspect c (container.ID cont) with
  | Ok containerInfo =>
      match container.HostConfigPtr containerInfo with
      | Some hostConfig =>
          Returned (set_CPULimit stats (cpuLimit (CPULimit stats) hostConfig))
      | None => Panicked
      end
  | Err _ => Returned stats
  end.

(** The statements of [getContainerStats] from the test of the
    container's state on: what the function returns from there. *)
Definition liveStats (c : client.Client) (cont : container.Summary)
  (stats : ContainerStats) : ContainerStats * option error :=
  if negb (container.State cont =? "running")%string
  then (stats, None)
  else
    match client.ContainerStats c (container.ID cont) with
    | Err _ => (stats, None)
    | Ok (DecodeErr _) => (stats, None)
    | Ok DecodeEOF => (applyStats stats zeroStatsJSON, None)
    | Ok (DecodeOk statsJSON) => (applyStats stats statsJSON, None)
    end.

(** [getContainerStats]: the snapshot of one container and the error
    value it returns with it, or a panic: of the slice expression, or of
    the read through a nil [HostConfig]. *)
Definition getContainerStats (c : client.Client) (cont : container.Summary)
  : Outcome (ContainerStats * option error) :=
  match slice_to (container.ID cont) 12 with
  | None => Panicked
  | Some short =>
      match partialStats c cont short with
      | Panicked => Panicked
      | Returned stats => Returned (liveStats c cont stats)
      end
  end.

(** The goroutines of [GetContainerStats], one per listed container:
    [None] when one of them panics, else what each of them returned. *)
Fixpoint runTasks (c : client.Client) (containers : list container.Summary)
  : option (list (ContainerStats * option error)) :=
  match containers with
  | [] => Some []
  | cont :: rest =>
      match getContainerStats c cont, runTasks c rest with
      | Returned r, Some rs => Some (r :: rs)
      | _, _ => None
      end
  end.

(** What the task of the container at index [i] sends on [statsChan]:
    nothing when its error is not nil (it goes to [errChan]). *)
Definition sent (outs : list (ContainerStats * option error)) (i : nat)
  : list ContainerStats :=
  match nth_error outs i with
  | Some (stats, None) => [stats]
  | _ => []
  end.

(** [GetContainerStats]. The tasks finish in the order [order], a
    permutation of the indices of the listed containers chosen by the
    scheduler; [statsChan] is read in that order. *)
Definition GetContainerStats (c : client.Client) (showAll : bool) (order : list nat)
  : Outcome (list ContainerStats * option error) :=
  match client.ContainerList c showAll with
  | Err err => Returned ([], Some ("failed to list containers: " ++ err))
  | Ok containers =>
      match containers with
      | [] => Returned ([], None)
      | _ :: _ =>
          match runTasks c containers with
          | None => Panicked
          | Some outs => Returned (flat_map (sent outs) order, None)
          end
      end
  end.

(** The completion orders a scheduler can produce for [n] tasks. *)
Definition schedule (n : nat) (order : list nat) : Prop :=
  Permutation order (seq 0 n).

(** ** Package docker: the daemon summary *)

Record DockerInfo : Type := {
  ServerVersion : string;
  ContainersTotal : Z;
  ContainersRunning : Z;
  ContainersPaused : Z;
  ContainersStopped : Z;
  ImagesTotal : Z;
  TotalImageSize : Z;        (* int64 *)
  MemoryTotal : Z;           (* int64 *)
  CPUs : Z;
  OSType : string;
  Architecture : string
}.

(** [GetDockerInfo] *)
Definition GetDockerInfo (c : client.Client) : option DockerInfo * option error :=
  match client.Info c with
  | Err err => (None, Some ("failed to get Docker info: " ++ err))
  | Ok info =>
      match client.ImageList c with
      | Err err => (None, Some ("failed to list images: " ++ err))
      | Ok images =>
          let totalImageSize :=
            fold_left (fun acc img => wrap_int (acc + image.SummarySize img))
                      images 0 in
          (Some {| ServerVersion := system.ServerVersion info;
                   ContainersTotal := system.Containers info;
                   ContainersRunning := system.ContainersRunning info;
                   ContainersPaused := system.ContainersPaused info;
                   ContainersStopped := system.ContainersStopped info;
                   ImagesTotal := Z.of_nat (List.length images);
                   TotalImageSize := totalImageSize;
                   MemoryTotal := system.MemTotal info;
                   CPUs := system.NCPU info;
                   OSType := system.OSType info;
                   Architecture := system.Architecture info |},
           None)
      end
  end.

(** ** Package docker: the sorter *)

Module sort.

(** The inner loop of Go's [insertionSortLessFunc]: the element [x] at
    index [j] is swapped with its left neighbour as long as [less j (j-1)]
    holds. [before] lists the elements to its left, the nearest first. *)
Fixpoint sink {A : Type} (less : A -> A -> bool) (x : A) (before : list A) : list A :=
  match before with
  | [] => [x]
  | y :: rest => if less x y then y :: sink less x rest else x :: before
  end.

(** The outer loop: the elements of [x] are sunk one after the other
    into the part already ordered. *)
Definition insertAll {A : Type} (less : A -> A -> bool) (x before : list A) : list A :=
  fold_left (fun before e => sink less e before) x before.

(** [sort.Slice], as Go runs it on a slice of at most twelve elements:
    [pdqsort_func] hands such a slice to [insertionSortLessFunc]. On a
    longer slice the library only promises a permutation ordered by
    [less]; [ascending_sort_unique] below shows that this fixes the
    result whenever no two elements tie. *)
Definition Slice {A : Type} (less : A -> A -> bool) (x : list A) : list A :=
  rev (insertAll less x []).

End sort.

(** The [switch] of the comparison closure of [SortContainers]. *)
Definition fieldLess (field : SortField) (ci cj : ContainerStats) : bool :=
  if field =? SortByName then (Name ci <? Name cj)%string
  else if field =? SortByCPU then Float64.ltb (CPUPercent ci) (CPUPercent cj)
  else if field =? SortByMemory then Float64.ltb (MemPercent ci) (MemPercent cj)
  else if field =? SortByNetIO
  then wrap64 (NetRx ci + NetTx ci) <? wrap64 (NetRx cj + NetTx cj)
  else if field =? SortByBlockIO
  then wrap64 (BlockRead ci + BlockWrite ci) <? wrap64 (BlockRead cj + BlockWrite cj)
  else if field =? SortByImageSize then ImageSize ci <? ImageSize cj
  else (Name ci <? Name cj)%string.

(** The comparison closure of [SortContainers], on the elements at the
    two indices it is given. *)
Definition sortLess (field : SortField) (ascending : bool)
  (ci cj : ContainerStats) : bool :=
  let less := fieldLess field ci cj in
  if ascending then less else negb less.

(** [SortContainers]; the slice is sorted in place, the function returns
    its new contents. *)
Definition SortContainers (containers : list ContainerStats)
  (field : SortField) (ascending : bool) : list ContainerStats :=
  sort.Slice (sortLess field ascending) containers.

(** ** Package docker: formatting *)

Definition unit : Z := 1024.

(** The [for] loop of [FormatBytes]; it runs at most five times on a
    [uint64], [fuel] bounds the number of tests of its condition. *)
Fixpoint FormatBytes_loop (fuel : nat) (n div exp : Z) : Z * Z :=
  match fuel with
  | O => (div, exp)
  | S fuel' =>
      if unit <=? n
      then FormatBytes_loop fuel' (n / unit) (wrap64 (div * unit)) (wrap_int (exp + 1))
      else (div, exp)
  end.

(** [FormatBytes]; indexing ["KMGTPE"] out of range would panic. *)
Definition FormatBytes (bytes : Z) : Outcome string :=
  if bytes <? unit then Returned (fmt.d bytes ++ "B")
  else
    let '(div, exp) := FormatBytes_loop 6 (bytes / unit) unit 0 in
    match String.get (Z.to_nat exp) "KMGTPE" with
    | Some c =>
        Returned (fmt.f1 (Float64.div (Float64.of_Z bytes) (Float64.of_Z div))
                  ++ String c "iB")
    | None => Panicked
    end.

(** [FormatMemUsage] *)
Definition FormatMemUsage (usage limit : Z) : Outcome string :=
  match FormatBytes usage, FormatBytes limit with
  | Returned u, Returned l => Returned (u ++ " / " ++ l)
  | _, _ => Panicked
  end.

(** ** Package ui: the tview application *)

Module ui.

(** The state of [App] that its methods read and write; [infoBar] is
    the summary last shown, [statusBar] the text of the status bar. *)
Record App : Type := {
  showAll : bool;
  infoBar : option DockerInfo;
  statusBar : string;
  containers : list ContainerStats;
  sortField : SortField;
  sortAsc : bool
}.

(** [App.setSortField] *)
Definition setSortField (a : App) (field : SortField) : App :=
  let '(sortField', sortAsc') :=
    if sortField a =? field then (sortField a, negb (sortAsc a))
    else (field, false) in
  {| showAll := showAll a; infoBar := infoBar a; statusBar := statusBar a;
     containers := SortContainers (containers a) sortField' sortAsc';
     sortField := sortField'; sortAsc := sortAsc' |}.

(** [App.refresh] *)
Definition refresh (c : client.Client) (order : list nat) (a : App) : Outcome App :=
  let infoBar' :=
    match GetDockerInfo c with
    | (Some info, None) => Some info
    | _ => infoBar a
    end in
  match GetContainerStats c (showAll a) order with
  | Panicked => Panicked
  | Returned (_, Some err) =>
      Returned {| showAll := showAll a; infoBar := infoBar';
                  statusBar := "[red]Error: " ++ err;
                  containers := containers a;
                  sortField := sortField a; sortAsc := sortAsc a |}
  | Returned (containers', None) =>
      Returned {| showAll := showAll a; infoBar := infoBar';
                  statusBar := statusBar a;
                  containers := SortContainers containers' (sortField a) (sortAsc a);
                  sortField := sortField a; sortAsc := sortAsc a |}
  end.

End ui.

(** ** Package main: the bubbletea model *)

Module main.

(** The state of [statsModel] that [Update] reads and writes. *)
Record statsModel : Type := {
  containers : list ContainerStats;
  info : option DockerInfo;
  sortField : SortField;
  sortAsc : bool;
  showAll : bool;
  width : Z;
  height : Z;
  scroll : Z;
  selected : Z;
  err : option error;
  quitting : bool
}.

Inductive Msg : Type :=
| WindowSizeMsg (Width Height : Z)
| KeyMsg (key : string)
| tickMsg
| containerMsg (containers : list ContainerStats) (info : option DockerInfo)
    (err : option error)
| otherMsg.

(** The commands [Update] returns. *)
Inductive Cmd : Type :=
| CmdNil
| CmdQuit
| CmdFetch
| CmdTickAndFetch.

(** [fetchContainers]: the message the command delivers. *)
Definition fetchContainers (c : client.Client) (showAll : bool) (order : list nat)
  : Outcome Msg :=
  match GetContainerStats c showAll order with
  | Panicked => Panicked
  | Returned (containers, err) =>
      let info :=
        match GetDockerInfo c with
        | (info, None) => info
        | (_, Some _) => None
        end in
      Returned (containerMsg containers info err)
  end.

Definition with_sort (m : statsModel) (field : SortField) (asc : bool) : statsModel :=
  {| containers := containers m; info := info m;
     sortField := field; sortAsc := asc;
     showAll := showAll m; width := width m; height := height m;
     scroll := scroll m; selected := selected m; err := err m;
     quitting := quitting m |}.

Definition with_view (m : statsModel) (selected' scroll' : Z) : statsModel :=
  {| containers := containers m; info := info m;
     sortField := sortField m; sortAsc := sortAsc m;
     showAll := showAll m; width := width m; height := height m;
     scroll := scroll'; selected := selected'; err := err m;
     quitting := quitting m |}.

(** A sort key of [Update]: the active field flips the direction, another
    field is selected with the direction [asc]. *)
Definition sortKey (m : statsModel) (field : SortField) (asc : bool) : statsModel :=
  if sortField m =? field then with_sort m (sortField m) (negb (sortAsc m))
  else with_sort m field asc.

Definition len (m : statsModel) : Z := Z.of_nat (List.length (containers m)).

(** The [tea.KeyMsg] case of [Update]. *)
Definition updateKey (m : statsModel) (key : string) : statsModel * Cmd :=
  match key with
  | "q" | "ctrl+c" =>
      ({| containers := containers m; info := info m;
          sortField := sortField m; sortAsc := sortAsc m;
          showAll := showAll m; width := width m; height := height m;
          scroll := scroll m; selected := selected m; err := err m;
          quitting := true |}, CmdQuit)
  | "c" => (sortKey m SortByCPU false, CmdNil)
  | "m" => (sortKey m SortByMemory false, CmdNil)
  | "n" => (sortKey m SortByName true, CmdNil)
  | "d" => (sortKey m SortByBlockIO false, CmdNil)
  | "i" => (sortKey m SortByImageSize false, CmdNil)
  | "up" | "k" =>
      if 0 <? selected m then
        let selected' := wrap_int (selected m - 1) in
        let scroll' := if selected' <? scroll m then selected' else scroll m in
        (with_view m selected' scroll', CmdNil)
      else (m, CmdNil)
  | "down" | "j" =>
      if selected m <? wrap_int (len m - 1) then
        let selected' := wrap_int (selected m + 1) in
        let visibleRows := wrap_int (height m - 10) in
        let visibleRows := if visibleRows <? 1 then 1 else visibleRows in
        let scroll' :=
          if wrap_int (scroll m + visibleRows) <=? selected'
          then wrap_int (wrap_int (selected' - visibleRows) + 1)
          else scroll m in
        (with_view m selected' scroll', CmdNil)
      else (m, CmdNil)
  | "pgup" =>
      let selected' := wrap_int (selected m - 10) in
      let selected' := if selected' <? 0 then 0 else selected' in
      (with_view m selected' selected', CmdNil)
  | "pgdown" =>
      let selected' := wrap_int (selected m + 10) in
      let selected' := if len m <=? selected' then wrap_int (len m - 1) else selected' in
      let visibleRows := wrap_int (height m - 10) in
      let scroll' :=
        if wrap_int (scroll m + visibleRows) <=? selected'
        then wrap_int (wrap_int (selected' - visibleRows) + 1)
        else scroll m in
      (with_view m selected' scroll', CmdNil)
  | "home" => (with_view m 0 0, CmdNil)
  | "end" =>
      let selected' := wrap_int (len m - 1) in
      let visibleRows := wrap_int (height m - 10) in
      let scroll' := wrap_int (wrap_int (selected' - visibleRows) + 1) in
      let scroll' := if scroll' <? 0 then 0 else scroll' in
      (with_view m selected' scroll', CmdNil)
  | "r" => (m, CmdFetch)
  | _ => (m, CmdNil)
  end.

(** The [containerMsg] case of [Update]. *)
Definition updateContainers (m : statsModel) (containers' : list ContainerStats)
  (info' : option DockerInfo) (err' : option error) : statsModel :=
  let sorted := SortContainers containers' (sortField m) (sortAsc m) in
  let n := Z.of_nat (List.length sorted) in
  let selected' := if n <=? selected m then wrap_int (n - 1) else selected m in
  let selected' := if selected' <? 0 then 0 else selected' in
  let visibleRows := wrap_int (height m - 10) in
  let visibleRows := if visibleRows <? 1 then 1 else visibleRows in
  let maxScroll := wrap_int (n - visibleRows) in
  let maxScroll := if maxScroll <? 0 then 0 else maxScroll in
  let scroll' := if maxScroll <? scroll m then maxScroll else scroll m in
  let scroll' := if scroll' <? 0 then 0 else scroll' in
  {| containers := sorted; info := info';
     sortField := sortField m; sortAsc := sortAsc m;
     showAll := showAll m; width := width m; height := height m;
     scroll := scroll'; selected := selected'; err := err';
     quitting := quitting m |}.

(** [statsModel.Update] *)
Definition Update (m : statsModel) (msg : Msg) : statsModel * Cmd :=
  match msg with
  | WindowSizeMsg Width Height =>
      ({| containers := containers m; info := info m;
          sortField := sortField m; sortAsc := sortAsc m;
          showAll := showAll m; width := Width; height := Height;
          scroll := scroll m; selected := selected m; err := err m;
          quitting := quitting m |}, CmdNil)
  | KeyMsg key => updateKey m key
  | tickMsg => (m, CmdTickAndFetch)
  | containerMsg containers' info' err' =>
      (updateContainers m containers' info' err', CmdNil)
  | otherMsg => (m, CmdNil)
  end.

(** One collect cycle of the session: the fetch command runs and its
    message is handed to [Update]. *)
Definition cycle (c : client.Client) (order : list nat) (m : statsModel)
  : Outcome statsModel :=
  match fetchContainers c (showAll m) order with
  | Panicked => Panicked
  | Returned msg => Returned (fst (Update m msg))
  end.

End main.

(** ** Quantities the statements below speak about *)

(** The two counter differences of [calculateCPUPercent], as the
    [uint64] values the subtractions produce. *)
Definition cpuDelta (stats : StatsJSON) : Z :=
  wrap64 (TotalUsage (cpu_usage (cpu_stats stats))
          - TotalUsage (cpu_usage (precpu_stats stats))).

Definition sysDelta (stats : StatsJSON) : Z :=
  wrap64 (SystemUsage (cpu_stats stats) - SystemUsage (precpu_stats stats)).

(** The core count of the specification: the reported online count, else
    the number of per-core entries, else one. *)
Definition onlineCoreCount (stats : StatsJSON) : Z :=
  let online := OnlineCPUs (cpu_stats stats) in
  let percpu := Z.of_nat (List.length (PercpuUsage (cpu_usage (cpu_stats stats)))) in
  if online =? 0 then (if percpu =? 0 then 1 else percpu) else online.

(** The sum of a list of integers, without wrap-around. *)
Definition sumZ (l : list Z) : Z := fold_right Z.add 0 l.

(** The operation tags the [switch] of [getContainerStats] lists. *)
Definition isReadOp (op : string) : bool := (op =? "read")%string || (op =? "Read")%string.
Definition isWriteOp (op : string) : bool := (op =? "write")%string || (op =? "Write")%string.

(** Case-insensitive comparison of a tag with a lower-case word, the
    matching the specification describes. *)
Definition lowerAscii (a : ascii) : ascii :=
  let n := N_of_ascii a in
  if ((65 <=? n) && (n <=? 90))%N then ascii_of_N (n + 32) else a.

Fixpoint toLower (s : string) : string :=
  match s with
  | EmptyString => EmptyString
  | String a rest => String (lowerAscii a) (toLower rest)
  end.

Definition equalFold (op word : string) : bool := (toLower op =? word)%string.

(** Two snapshots are untied for a field when the field orders them one
    way or the other; a list has no ties when any two of its entries are
    untied. *)
Definition untied (field : SortField) (a b : ContainerStats) : bool :=
  fieldLess field a b || fieldLess field b a.

Fixpoint tie_free (field : SortField) (l : list ContainerStats) : bool :=
  match l with
  | [] => true
  | a :: rest => forallb (untied field a) rest && tie_free field rest
  end.

(** The fields [SortContainers] names in its [switch]. *)
Definition definedField (field : SortField) : bool :=
  (0 <=? field) && (field <=? 5).

(** The host configuration that the inspect of a container gives: none
    when the call fails, and none when the response carries a nil
    pointer. *)
Definition inspectedHostConfig (c : client.Client) (cont : container.Summary)
  : option container.HostConfig :=
  match client.ContainerInspect c (container.ID cont) with
  | Ok containerInfo => container.HostConfigPtr containerInfo
  | Err _ => None
  end.

(** The inspect of a container succeeds with a response that carries no
    host configuration. *)
Definition hostConfigMissing (c : client.Client) (cont : container.Summary)
  : bool :=
  match client.ContainerInspect c (container.ID cont) with
  | Ok containerInfo =>
      match container.HostConfigPtr containerInfo with
      | Some _ => false
      | None => true
      end
  | Err _ => false
  end.

(** The stats call for a container failed: the fetch returned an error,
    or the decoder returned an error other than [io.EOF]. *)
Definition statsFailed (c : client.Client) (cont : container.Summary) : Prop :=
  (exists e, client.ContainerStats c (container.ID cont) = Err e)
  \/ (exists e, client.ContainerStats c (container.ID cont) = Ok (DecodeErr e)).

(** While a slice is sorted with the comparison [cmp], [R y z] reads: in
    the part already ordered, [y] stands right of [z]. An element [x] is
    placed with respect to an earlier element [y] when the comparison of
    the two decides which one stands right of the other. *)
Definition placed {A : Type} (cmp : A -> A -> bool) (R : A -> A -> Prop)
  (y x : A) : Prop :=
  (cmp x y = true -> R y x) /\ (cmp x y = false -> R x y).

(** ** Sample data for the examples *)

(** A payload with four online cores whose container used 200 of the
    1000 ticks of the system between the two samples. *)
Definition sampleStats : StatsJSON :=
  {| cpu_stats :=
       {| cpu_usage := {| TotalUsage := 400; PercpuUsage := [] |};
          SystemUsage := 2000; OnlineCPUs := 4 |};
     precpu_stats :=
       {| cpu_usage := {| TotalUsage := 200; PercpuUsage := [] |};
          SystemUsage := 1000; OnlineCPUs := 4 |};
     memory_stats := {| Usage := 1073741824; Limit := 2147483648 |};
     networks :=
       [("eth0", {| RxBytes := 1000; TxBytes := 2000 |});
        ("eth1", {| RxBytes := 24; TxBytes := 48 |})];
     blkio_stats :=
       {| IoServiceBytesRecursive :=
            [{| Op := "Read"; Value := 4096 |};
             {| Op := "Write"; Value := 512 |};
             {| Op := "READ"; Value := 100 |};
             {| Op := "read"; Value := 4 |}] |};
     pids_stats := {| Current := 3 |} |}.

(** A payload whose system counter went down between the two samples,
    from 2000 to 1000, while the container used 400 ticks. *)
Definition resetStats : StatsJSON :=
  {| cpu_stats :=
       {| cpu_usage := {| TotalUsage := 500; PercpuUsage := [] |};
          SystemUsage := 1000; OnlineCPUs := 1 |};
     precpu_stats :=
       {| cpu_usage := {| TotalUsage := 100; PercpuUsage := [] |};
          SystemUsage := 2000; OnlineCPUs := 1 |};
     memory_stats := {| Usage := 0; Limit := 0 |};
     networks := [];
     blkio_stats := {| IoServiceBytesRecursive := [] |};
     pids_stats := {| Current := 0 |} |}.

(** A running container with a full-length identifier. *)
Definition sampleContainer : container.Summary :=
  {| container.ID := "0123456789abcdef0123456789abcdef";
     container.Names := ["/web"; "/alias"];
     container.Image := "nginx:latest";
     container.ImageID := "sha256:aaaa";
     container.Status := "Up 2 hours";
     container.State := "running";
     container.Created := 1700000000;
     container.SizeRw := 4096 |}.

(** A second running container; the daemon fails every call about it. *)
Definition brokenContainer : container.Summary :=
  {| container.ID := "fedcba9876543210fedcba9876543210";
     container.Names := ["/db"];
     container.Image := "postgres:16";
     container.ImageID := "sha256:bbbb";
     container.Status := "Up 5 minutes";
     container.State := "running";
     container.Created := 1700000100;
     container.SizeRw := 0 |}.

(** A list entry whose identifier has three characters. *)
Definition shortContainer : container.Summary :=
  {| container.ID := "abc";
     container.Names := ["/tiny"];
     container.Image := "busybox";
     container.ImageID := "sha256:cccc";
     container.Status := "Up";
     container.State := "running";
     container.Created := 0;
     container.SizeRw := 0 |}.

Definition sampleInfo : Result system.Info :=
  Ok {| system.ServerVersion := "27.0"; system.Containers := 2;
        system.ContainersRunning := 2; system.ContainersPaused := 0;
        system.ContainersStopped := 0; system.MemTotal := 8589934592;
        system.NCPU := 4; system.OSType := "linux";
        system.Architecture := "x86_64" |}.

(** A daemon that lists [listed] and answers for [sampleContainer] only. *)
Definition sampleClient (listed : list container.Summary) : client.Client :=
  {| client.ContainerList := fun _ => Ok listed;
     client.ImageInspect := fun ref =>
       if (ref =? "sha256:aaaa")%string then Ok {| image.Size := 187000000 |}
       else Err "No such image";
     client.ContainerInspect := fun id =>
       if (id =? container.ID sampleContainer)%string
       then Ok {| container.HostConfigPtr :=
                    Some {| container.NanoCPUs := 1500000000;
                            container.CPUQuota := 0;
                            container.CPUPeriod := 0 |} |}
       else Err "No such container";
     client.ContainerStats := fun id =>
       if (id =? container.ID sampleContainer)%string
       then Ok (DecodeOk sampleStats)
       else Err "context deadline exceeded";
     client.Info := sampleInfo;
     client.ImageList := Ok [{| image.SummarySize := 187000000 |}] |}.

(** A daemon that lists [listed] and answers every container inspect
    with a response without host configuration. *)
Definition bareInspectClient (listed : list container.Summary) : client.Client :=
  {| client.ContainerList := fun _ => Ok listed;
     client.ImageInspect := client.ImageInspect (sampleClient listed);
     client.ContainerInspect := fun _ => Ok {| container.HostConfigPtr := None |};
     client.ContainerStats := client.ContainerStats (sampleClient listed);
     client.Info := sampleInfo;
     client.ImageList := client.ImageList (sampleClient listed) |}.

(** A daemon whose list call fails. *)
Definition failingClient : client.Client :=
  {| client.ContainerList := fun _ => Err "connection refused";
     client.ImageInspect := fun _ => Err "connection refused";
     client.ContainerInspect := fun _ => Err "connection refused";
     client.ContainerStats := fun _ => Err "connection refused";
     client.Info := Err "connection refused";
     client.ImageList := Err "connection refused" |}.

(** A snapshot with the fields that [TestSortContainers] sets. *)
Definition snapshot (name : string) (cpu mem : Z) : ContainerStats :=
  {| ID := ""; Name := name; Image := ""; Status := ""; State := "";
     CPUPercent := Float64.of_Z cpu; CPULimit := Float64.zero;
     MemUsage := 0; MemLimit := 0; MemPercent := Float64.of_Z mem;
     NetRx := 0; NetTx := 0; BlockRead := 0; BlockWrite := 0;
     PIDs := 0; ImageSize := 0; ContainerSize := 0; Created := 0 |}.

(** The three containers of [TestSortContainers]. *)
Definition testContainers : list ContainerStats :=
  [snapshot "alpha" 50 30; snapshot "beta" 10 80; snapshot "gamma" 90 10].

(** Two containers with the same CPU percentage. *)
Definition tiedContainers : list ContainerStats :=
  [snapshot "alpha" 50 30; snapshot "beta" 50 80].



(** A bubbletea model that shows [testContainers] by CPU, descending,
    with the last row selected in a window of two rows. *)
Definition sampleModel : main.statsModel :=
  {| main.containers := SortContainers testContainers SortByCPU false;
     main.info := None;
     main.sortField := SortByCPU; main.sortAsc := false;
     main.showAll := false; main.width := 120; main.height := 12;
     main.scroll := 1; main.selected := 2; main.err := None;
     main.quitting := false |}.

(** A tview application that shows [testContainers] by CPU, descending. *)
Definition sampleApp : ui.App :=
  {| ui.showAll := false; ui.infoBar := None;
     ui.statusBar := "q:Quit  r:Refresh";
     ui.containers := SortContainers testContainers SortByCPU false;
     ui.sortField := SortByCPU; ui.sortAsc := false |}.

(** ** Package docker: the other formatting helpers *)

(** [FormatBytesInt64] *)
Definition FormatBytesInt64 (bytes : Z) : Outcome string :=
  if bytes <? 0 then Returned "0B" else FormatBytes (wrap64 bytes).

(** [FormatNetIO] *)
Definition FormatNetIO (rx tx : Z) : Outcome string :=
  match FormatBytes rx, FormatBytes tx with
  | Returned r, Returned t => Returned (r ++ " / " ++ t)
  | _, _ => Panicked
  end.

(** [FormatBlockIO] *)
Definition FormatBlockIO (read write : Z) : Outcome string :=
  match FormatBytes read, FormatBytes write with
  | Returned r, Returned w => Returned (r ++ " / " ++ w)
  | _, _ => Panicked
  end.

(** ** Package main: the helpers of the view *)

(** The horizontal ellipsis, three bytes in UTF-8. *)
Definition ellipsis : string :=
  String (ascii_of_nat 226) (String (ascii_of_nat 128) (String (ascii_of_nat 166) "")).

(** [truncate]: the slice expression [s[:max-1]] panics when [max - 1] is
    negative. *)
Definition truncate (s : string) (max : Z) : Outcome string :=
  if max <? Z.of_nat (String.length s) then
    if wrap_int (max - 1) <? 0 then Panicked
    else
      match slice_to s (Z.to_nat (wrap_int (max - 1))) with
      | Some head => Returned (head ++ ellipsis)
      | None => Panicked
      end
  else Returned s.

(** The loop of [repeatStr]. *)
Fixpoint repeatStr_loop (count : nat) (s result : string) : string :=
  match count with
  | O => result
  | S count' => repeatStr_loop count' s (result ++ s)
  end.

(** [repeatStr] *)
Definition repeatStr (s : string) (n : Z) : string :=
  if n <=? 0 then "" else repeatStr_loop (Z.to_nat n) s "".

(** The width of the name column that [View] computes: the longest
    name, at least 9, capped by the room the terminal leaves and by 30. *)
Definition colName (m : main.statsModel) : Z :=
  let maxNameLen :=
    fold_left (fun acc c =>
                 let nameLen := Z.of_nat (String.length (Name c)) in
                 if acc <? nameLen then nameLen else acc)
              (main.containers m) 9 in
  let otherColsWidth := 105 in
  let maxNameWidth := wrap_int (main.width m - otherColsWidth) in
  let maxNameWidth := if maxNameWidth <? 9 then 9 else maxNameWidth in
  let maxNameWidth := if 30 <? maxNameWidth then 30 else maxNameWidth in
  let colName := maxNameLen in
  let colName := if maxNameWidth <? colName then maxNameWidth else colName in
  if colName <? 9 then 9 else colName.

(** The name [View] prints in a row: cut to the column with the same
    expression as [truncate]. *)
Definition rowName (m : main.statsModel) (c : ContainerStats) : Outcome string :=
  truncate (Name c) (colName m).

(** The index expression [containers[i]], which panics out of range. *)
Definition index (containers : list ContainerStats) (i : Z) : option ContainerStats :=
  if i <? 0 then None else nth_error containers (Z.to_nat i).

(** The row loop of [View], [count] turns from the index [i] on: the
    snapshot of each row and whether the row is the selected one. *)
Fixpoint viewRows_loop (containers : list ContainerStats) (selected i : Z)
  (count : nat) : Outcome (list (ContainerStats * bool)) :=
  match count with
  | O => Returned []
  | S count' =>
      match index containers i with
      | None => Panicked
      | Some c =>
          match viewRows_loop containers selected (wrap_int (i + 1)) count' with
          | Returned rows => Returned ((c, i =? selected) :: rows)
          | Panicked => Panicked
          end
      end
  end.

(** The number of rows [View] has room for. *)
Definition viewVisibleRows (m : main.statsModel) : Z :=
  let visibleRows := wrap_int (main.height m - 8) in
  if visibleRows <? 1 then 1 else visibleRows.

(** The index after the last row [View] renders. *)
Definition viewEndIdx (m : main.statsModel) : Z :=
  let endIdx := wrap_int (main.scroll m + viewVisibleRows m) in
  if main.len m <? endIdx then main.len m else endIdx.

(** What [View] returns: a fixed text, or the table, of which the rows
    are kept, each with its snapshot and whether it is rendered as the
    selected one. *)
Inductive Screen : Type :=
| Text (s : string)
| Table (rows : list (ContainerStats * bool)).

(** [View]: the empty string while quitting, "Loading..." as long as no
    window size arrived, and else the table with the rows from
    [m.scroll] up to [endIdx]. *)
Definition View (m : main.statsModel) : Outcome Screen :=
  if main.quitting m then Returned (Text "")
  else if main.width m =? 0 then Returned (Text "Loading...")
  else
    match viewRows_loop (main.containers m) (main.selected m) (main.scroll m)
                        (Z.to_nat (viewEndIdx m - main.scroll m)) with
    | Returned rows => Returned (Table rows)
    | Panicked => Panicked
    end.

(** [n] copies of a string, one after the other. *)
Fixpoint copies (n : nat) (s : string) : string :=
  match n with
  | O => ""
  | S n' => s ++ copies n' s
  end.

(** The number of rows the navigation keys of [Update] count with. *)
Definition updateVisibleRows (m : main.statsModel) : Z :=
  let visibleRows := wrap_int (main.height m - 10) in
  if visibleRows <? 1 then 1 else visibleRows.

(** ** Predicates of the statements on the new code *)

(** A float that is neither NaN nor negative (nor the negative zero). *)
Definition nonNegative (x : Float64.t) : bool :=
  match x with
  | S754_zero false | S754_infinity false | S754_finite false _ _ => true
  | _ => false
  end.

(** A float that is finite and positive. *)
Definition finitePositive (x : Float64.t) : bool :=
  match x with
  | S754_finite false _ _ => true
  | _ => false
  end.

(** A float that is positive, an infinity or a finite one whose
    exponent is at least [k]. *)
Definition positiveFrom (k : Z) (x : Float64.t) : Prop :=
  x = S754_infinity false
  \/ exists m e, x = S754_finite false m e /\ k <= e.

(** Two daemons that answer alike about a container, the stats call
    apart. *)
Definition sameInspects (c c' : client.Client) (cont : container.Summary) : Prop :=
  client.ImageInspect c (container.ImageID cont)
  = client.ImageInspect c' (container.ImageID cont)
  /\ client.ContainerInspect c (container.ID cont)
     = client.ContainerInspect c' (container.ID cont).

(** The selection and the scroll offset of a model are consistent with a
    table of [n] rows and a window of [rows] rows. *)
Definition inWindow (m : main.statsModel) (n rows : Z) : Prop :=
  0 <= main.scroll m /\ main.scroll m <= main.selected m
  /\ main.selected m < n /\ main.selected m < main.scroll m + rows.

(** The host configurations the daemon can answer with: every field in
    the range of [int64]. *)
Definition wf_HostConfig (h : container.HostConfig) : bool :=
  in_int64 (container.NanoCPUs h) && in_int64 (container.CPUQuota h)
  && in_int64 (container.CPUPeriod h).

(** The answers of a daemon about a container are in the range of their
    Go types; the per-core list, a Go slice, has a length that fits
    [int]. *)
Definition wf_answers (c : client.Client) (cont : container.Summary) : Prop :=
  (forall statsJSON,
      client.ContainerStats c (container.ID cont) = Ok (DecodeOk statsJSON) ->
      wf_StatsJSON statsJSON = true
      /\ Z.of_nat (List.length (PercpuUsage (cpu_usage (cpu_stats statsJSON))))
         < 2 ^ 63)
  /\ (forall h,
         inspectedHostConfig c cont = Some h -> wf_HostConfig h = true).

(** A payload with its network entries replaced. *)
Definition withNetworks (s : StatsJSON) (nets : list (string * NetStats)) : StatsJSON :=
  {| cpu_stats := cpu_stats s; precpu_stats := precpu_stats s;
     memory_stats := memory_stats s; networks := nets;
     blkio_stats := blkio_stats s; pids_stats := pids_stats s |}.

(** The daemon [c] with another answer of the stats call. *)
Definition withStats (c : client.Client) (answer : string -> Result Decoded)
  : client.Client :=
  {| client.ContainerList := client.ContainerList c;
     client.ImageInspect := client.ImageInspect c;
     client.ContainerInspect := client.ContainerInspect c;
     client.ContainerStats := answer;
     client.Info := client.Info c;
     client.ImageList := client.ImageList c |}.

(** A container that is listed as exited. *)
Definition exitedContainer : container.Summary :=
  {| container.ID := "0123456789abcdef0123456789abcdef";
     container.Names := ["/web"; "/alias"];
     container.Image := "nginx:latest";
     container.ImageID := "sha256:aaaa";
     container.Status := "Exited (0) 3 hours ago";
     container.State := "exited";
     container.Created := 1700000000;
     container.SizeRw := 4096 |}.

(** The integers of a model are far from the limits of [int]: the
    terminal height, the number of rows, the scroll offset and the
    selection have at most sixty bits. *)
Definition boundedModel (m : main.statsModel) : Prop :=
  - 2 ^ 60 <= main.height m <= 2 ^ 60
  /\ main.len m <= 2 ^ 60
  /\ - 2 ^ 60 <= main.scroll m <= 2 ^ 60
  /\ - 2 ^ 60 <= main.selected m <= 2 ^ 60.

(** The daemon of [sampleClient] when its info call fails. *)
Definition sampleClientNoInfo (listed : list container.Summary) : client.Client :=
  {| client.ContainerList := client.ContainerList (sampleClient listed);
     client.ImageInspect := client.ImageInspect (sampleClient listed);
     client.ContainerInspect := client.ContainerInspect (sampleClient listed);
     client.ContainerStats := client.ContainerStats (sampleClient listed);
     client.Info := Err "connection refused";
     client.ImageList := client.ImageList (sampleClient listed) |}.

(** ** Package main: what [View] prints for a snapshot *)

(** The infinity sign, three bytes in UTF-8. *)
Definition infinitySign : string :=
  String (ascii_of_nat 226) (String (ascii_of_nat 136) (String (ascii_of_nat 158) "")).

(** The CPU limit column of a row of [View]. *)
Definition cpuLim (c : ContainerStats) : string :=
  if Float64.ltb Float64.zero (CPULimit c) then fmt.f1 (CPULimit c)
  else infinitySign.

(** A host configuration sets a CPU limit: a positive [NanoCPUs], or a
    positive quota with a positive period. *)
Definition limitConfigured (h : container.HostConfig) : bool :=
  (0 <? container.NanoCPUs h)
  || ((0 <? container.CPUQuota h) && (0 <? container.CPUPeriod h)).

(** ** Package main: bars and colours *)

(** The comparison [x >= y] of two [float64]. *)
Definition float64_geb (x y : Float64.t) : bool := SFleb y x.

(** The conversion [int(x)] of a [float64]: the fraction is dropped; what
    a value outside of [int] gives is left to the implementation by the
    language, here [indef]. *)
Definition float64_to_int (indef : Float64.t -> Z) (x : Float64.t) : Z :=
  match x with
  | S754_zero _ => 0
  | S754_finite s m e =>
      let a := if 0 <=? e then Zpos m * 2 ^ e else Zpos m / 2 ^ (- e) in
      let v := if s then - a else a in
      if in_int64 v then v else indef x
  | _ => indef x
  end.

(** The lipgloss styles of the table, and the two glyphs of a bar; a
    rendered bar is kept as its list of styled cells. *)
Inductive Style : Type :=
  redStyle | yellowStyle | greenStyle | cyanStyle | dimStyle.

Inductive Glyph : Type := fullBlock | lightShade.

Definition Cell : Type := (Style * Glyph)%type.

(** The style that [makeBar] picks. *)
Definition barStyle (percent : Float64.t) : Style :=
  if float64_geb percent (Float64.of_Z 90) then redStyle
  else if float64_geb percent (Float64.of_Z 70) then yellowStyle
  else if float64_geb percent (Float64.of_Z 40) then greenStyle
  else cyanStyle.

(** The loop of [makeBar]. *)
Fixpoint makeBar_loop (n : nat) (i filled : Z) (style : Style)
  (bar : list Cell) : list Cell :=
  match n with
  | O => bar
  | S n' =>
      makeBar_loop n' (i + 1) filled style
        (bar ++ [if i <? filled then (style, fullBlock)
                 else (dimStyle, lightShade)])
  end.

(** [makeBar] *)
Definition makeBar (indef : Float64.t -> Z) (percent : Float64.t)
  (width : Z) : list Cell :=
  let filled :=
    float64_to_int indef
      (Float64.mul (Float64.div percent (Float64.of_Z 100))
         (Float64.of_Z width)) in
  let filled := if width <? filled then width else filled in
  let filled := if filled <? 0 then 0 else filled in
  makeBar_loop (Z.to_nat width) 0 filled (barStyle percent) [].

(** The style of the CPU percentage of a row of [View]. *)
Definition cpuStyle (percent : Float64.t) : Style :=
  if float64_geb percent (Float64.of_Z 80) then redStyle
  else if float64_geb percent (Float64.of_Z 50) then yellowStyle
  else if float64_geb percent (Float64.of_Z 20) then greenStyle
  else cyanStyle.

(** The style of the memory percentage of a row of [View]. *)
Definition memStyle (percent : Float64.t) : Style :=
  if float64_geb percent (Float64.of_Z 90) then redStyle
  else if float64_geb percent (Float64.of_Z 70) then yellowStyle
  else if float64_geb percent (Float64.of_Z 40) then greenStyle
  else cyanStyle.

(** ** Package ui: colours *)

Inductive Color : Type := ColorRed | ColorYellow | ColorGreen | ColorWhite.

(** [getCPUColor] *)
Definition getCPUColor (percent : Float64.t) : Color :=
  if float64_geb percent (Float64.of_Z 80) then ColorRed
  else if float64_geb percent (Float64.of_Z 50) then ColorYellow
  else if float64_geb percent (Float64.of_Z 20) then ColorGreen
  else ColorWhite.

(** [getMemColor] *)
Definition getMemColor (percent : Float64.t) : Color :=
  if float64_geb percent (Float64.of_Z 90) then ColorRed
  else if float64_geb percent (Float64.of_Z 70) then ColorYellow
  else if float64_geb percent (Float64.of_Z 40) then ColorGreen
  else ColorWhite.

(** A percentage in the band from [lo] to [hi], [hi] left out. *)
Definition inBand (percent : Float64.t) (lo hi : Z) : bool :=
  float64_geb percent (Float64.of_Z lo)
  && negb (float64_geb percent (Float64.of_Z hi)).

(** The tcell colour of a lipgloss style of the table; the plain cells
    are cyan in one interface and white in the other. *)
Definition colorOf (s : Style) : Color :=
  match s with
  | redStyle => ColorRed
  | yellowStyle => ColorYellow
  | greenStyle => ColorGreen
  | cyanStyle | dimStyle => ColorWhite
  end.

(** * Properties *)

(** ** float64 conversions *)

Lemma digits2_pos_size (p : positive) : digits2_pos p = Pos.size p.
Proof. induction p as [p IH | p IH |]; simpl; now rewrite ?IH. Qed.

Lemma iter_pos_shift {A : Type} (f : A -> A) (n : positive) (x : A) :
  iter_pos f n (f x) = f (iter_pos f n x).
Proof.
  revert x. induction n as [n IH | n IH |]; intro x; simpl.
  - now rewrite !IH.
  - now rewrite !IH.
  - reflexivity.
Qed.

Lemma iter_pos_succ {A : Type} (f : A -> A) (n : positive) (x : A) :
  iter_pos f (Pos.succ n) x = f (iter_pos f n x).
Proof.
  revert x. induction n as [n IH | n IH |]; intro x; simpl.
  - rewrite !IH, !iter_pos_shift. reflexivity.
  - now rewrite !iter_pos_shift.
  - reflexivity.
Qed.

Lemma shr_1_m (mrs : shr_record) :
  0 <= shr_m mrs -> shr_m (shr_1 mrs) = Z.div2 (shr_m mrs).
Proof.
  destruct mrs as [m r s]; simpl. intro H.
  destruct m as [| p | p]; [reflexivity | destruct p; reflexivity | lia].
Qed.

Lemma iter_shr_1_m (n : positive) (mrs : shr_record) :
  0 <= shr_m mrs ->
  shr_m (iter_pos shr_1 n mrs) = shr_m mrs / 2 ^ Zpos n.
Proof.
  intro Hm. induction n as [| n IH] using Pos.peano_ind.
  - simpl iter_pos. rewrite shr_1_m by assumption.
    now rewrite Z.div2_div.
  - rewrite iter_pos_succ, shr_1_m.
    + rewrite IH, Z.div2_div, Pos2Z.inj_succ, Z.pow_succ_r by lia.
      rewrite Z.div_div by lia. f_equal. lia.
    + rewrite IH. apply Z.div_pos; lia.
Qed.

Lemma size_lower (p : positive) : 2 ^ (Zpos (Pos.size p) - 1) <= Zpos p.
Proof.
  pose proof (Pos.size_le p) as H.
  assert (H2 : 2 ^ Zpos (Pos.size p) <= 2 * Zpos p).
  { change 2 with (Zpos 2) at 1. rewrite <- Pos2Z.inj_pow.
    change (2 * Zpos p) with (Zpos (p~0)). now apply Pos2Z.pos_le_pos. }
  replace (Zpos (Pos.size p)) with (Z.succ (Zpos (Pos.size p) - 1)) in H2 by lia.
  rewrite Z.pow_succ_r in H2 by lia. lia.
Qed.

(** Shifting a positive mantissa whose exponent is not below [emin] keeps
    it positive and does not lower the exponent. *)
Lemma shr_fexp_positive (m : positive) (e : Z) (l : location) :
  emin Float64.prec Float64.emax <= e ->
  exists m' r s e',
    shr_fexp Float64.prec Float64.emax (Zpos m) e l
    = ({| shr_m := Zpos m'; shr_r := r; shr_s := s |}, e') /\ e <= e'.
Proof.
  intro He. unfold shr_fexp, shr.
  set (rec := shr_record_of_loc (Zpos m) l).
  assert (Hrec : shr_m rec = Zpos m) by (subst rec; destruct l as [| []]; reflexivity).
  destruct (fexp Float64.prec Float64.emax (Zdigits2 (Zpos m) + e) - e)
    as [| k | k] eqn:Ek.
  - destruct rec as [m0 r s]; simpl in Hrec; subst m0.
    exists m, r, s, e. split; [reflexivity | lia].
  - assert (Hk : Zpos k <= Zpos (Pos.size m) - 1).
    { revert Ek. unfold fexp, emin, Float64.prec, Float64.emax in *.
      simpl Zdigits2. rewrite digits2_pos_size. lia. }
    pose proof (iter_shr_1_m k rec) as Hit. rewrite Hrec in Hit.
    specialize (Hit ltac:(lia)).
    assert (Hpos : 0 < Zpos m / 2 ^ Zpos k).
    { apply Z.div_str_pos. split; [lia |].
      apply Z.le_trans with (2 ^ (Zpos (Pos.size m) - 1)); [| apply size_lower].
      apply Z.pow_le_mono_r; lia. }
    destruct (iter_pos shr_1 k rec) as [m1 r s]; simpl in Hit.
    destruct m1 as [| m1 | m1]; try lia.
    exists m1, r, s, (e + Zpos k). split; [reflexivity | lia].
  - destruct rec as [m0 r s]; simpl in Hrec; subst m0.
    exists m, r, s, e. split; [reflexivity | lia].
Qed.

(** Rounding a positive mantissa never gives a zero or a NaN. *)
Lemma binary_round_aux_positive (sx : bool) (m : positive) (e : Z) (l : location) :
  emin Float64.prec Float64.emax <= e ->
  (exists m' e', binary_round_aux Float64.prec Float64.emax sx (Zpos m) e l
                 = S754_finite sx m' e')
  \/ binary_round_aux Float64.prec Float64.emax sx (Zpos m) e l = S754_infinity sx.
Proof.
  intro He. unfold binary_round_aux.
  destruct (shr_fexp_positive m e l He) as (m1 & r1 & s1 & e1 & -> & He1).
  assert (Hr : exists m2,
             round_nearest_even
               (shr_m {| shr_m := Zpos m1; shr_r := r1; shr_s := s1 |})
               (loc_of_shr_record {| shr_m := Zpos m1; shr_r := r1; shr_s := s1 |})
             = Zpos m2).
  { simpl. destruct r1, s1; simpl; try (eexists; reflexivity).
    destruct m1; simpl; eexists; reflexivity. }
  destruct Hr as [m2 ->].
  destruct (shr_fexp_positive m2 e1 loc_Exact ltac:(lia))
    as (m3 & r3 & s3 & e3 & -> & He3).
  simpl. destruct (e3 <=? 971); [left; eauto | right; reflexivity].
Qed.

Lemma binary_round_signed (sx : bool) (p : positive) :
  (exists m e, binary_round Float64.prec Float64.emax sx p 0 = S754_finite sx m e)
  \/ binary_round Float64.prec Float64.emax sx p 0 = S754_infinity sx.
Proof.
  unfold binary_round, shl_align.
  set (ex' := fexp Float64.prec Float64.emax (Zpos (digits2_pos p) + 0)).
  assert (Hex : - 52 <= ex').
  { subst ex'. unfold fexp, emin, Float64.prec, Float64.emax. lia. }
  destruct (ex' - 0) as [| d | d] eqn:Ed;
    apply binary_round_aux_positive; unfold emin, Float64.prec, Float64.emax; lia.
Qed.

(** [float64(n) > 0] holds exactly when the integer [n] is positive. *)
Lemma ltb_zero_of_Z (n : Z) :
  Float64.ltb Float64.zero (Float64.of_Z n) = (0 <? n).
Proof.
  destruct n as [| p | p]; [reflexivity | |].
  - unfold Float64.of_Z, binary_normalize.
    destruct (binary_round_signed false p) as [(m & e & ->) | ->]; reflexivity.
  - unfold Float64.of_Z, binary_normalize.
    destruct (binary_round_signed true p) as [(m & e & ->) | ->]; reflexivity.
Qed.

(** [float64(n) == 0] holds exactly when the integer [n] is zero. *)
Lemma eqb_of_Z_zero (n : Z) :
  Float64.eqb (Float64.of_Z n) Float64.zero = (n =? 0).
Proof.
  destruct n as [| p | p]; [reflexivity | |].
  - unfold Float64.of_Z, binary_normalize.
    destruct (binary_round_signed false p) as [(m & e & ->) | ->]; reflexivity.
  - unfold Float64.of_Z, binary_normalize.
    destruct (binary_round_signed true p) as [(m & e & ->) | ->]; reflexivity.
Qed.

Lemma wrap64_range (z : Z) : 0 <= wrap64 z < 2 ^ 64.
Proof. unfold wrap64. apply Z.mod_pos_bound. lia. Qed.

(** ** CPU percentage *)

Lemma calculateCPUPercent_unfold (stats : StatsJSON) :
  calculateCPUPercent stats =
  if (0 <? sysDelta stats) && (0 <? cpuDelta stats)
  then Float64.mul
         (Float64.mul
            (Float64.div (Float64.of_Z (cpuDelta stats))
                         (Float64.of_Z (sysDelta stats)))
            (Float64.of_Z (onlineCoreCount stats)))
         (Float64.of_Z 100)
  else Float64.zero.
Proof.
  unfold calculateCPUPercent, onlineCoreCount.
  fold (cpuDelta stats). fold (sysDelta stats).
  rewrite !ltb_zero_of_Z.
  destruct ((0 <? sysDelta stats) && (0 <? cpuDelta stats)); [| reflexivity].
  rewrite eqb_of_Z_zero.
  destruct (OnlineCPUs (cpu_stats stats) =? 0) eqn:Eo.
  - rewrite eqb_of_Z_zero.
    destruct (Z.of_nat (List.length (PercpuUsage (cpu_usage (cpu_stats stats)))) =? 0);
      reflexivity.
  - rewrite eqb_of_Z_zero, Eo. reflexivity.
Qed.

(** On the deltas the code takes, which are differences in [uint64] and
    never negative: [calculateCPUPercent] returns
    [(cpuDelta / sysDelta) * onlineCoreCount * 100] when both are
    positive, where the core count is the reported online count, else the
    number of per-core entries, else one; when one of them is zero the
    result is exactly zero, whatever the core count. *)
Theorem calculateCPUPercent_spec (stats : StatsJSON) :
  (0 < cpuDelta stats /\ 0 < sysDelta stats ->
   calculateCPUPercent stats =
   Float64.mul
     (Float64.mul
        (Float64.div (Float64.of_Z (cpuDelta stats)) (Float64.of_Z (sysDelta stats)))
        (Float64.of_Z (onlineCoreCount stats)))
     (Float64.of_Z 100))
  /\ (cpuDelta stats = 0 \/ sysDelta stats <= 0 ->
      calculateCPUPercent stats = Float64.zero).
Proof.
  rewrite calculateCPUPercent_unfold. split.
  - intros [Hc Hs].
    apply Z.ltb_lt in Hc. apply Z.ltb_lt in Hs. now rewrite Hc, Hs.
  - intros [Hc | Hs].
    + rewrite Hc. now rewrite andb_false_r.
    + apply Z.ltb_ge in Hs. now rewrite Hs.
Qed.

Lemma calculateCPUPercent_spec_witness :
  (0 < cpuDelta sampleStats /\ 0 < sysDelta sampleStats)
  /\ calculateCPUPercent sampleStats = Float64.of_Z 80.
Proof.
  assert (H : 0 < cpuDelta sampleStats /\ 0 < sysDelta sampleStats)
    by (vm_compute; split; reflexivity).
  split; [exact H |].
  rewrite (proj1 (calculateCPUPercent_spec sampleStats) H).
  vm_compute. reflexivity.
Defined.

(** The uint64 subtraction wraps: a counter that went down between the
    two samples gives a positive delta, and a percentage that is not 0. *)
Example calculateCPUPercent_counter_went_down :
  let stats :=
    {| cpu_stats :=
         {| cpu_usage := {| TotalUsage := 100; PercpuUsage := [] |};
            SystemUsage := 2000; OnlineCPUs := 1 |};
       precpu_stats :=
         {| cpu_usage := {| TotalUsage := 200; PercpuUsage := [] |};
            SystemUsage := 1000; OnlineCPUs := 1 |};
       memory_stats := {| Usage := 0; Limit := 0 |};
       networks := [];
       blkio_stats := {| IoServiceBytesRecursive := [] |};
       pids_stats := {| Current := 0 |} |} in
  cpuDelta stats = 2 ^ 64 - 100
  /\ Float64.ltb (Float64.of_Z 1000000000) (calculateCPUPercent stats) = true.
Proof. vm_compute. split; reflexivity. Qed.

(** ** Memory percentage and its formatting *)

Lemma slice_to_some (s : string) (n : nat) :
  (n <= String.length s)%nat -> slice_to s n = Some (substring 0 n s).
Proof.
  intro H. unfold slice_to. apply Nat.leb_le in H. now rewrite H.
Qed.

Lemma slice_to_none (s : string) (n : nat) :
  (String.length s < n)%nat -> slice_to s n = None.
Proof.
  intro H. unfold slice_to. apply Nat.leb_gt in H. now rewrite H.
Qed.

(** The partial snapshot is there unless the inspect answered without a
    host configuration. *)
Lemma partialStats_panics (c : client.Client) (cont : container.Summary)
  (short : string) :
  partialStats c cont short = Panicked <-> hostConfigMissing c cont = true.
Proof.
  unfold partialStats, hostConfigMissing.
  destruct (client.ContainerInspect c (container.ID cont)) as [[[h |]] | e];
    split; intro H; try discriminate H; reflexivity.
Qed.

Lemma partialStats_returns (c : client.Client) (cont : container.Summary)
  (short : string) :
  hostConfigMissing c cont = false ->
  exists partial, partialStats c cont short = Returned partial.
Proof.
  intro H. destruct (partialStats c cont short) as [partial |] eqn:E; [eauto |].
  apply partialStats_panics in E. congruence.
Qed.

Lemma getContainerStats_unfold (c : client.Client) (cont : container.Summary)
  (partial : ContainerStats) :
  (12 <= String.length (container.ID cont))%nat ->
  partialStats c cont (substring 0 12 (container.ID cont)) = Returned partial ->
  getContainerStats c cont = Returned (liveStats c cont partial).
Proof.
  intros Hid Hp. unfold getContainerStats.
  now rewrite (slice_to_some _ _ Hid), Hp.
Qed.

Lemma getContainerStats_inv (c : client.Client) (cont : container.Summary)
  (r : ContainerStats * option error) :
  getContainerStats c cont = Returned r ->
  (12 <= String.length (container.ID cont))%nat
  /\ exists partial,
      partialStats c cont (substring 0 12 (container.ID cont)) = Returned partial
      /\ r = liveStats c cont partial.
Proof.
  unfold getContainerStats, slice_to.
  destruct (12 <=? String.length (container.ID cont))%nat eqn:E; [| discriminate].
  destruct (partialStats c cont (substring 0 12 (container.ID cont)))
    as [partial |]; [| discriminate].
  intro H. injection H as <-. apply Nat.leb_le in E. eauto.
Qed.

(** The snapshot of a running container whose payload was decoded. *)
Lemma getContainerStats_decoded (c : client.Client) (cont : container.Summary)
  (statsJSON : StatsJSON) (partial : ContainerStats) :
  (12 <= String.length (container.ID cont))%nat ->
  container.State cont = "running" ->
  client.ContainerStats c (container.ID cont) = Ok (DecodeOk statsJSON) ->
  partialStats c cont (substring 0 12 (container.ID cont)) = Returned partial ->
  getContainerStats c cont = Returned (applyStats partial statsJSON, None).
Proof.
  intros Hid Hst Hfetch Hp. rewrite (getContainerStats_unfold c cont partial Hid Hp).
  unfold liveStats. rewrite Hst, Hfetch. reflexivity.
Qed.

(** Before the live stats are read every metric of the snapshot is zero. *)
Lemma partialStats_metrics (c : client.Client) (cont : container.Summary)
  (short : string) (s : ContainerStats) :
  partialStats c cont short = Returned s ->
  CPUPercent s = Float64.zero /\ MemUsage s = 0 /\ MemLimit s = 0
  /\ MemPercent s = Float64.zero /\ NetRx s = 0 /\ NetTx s = 0
  /\ BlockRead s = 0 /\ BlockWrite s = 0 /\ PIDs s = 0.
Proof.
  unfold partialStats.
  destruct (client.ImageInspect c (container.ImageID cont)) as [imageInfo | ie];
    destruct (client.ContainerInspect c (container.ID cont)) as [[[h |]] | e];
    intro H; try discriminate H; injection H as <-;
    simpl; repeat split; reflexivity.
Qed.

(** C6. For every usage and limit of a decoded payload the memory
    percentage of the snapshot is [usage / limit * 100] when the limit is
    positive and exactly zero when the limit is zero; a usage of
    1073741824 with a limit of 2147483648 gives 50.0, and
    [FormatMemUsage] gives "1.0GiB / 2.0GiB" for them. The snapshot is
    the one of a running container whose identifier can be cut and whose
    inspect, if it succeeds, carries a host configuration: the function
    returns no snapshot otherwise. *)
Theorem memory_percent_spec :
  (forall (c : client.Client) (cont : container.Summary) (statsJSON : StatsJSON),
      (12 <= String.length (container.ID cont))%nat ->
      hostConfigMissing c cont = false ->
      container.State cont = "running" ->
      client.ContainerStats c (container.ID cont) = Ok (DecodeOk statsJSON) ->
      exists stats,
        getContainerStats c cont = Returned (stats, None)
        /\ MemUsage stats = Usage (memory_stats statsJSON)
        /\ MemLimit stats = Limit (memory_stats statsJSON)
        /\ (0 < Limit (memory_stats statsJSON) ->
            MemPercent stats =
            Float64.mul
              (Float64.div (Float64.of_Z (Usage (memory_stats statsJSON)))
                           (Float64.of_Z (Limit (memory_stats statsJSON))))
              (Float64.of_Z 100))
        /\ (Limit (memory_stats statsJSON) = 0 -> MemPercent stats = Float64.zero))
  /\ memPercent Float64.zero 1073741824 2147483648 = Float64.of_Z 50
  /\ FormatMemUsage 1073741824 2147483648 = Returned "1.0GiB / 2.0GiB".
Proof.
  split; [| split; vm_compute; reflexivity].
  intros c cont statsJSON Hid Hhost Hst Hfetch.
  destruct (partialStats_returns c cont (substring 0 12 (container.ID cont)) Hhost)
    as [partial Hp].
  eexists. split; [apply getContainerStats_decoded; eassumption |].
  destruct (partialStats_metrics c cont _ partial Hp) as (_ & _ & _ & Hmp & _).
  cbn [applyStats MemUsage MemLimit MemPercent]. unfold memPercent.
  repeat split.
  - intro Hl. apply Z.ltb_lt in Hl. now rewrite Hl.
  - intro Hl. rewrite Hl. cbn. exact Hmp.
Qed.

Lemma memory_percent_spec_witness :
  exists stats,
    getContainerStats (sampleClient [sampleContainer]) sampleContainer
    = Returned (stats, None)
    /\ MemPercent stats = Float64.of_Z 50.
Proof.
  destruct (proj1 memory_percent_spec (sampleClient [sampleContainer])
              sampleContainer sampleStats)
    as (stats & Hget & _ & _ & Hpos & _).
  - simpl. lia.
  - reflexivity.
  - reflexivity.
  - reflexivity.
  - exists stats. split; [exact Hget |].
    rewrite Hpos by (vm_compute; reflexivity). vm_compute. reflexivity.
Defined.

(** ** The collector *)

(** Every path of [getContainerStats] that returns, returns a nil error. *)
Lemma liveStats_nil_error (c : client.Client) (cont : container.Summary)
  (stats : ContainerStats) : snd (liveStats c cont stats) = None.
Proof.
  unfold liveStats.
  destruct (negb (container.State cont =? "running")%string); [reflexivity |].
  destruct (client.ContainerStats c (container.ID cont)) as [[sj | | e] | e];
    reflexivity.
Qed.

Lemma getContainerStats_nil_error (c : client.Client) (cont : container.Summary)
  (r : ContainerStats * option error) :
  getContainerStats c cont = Returned r -> snd r = None.
Proof.
  intro H. apply getContainerStats_inv in H.
  destruct H as (_ & partial & _ & ->). apply liveStats_nil_error.
Qed.

(** The slice expression and the host configuration decide between a
    panic and a return. *)
Lemma getContainerStats_panics (c : client.Client) (cont : container.Summary) :
  getContainerStats c cont = Panicked
  <-> (String.length (container.ID cont) < 12)%nat
      \/ hostConfigMissing c cont = true.
Proof.
  unfold getContainerStats, slice_to.
  destruct (12 <=? String.length (container.ID cont))%nat eqn:E.
  - apply Nat.leb_le in E.
    destruct (partialStats c cont (substring 0 12 (container.ID cont)))
      as [partial |] eqn:Ep.
    + split; [discriminate |]. intros [H | H]; [lia |].
      apply (partialStats_panics c cont (substring 0 12 (container.ID cont))) in H.
      congruence.
    + split; [| reflexivity]. intros _. right.
      now apply (partialStats_panics c cont (substring 0 12 (container.ID cont))).
  - apply Nat.leb_gt in E. split; [intros _; left; exact E | reflexivity].
Qed.

Lemma getContainerStats_returns (c : client.Client) (cont : container.Summary) :
  (12 <= String.length (container.ID cont))%nat ->
  hostConfigMissing c cont = false ->
  exists partial,
    partialStats c cont (substring 0 12 (container.ID cont)) = Returned partial
    /\ getContainerStats c cont = Returned (fst (liveStats c cont partial), None).
Proof.
  intros H Hhost.
  destruct (partialStats_returns c cont (substring 0 12 (container.ID cont)) Hhost)
    as [partial Hp].
  exists partial. split; [exact Hp |].
  rewrite (getContainerStats_unfold c cont partial H Hp).
  rewrite (surjective_pairing (liveStats _ _ _)) at 1.
  now rewrite liveStats_nil_error.
Qed.

(** The live stats leave identity, sizes and CPU limit as they were. *)
Lemma applyStats_identity (s : ContainerStats) (statsJSON : StatsJSON) :
  let s' := applyStats s statsJSON in
  ID s' = ID s /\ Name s' = Name s /\ Image s' = Image s
  /\ Status s' = Status s /\ State s' = State s /\ CPULimit s' = CPULimit s
  /\ ImageSize s' = ImageSize s /\ ContainerSize s' = ContainerSize s
  /\ Created s' = Created s.
Proof. cbn. repeat split; reflexivity. Qed.

Lemma liveStats_identity (c : client.Client) (cont : container.Summary)
  (s : ContainerStats) :
  let s' := fst (liveStats c cont s) in
  ID s' = ID s /\ Name s' = Name s /\ Image s' = Image s
  /\ Status s' = Status s /\ State s' = State s /\ CPULimit s' = CPULimit s
  /\ ImageSize s' = ImageSize s /\ ContainerSize s' = ContainerSize s
  /\ Created s' = Created s.
Proof.
  unfold liveStats.
  destruct (negb (container.State cont =? "running")%string);
    [cbn; repeat split; reflexivity |].
  destruct (client.ContainerStats c (container.ID cont)) as [[sj | | e] | e];
    cbn; repeat split; reflexivity.
Qed.

(** Identity and sizes of the partial snapshot. *)
Lemma partialStats_identity (c : client.Client) (cont : container.Summary)
  (short : string) (s : ContainerStats) :
  partialStats c cont short = Returned s ->
  ID s = short /\ Name s = trimContainerName (container.Names cont)
  /\ Image s = container.Image cont /\ Status s = container.Status cont
  /\ State s = container.State cont
  /\ ContainerSize s = container.SizeRw cont
  /\ Created s = container.Created cont.
Proof.
  unfold partialStats.
  destruct (client.ImageInspect c (container.ImageID cont)) as [imageInfo | ie];
    destruct (client.ContainerInspect c (container.ID cont)) as [[[h |]] | e];
    intro H; try discriminate H; injection H as <-;
    cbn; repeat split; reflexivity.
Qed.

Lemma partialStats_ImageSize (c : client.Client) (cont : container.Summary)
  (short : string) (s : ContainerStats) :
  partialStats c cont short = Returned s ->
  ImageSize s =
  match client.ImageInspect c (container.ImageID cont) with
  | Ok imageInfo => image.Size imageInfo
  | Err _ => 0
  end.
Proof.
  unfold partialStats.
  destruct (client.ImageInspect c (container.ImageID cont)) as [imageInfo | ie];
    destruct (client.ContainerInspect c (container.ID cont)) as [[[h |]] | e];
    intro H; try discriminate H; injection H as <-; reflexivity.
Qed.

Lemma partialStats_CPULimit (c : client.Client) (cont : container.Summary)
  (short : string) (s : ContainerStats) :
  partialStats c cont short = Returned s ->
  CPULimit s =
  match inspectedHostConfig c cont with
  | Some hostConfig => cpuLimit Float64.zero hostConfig
  | None => Float64.zero
  end.
Proof.
  unfold partialStats, inspectedHostConfig.
  destruct (client.ImageInspect c (container.ImageID cont)) as [imageInfo | ie];
    destruct (client.ContainerInspect c (container.ID cont)) as [[[h |]] | e];
    intro H; try discriminate H; injection H as <-; reflexivity.
Qed.

(** A failed fetch or a failed decoding returns the partial snapshot. *)
Lemma liveStats_failed (c : client.Client) (cont : container.Summary)
  (s : ContainerStats) :
  statsFailed c cont -> liveStats c cont s = (s, None).
Proof.
  unfold liveStats.
  intros [[e H] | [e H]]; rewrite H;
    destruct (negb (container.State cont =? "running")%string); reflexivity.
Qed.

(** The tasks of a cycle, one outcome per listed container. *)
Lemma runTasks_Forall2 (c : client.Client) (containers : list container.Summary)
  (outs : list (ContainerStats * option error)) :
  runTasks c containers = Some outs ->
  Forall2 (fun cont r => getContainerStats c cont = Returned r) containers outs.
Proof.
  revert outs. induction containers as [| cont rest IH]; intros outs H; simpl in H.
  - injection H as <-. constructor.
  - destruct (getContainerStats c cont) as [r |] eqn:Er; [| discriminate].
    destruct (runTasks c rest) as [rs |]; [| discriminate].
    injection H as <-. constructor; [exact Er | now apply IH].
Qed.

Lemma runTasks_total (c : client.Client) (containers : list container.Summary) :
  Forall (fun cont => (12 <= String.length (container.ID cont))%nat
                      /\ hostConfigMissing c cont = false) containers ->
  exists outs, runTasks c containers = Some outs.
Proof.
  induction 1 as [| cont rest [Hc Hh] _ [outs IH]]; simpl.
  - eexists; reflexivity.
  - destruct (getContainerStats_returns c cont Hc Hh) as (partial & _ & ->).
    rewrite IH. eexists; reflexivity.
Qed.

Lemma runTasks_no_panic (c : client.Client) (containers : list container.Summary)
  (outs : list (ContainerStats * option error)) :
  runTasks c containers = Some outs ->
  Forall (fun cont => (12 <= String.length (container.ID cont))%nat
                      /\ hostConfigMissing c cont = false) containers.
Proof.
  intro H. apply runTasks_Forall2 in H.
  induction H as [| cont r rest rs Hr _ IH]; constructor; [| exact IH].
  split.
  - destruct (Nat.le_gt_cases 12 (String.length (container.ID cont)))
      as [Hle | Hgt]; [exact Hle |].
    assert (getContainerStats c cont = Panicked)
      by (apply getContainerStats_panics; now left).
    congruence.
  - destruct (hostConfigMissing c cont) eqn:E; [| reflexivity].
    assert (getContainerStats c cont = Panicked)
      by (apply getContainerStats_panics; now right).
    congruence.
Qed.

(** One task that panics takes the cycle with it. *)
Lemma runTasks_panic (c : client.Client) (containers : list container.Summary) :
  Exists (fun cont => (String.length (container.ID cont) < 12)%nat
                      \/ hostConfigMissing c cont = true) containers ->
  runTasks c containers = None.
Proof.
  intro H. destruct (runTasks c containers) as [outs |] eqn:E; [| reflexivity].
  apply runTasks_no_panic in E. rewrite Forall_forall in E.
  apply Exists_exists in H. destruct H as (cont & Hin & Hbad).
  destruct (E cont Hin) as [Hlen Hhost].
  destruct Hbad as [Hbad | Hbad]; [lia | congruence].
Qed.

Lemma sent_cons (r : ContainerStats * option error)
  (outs : list (ContainerStats * option error)) (i : nat) :
  sent (r :: outs) (S i) = sent outs i.
Proof. reflexivity. Qed.

(** Read in the order of the indices, [statsChan] holds the snapshots of
    the tasks, in the order of the listed containers. *)
Lemma flat_map_sent_seq (outs : list (ContainerStats * option error)) :
  Forall (fun r => snd r = None) outs ->
  flat_map (sent outs) (seq 0 (List.length outs)) = map fst outs.
Proof.
  induction 1 as [| [s e] outs He _ IH]; [reflexivity |].
  simpl in He; subst e.
  cbn [List.length seq flat_map map fst].
  rewrite <- seq_shift, flat_map_concat_map, map_map.
  rewrite (map_ext _ (sent outs)) by (intro i; apply sent_cons).
  rewrite <- flat_map_concat_map, IH. reflexivity.
Qed.

(** What a cycle returns once the list call succeeded and no task
    panicked: a permutation of the snapshots of the listed containers. *)
Lemma GetContainerStats_collects (c : client.Client) (showAll : bool)
  (order : list nat) (containers : list container.Summary)
  (outs : list (ContainerStats * option error)) :
  client.ContainerList c showAll = Ok containers ->
  runTasks c containers = Some outs ->
  schedule (List.length containers) order ->
  exists result,
    GetContainerStats c showAll order = Returned (result, None)
    /\ Permutation result (map fst outs).
Proof.
  intros Hlist Hrun Hsched. unfold GetContainerStats. rewrite Hlist.
  destruct containers as [| cont rest].
  - simpl in Hrun. injection Hrun as <-. exists []. split; constructor.
  - rewrite Hrun. eexists. split; [reflexivity |].
    pose proof (runTasks_Forall2 _ _ _ Hrun) as HF.
    assert (Hnil : Forall (fun r => snd r = None) outs).
    { clear - HF. induction HF as [| x r l rs Hr _ IH]; constructor; [| exact IH].
      now apply (getContainerStats_nil_error c x). }
    rewrite <- (flat_map_sent_seq outs Hnil).
    apply Permutation_flat_map.
    rewrite <- (Forall2_length HF). exact Hsched.
Qed.

(** C3. In a cycle that succeeded, every listed container has its
    snapshot in the returned set, whatever calls failed for it or for any
    other container: name, state, image, status and identifier come from
    the list entry; the image size is the one the image inspect answered,
    and zero when that call failed; the CPU limit is computed from the
    host configuration the container inspect answered ([NanoCPUs / 1e9]
    when [NanoCPUs] is positive, else [CPUQuota / CPUPeriod] when both
    are positive, else zero), and zero (unlimited) when that call failed;
    a failed stats fetch or decoding leaves CPU%, memory%, PIDs and the
    other live metrics at zero, next to the image size and the CPU limit
    of the inspect calls. *)
Theorem degraded_per_container (c : client.Client) (showAll : bool)
  (order : list nat) (containers : list container.Summary)
  (result : list ContainerStats) :
  client.ContainerList c showAll = Ok containers ->
  schedule (List.length containers) order ->
  GetContainerStats c showAll order = Returned (result, None) ->
  forall cont, In cont containers ->
    exists stats,
      getContainerStats c cont = Returned (stats, None)
      /\ In stats result
      /\ ID stats = substring 0 12 (container.ID cont)
      /\ Name stats = trimContainerName (container.Names cont)
      /\ State stats = container.State cont
      /\ Image stats = container.Image cont
      /\ Status stats = container.Status cont
      /\ ImageSize stats =
         match client.ImageInspect c (container.ImageID cont) with
         | Ok imageInfo => image.Size imageInfo
         | Err _ => 0
         end
      /\ CPULimit stats =
         match client.ContainerInspect c (container.ID cont) with
         | Ok containerInfo =>
             match container.HostConfigPtr containerInfo with
             | Some h =>
                 if 0 <? container.NanoCPUs h
                 then Float64.div (Float64.of_Z (container.NanoCPUs h))
                                  (Float64.of_Z 1000000000)
                 else if (0 <? container.CPUQuota h)
                         && (0 <? container.CPUPeriod h)
                 then Float64.div (Float64.of_Z (container.CPUQuota h))
                                  (Float64.of_Z (container.CPUPeriod h))
                 else Float64.zero
             | None => Float64.zero
             end
         | Err _ => Float64.zero
         end
      /\ (statsFailed c cont ->
          CPUPercent stats = Float64.zero /\ MemPercent stats = Float64.zero
          /\ PIDs stats = 0 /\ MemUsage stats = 0 /\ MemLimit stats = 0
          /\ NetRx stats = 0 /\ NetTx stats = 0
          /\ BlockRead stats = 0 /\ BlockWrite stats = 0).
Proof.
  intros Hlist Hsched Hget cont Hin.
  assert (Hrun : exists outs, runTasks c containers = Some outs).
  { unfold GetContainerStats in Hget. rewrite Hlist in Hget.
    destruct containers as [| c0 rest]; [contradiction |].
    destruct (runTasks c (c0 :: rest)) as [outs |]; [eauto | discriminate]. }
  destruct Hrun as [outs Hrun].
  destruct (GetContainerStats_collects c showAll order containers outs
              Hlist Hrun Hsched) as (result' & Hget' & Hperm).
  rewrite Hget in Hget'. injection Hget' as <-.
  pose proof (runTasks_no_panic _ _ _ Hrun) as Hids.
  rewrite Forall_forall in Hids. destruct (Hids cont Hin) as [Hlen Hhost].
  destruct (getContainerStats_returns c cont Hlen Hhost) as (partial & Hp & Hret).
  set (stats := fst (liveStats c cont partial)) in *.
  exists stats. split; [exact Hret |]. split.
  { apply (Permutation_in _ (Permutation_sym Hperm)).
    pose proof (runTasks_Forall2 _ _ _ Hrun) as HF.
    clear - HF Hin Hret. induction HF as [| x r l rs Hr _ IH]; [contradiction |].
    destruct Hin as [-> | Hin].
    - left. rewrite Hret in Hr. now injection Hr as <-.
    - right. now apply IH. }
  destruct (liveStats_identity c cont partial)
    as (Hid & Hname & Himg & Hstatus & Hstate & Hlimit & Hsize & _).
  destruct (partialStats_identity c cont _ partial Hp)
    as (Pid & Pname & Pimg & Pstatus & Pstate & _).
  fold stats in Hid, Hname, Himg, Hstatus, Hstate, Hlimit, Hsize.
  repeat split; try congruence.
  1: rewrite Hsize; apply (partialStats_ImageSize c cont _ partial Hp).
  1: { rewrite Hlimit, (partialStats_CPULimit c cont _ partial Hp).
       unfold inspectedHostConfig.
       destruct (client.ContainerInspect c (container.ID cont)) as [[[h |]] | e];
         reflexivity. }
  all: unfold stats; rewrite (liveStats_failed c cont partial H); cbn [fst];
    apply (partialStats_metrics c cont _ partial Hp).
Qed.

Lemma degraded_per_container_witness :
  exists result broken web,
    GetContainerStats
      (withStats (sampleClient [sampleContainer; brokenContainer])
         (fun _ => Err "context deadline exceeded"))
      false [1%nat; 0%nat]
    = Returned (result, None)
    /\ In broken result /\ In web result
    /\ Name broken = "db" /\ State broken = "running"
    /\ Image broken = "postgres:16"
    /\ ImageSize broken = 0 /\ CPULimit broken = Float64.zero
    /\ CPUPercent broken = Float64.zero /\ MemPercent broken = Float64.zero
    /\ PIDs broken = 0
    /\ Name web = "web" /\ State web = "running"
    /\ Image web = "nginx:latest"
    /\ ImageSize web = 187000000
    /\ CPULimit web = Float64.div (Float64.of_Z 3) (Float64.of_Z 2)
    /\ CPUPercent web = Float64.zero /\ MemPercent web = Float64.zero
    /\ PIDs web = 0.
Proof.
  set (c := withStats (sampleClient [sampleContainer; brokenContainer])
              (fun _ => Err "context deadline exceeded")).
  assert (Hget : exists result,
             GetContainerStats c false [1%nat; 0%nat] = Returned (result, None))
    by (eexists; vm_compute; reflexivity).
  destruct Hget as [result Hget]. exists result.
  destruct (degraded_per_container c false [1%nat; 0%nat]
              [sampleContainer; brokenContainer] result eq_refl
              (perm_swap 0%nat 1%nat []) Hget brokenContainer
              (or_intror (or_introl eq_refl)))
    as (broken & _ & Hin & _ & Hname & Hstate & Himg & _ & Hsize & Hlimit & Hfail).
  destruct (degraded_per_container c false [1%nat; 0%nat]
              [sampleContainer; brokenContainer] result eq_refl
              (perm_swap 0%nat 1%nat []) Hget sampleContainer
              (or_introl eq_refl))
    as (web & _ & Hin' & _ & Hname' & Hstate' & Himg' & _ & Hsize' & Hlimit'
        & Hfail').
  exists broken, web.
  destruct Hfail as (Hcpu & Hmem & Hpids & _).
  { left. exists "context deadline exceeded". reflexivity. }
  destruct Hfail' as (Hcpu' & Hmem' & Hpids' & _).
  { left. exists "context deadline exceeded". reflexivity. }
  repeat split; assumption.
Defined.

(** ** One entry per listed container *)

(** The claim as stated, without a condition on the identifiers, fails:
    a list entry with a three-character identifier makes its task panic
    in [cont.ID[:12]], and the cycle returns no snapshot set. *)
Lemma short_id_aborts_cycle :
  ~ (forall (c : client.Client) (showAll : bool) (order : list nat)
            (containers : list container.Summary),
        client.ContainerList c showAll = Ok containers ->
        schedule (List.length containers) order ->
        exists result,
          GetContainerStats c showAll order = Returned (result, None)
          /\ List.length result = List.length containers).
Proof.
  intro H.
  destruct (H (sampleClient [shortContainer]) false [0%nat] [shortContainer]
              eq_refl (Permutation_refl _)) as (result & Hget & _).
  vm_compute in Hget. discriminate Hget.
Qed.

(** A condition on the identifiers alone is not enough: a container
    with a full identifier whose inspect succeeds without a host
    configuration makes its task panic as well. *)
Example nil_host_config_aborts_cycle :
  (12 <= String.length (container.ID sampleContainer))%nat
  /\ GetContainerStats (bareInspectClient [sampleContainer]) false [0%nat]
     = Panicked.
Proof. split; [simpl; lia | vm_compute; reflexivity]. Qed.

(** C9, amended. Whenever the list call succeeds, every listed
    identifier has at least twelve characters and no container inspect
    succeeds with a response without host configuration,
    [GetContainerStats] returns, without error, a snapshot set that is a
    permutation of the snapshots of the listed containers, one entry
    each; when one listed container breaks either condition the cycle
    panics; and every path of [getContainerStats] that returns, returns a
    nil error, so that no task sends on the error channel. *)
Theorem one_entry_per_container (c : client.Client) (showAll : bool)
  (order : list nat) (containers : list container.Summary) :
  client.ContainerList c showAll = Ok containers ->
  schedule (List.length containers) order ->
  (Forall (fun cont => (12 <= String.length (container.ID cont))%nat
                       /\ hostConfigMissing c cont = false) containers ->
   exists result snapshots,
     GetContainerStats c showAll order = Returned (result, None)
     /\ Forall2 (fun cont stats => getContainerStats c cont = Returned (stats, None))
                containers snapshots
     /\ Permutation result snapshots
     /\ List.length result = List.length containers)
  /\ (Exists (fun cont => (String.length (container.ID cont) < 12)%nat
                          \/ hostConfigMissing c cont = true) containers ->
      GetContainerStats c showAll order = Panicked)
  /\ (forall cont r, getContainerStats c cont = Returned r -> snd r = None).
Proof.
  intros Hlist Hsched.
  split; [| split; [| apply getContainerStats_nil_error]].
  - intro Hids.
    destruct (runTasks_total c containers Hids) as [outs Hrun].
    destruct (GetContainerStats_collects c showAll order containers outs
                Hlist Hrun Hsched) as (result & Hget & Hperm).
    pose proof (runTasks_Forall2 _ _ _ Hrun) as HF.
    exists result, (map fst outs). repeat split; try assumption.
    + clear - HF. induction HF as [| cont r l rs Hr _ IH]; constructor; [| exact IH].
      rewrite Hr. f_equal. destruct r as [s e]. cbn [fst].
      now rewrite (getContainerStats_nil_error c cont (s, e) Hr : e = None).
    + rewrite (Permutation_length Hperm), length_map.
      symmetry. exact (Forall2_length HF).
  - intro Hbad. unfold GetContainerStats. rewrite Hlist.
    destruct containers as [| cont rest]; [inversion Hbad |].
    now rewrite (runTasks_panic c (cont :: rest) Hbad).
Qed.

Lemma one_entry_per_container_witness :
  exists result,
    GetContainerStats (sampleClient [sampleContainer; brokenContainer]) false
                      [1%nat; 0%nat]
    = Returned (result, None)
    /\ List.length result = 2%nat.
Proof.
  destruct (one_entry_per_container
              (sampleClient [sampleContainer; brokenContainer]) false
              [1%nat; 0%nat] [sampleContainer; brokenContainer] eq_refl
              (perm_swap 0%nat 1%nat []))
    as [Hret _].
  destruct Hret as (result & snapshots & Hget & _ & _ & Hlen).
  - repeat constructor; simpl; lia.
  - exists result. split; assumption.
Defined.

(** ** The short identifier *)

(** C10. [getContainerStats] forms the short identifier as [cont.ID[:12]]:
    the slice is in range exactly when the identifier has at least twelve
    characters, and then every snapshot the function returns carries
    these twelve characters; for a shorter identifier the slice is out of
    range and the function panics, whatever the daemon answers. The
    function returns a snapshot for every identifier of at least twelve
    characters but for a container whose inspect succeeds without a host
    configuration. *)
Theorem short_id_slice (c : client.Client) (cont : container.Summary) :
  (slice_to (container.ID cont) 12 = None
   <-> (String.length (container.ID cont) < 12)%nat)
  /\ ((String.length (container.ID cont) < 12)%nat ->
      getContainerStats c cont = Panicked)
  /\ (hostConfigMissing c cont = false ->
      (getContainerStats c cont = Panicked
       <-> (String.length (container.ID cont) < 12)%nat))
  /\ (forall r,
         getContainerStats c cont = Returned r ->
         (12 <= String.length (container.ID cont))%nat
         /\ ID (fst r) = substring 0 12 (container.ID cont)
         /\ String.length (ID (fst r)) = 12%nat)
  /\ ((12 <= String.length (container.ID cont))%nat ->
      hostConfigMissing c cont = false ->
      exists stats,
        getContainerStats c cont = Returned (stats, None)
        /\ ID stats = substring 0 12 (container.ID cont)
        /\ String.length (ID stats) = 12%nat).
Proof.
  assert (Hlen12 : (12 <= String.length (container.ID cont))%nat ->
                   String.length (substring 0 12 (container.ID cont)) = 12%nat).
  { generalize (container.ID cont) as s.
    generalize 12%nat as n. induction n as [| n IH]; intros s H.
    + destruct s; reflexivity.
    + destruct s as [| a s]; simpl in H; [lia |].
      simpl. f_equal. apply IH. lia. }
  assert (Hret : forall r,
             getContainerStats c cont = Returned r ->
             (12 <= String.length (container.ID cont))%nat
             /\ ID (fst r) = substring 0 12 (container.ID cont)
             /\ String.length (ID (fst r)) = 12%nat).
  { intros r Hr. apply getContainerStats_inv in Hr.
    destruct Hr as (Hlen & partial & Hp & ->).
    destruct (liveStats_identity c cont partial) as (Hid & _).
    destruct (partialStats_identity c cont _ partial Hp) as (Pid & _).
    rewrite Hid, Pid. auto. }
  split; [| split; [| split; [| split]]].
  - unfold slice_to.
    destruct (12 <=? String.length (container.ID cont))%nat eqn:E.
    + apply Nat.leb_le in E. split; [discriminate | lia].
    + apply Nat.leb_gt in E. split; [intros _; exact E | reflexivity].
  - intro H. apply getContainerStats_panics. now left.
  - intro Hhost. rewrite getContainerStats_panics.
    split; [intros [H | H]; [exact H | congruence] | intro H; now left].
  - exact Hret.
  - intros H Hhost.
    destruct (getContainerStats_returns c cont H Hhost) as (partial & _ & Hget).
    eexists. split; [exact Hget |].
    destruct (Hret _ Hget) as (_ & Hid & Hl). auto.
Qed.

Lemma short_id_slice_witness :
  getContainerStats (sampleClient [shortContainer]) shortContainer = Panicked
  /\ exists stats,
      getContainerStats (sampleClient [sampleContainer]) sampleContainer
      = Returned (stats, None)
      /\ ID stats = "0123456789ab".
Proof.
  split.
  - apply (proj1 (proj2 (short_id_slice (sampleClient [shortContainer])
                                        shortContainer))).
    simpl. lia.
  - destruct (proj2 (proj2 (proj2 (proj2
                (short_id_slice (sampleClient [sampleContainer])
                                sampleContainer)))))
      as (stats & Hget & Hid & _).
    + simpl. lia.
    + reflexivity.
    + exists stats. split; [exact Hget | exact Hid].
Defined.

(** ** Network and block I/O totals *)

Lemma wrap64_add_l (a b : Z) : wrap64 (wrap64 a + b) = wrap64 (a + b).
Proof. unfold wrap64. apply Z.add_mod_idemp_l. lia. Qed.

Lemma sumNetworks_total (nets : list (string * NetStats)) (rx tx : Z) :
  sumNetworks nets (wrap64 rx, wrap64 tx) =
  (wrap64 (rx + sumZ (map (fun kv => RxBytes (snd kv)) nets)),
   wrap64 (tx + sumZ (map (fun kv => TxBytes (snd kv)) nets))).
Proof.
  unfold sumNetworks. revert rx tx.
  induction nets as [| kv nets IH]; intros rx tx; simpl.
  - now rewrite !Z.add_0_r.
  - rewrite !wrap64_add_l, IH. f_equal; f_equal; lia.
Qed.

Lemma sumZ_Permutation (l l' : list Z) : Permutation l l' -> sumZ l = sumZ l'.
Proof. induction 1; simpl; lia. Qed.

(** The order in which the loop visits the entries of the map does not
    change the totals. *)
Lemma sumNetworks_order_irrelevant (nets nets' : list (string * NetStats)) :
  Permutation nets nets' -> sumNetworks nets (0, 0) = sumNetworks nets' (0, 0).
Proof.
  intro H. change (0, 0) with (wrap64 0, wrap64 0).
  rewrite !sumNetworks_total.
  now rewrite (sumZ_Permutation _ _ (Permutation_map _ H)),
    (sumZ_Permutation _ _ (Permutation_map (fun kv => TxBytes (snd kv)) H)).
Qed.

Lemma isReadOp_not_write (op : string) : isReadOp op = true -> isWriteOp op = false.
Proof.
  unfold isReadOp. intro H. apply orb_true_iff in H.
  destruct H as [H | H]; apply String.eqb_eq in H; subst op; reflexivity.
Qed.

Lemma sumBlkio_total (entries : list BlkioStatEntry) (rd wr : Z) :
  sumBlkio entries (wrap64 rd, wrap64 wr) =
  (wrap64 (rd + sumZ (map Value (filter (fun e => isReadOp (Op e)) entries))),
   wrap64 (wr + sumZ (map Value (filter (fun e => isWriteOp (Op e)) entries)))).
Proof.
  unfold sumBlkio. revert rd wr.
  induction entries as [| e entries IH]; intros rd wr; simpl.
  - now rewrite !Z.add_0_r.
  - unfold blkioStep at 2. fold (isReadOp (Op e)). fold (isWriteOp (Op e)).
    destruct (isReadOp (Op e)) eqn:Er.
    + rewrite (isReadOp_not_write _ Er). cbn [fst snd].
      rewrite wrap64_add_l, IH. simpl. f_equal; f_equal; lia.
    + destruct (isWriteOp (Op e)) eqn:Ew; cbn [fst snd].
      * rewrite wrap64_add_l, IH. simpl. f_equal; f_equal; lia.
      * apply IH.
Qed.

(** The claim as stated fails: an entry tagged "READ" matches "read"
    without regard to case, but the code does not add its value. *)
Lemma blkio_upper_case_not_summed :
  ~ (forall entries : list BlkioStatEntry,
        fst (sumBlkio entries (0, 0)) =
        wrap64 (sumZ (map Value
                          (filter (fun e => equalFold (Op e) "read") entries)))).
Proof.
  intro H. specialize (H [{| Op := "READ"; Value := 4096 |}]).
  vm_compute in H. discriminate H.
Qed.

(** C5, amended. The block I/O read total of a snapshot is the sum, in
    [uint64], of the values of the entries tagged "read" or "Read", the
    write total that of the entries tagged "write" or "Write"; an entry
    with any other tag, "READ" among them, changes neither total. The
    network totals are the sums, in [uint64], of the receive and of the
    transmit bytes of all reported interfaces. The snapshot is the one of
    a running container whose identifier can be cut and whose inspect,
    if it succeeds, carries a host configuration: the function returns
    no snapshot otherwise. *)
Theorem io_totals :
  (forall (c : client.Client) (cont : container.Summary) (statsJSON : StatsJSON),
      (12 <= String.length (container.ID cont))%nat ->
      hostConfigMissing c cont = false ->
      container.State cont = "running" ->
      client.ContainerStats c (container.ID cont) = Ok (DecodeOk statsJSON) ->
      exists stats,
        getContainerStats c cont = Returned (stats, None)
        /\ NetRx stats =
           wrap64 (sumZ (map (fun kv => RxBytes (snd kv)) (networks statsJSON)))
        /\ NetTx stats =
           wrap64 (sumZ (map (fun kv => TxBytes (snd kv)) (networks statsJSON)))
        /\ BlockRead stats =
           wrap64 (sumZ (map Value
                     (filter (fun e => isReadOp (Op e))
                             (IoServiceBytesRecursive (blkio_stats statsJSON)))))
        /\ BlockWrite stats =
           wrap64 (sumZ (map Value
                     (filter (fun e => isWriteOp (Op e))
                             (IoServiceBytesRecursive (blkio_stats statsJSON))))))
  /\ (forall (e : BlkioStatEntry) (entries : list BlkioStatEntry) (acc : Z * Z),
         isReadOp (Op e) = false -> isWriteOp (Op e) = false ->
         sumBlkio (e :: entries) acc = sumBlkio entries acc)
  /\ isReadOp "READ" = false /\ isWriteOp "READ" = false.
Proof.
  split; [| split; [| split; reflexivity]].
  - intros c cont statsJSON Hid Hhost Hst Hfetch.
    destruct (partialStats_returns c cont (substring 0 12 (container.ID cont))
                Hhost) as [partial Hp].
    eexists. split; [apply getContainerStats_decoded; eassumption |].
    destruct (partialStats_metrics c cont _ partial Hp)
      as (_ & _ & _ & _ & Hrx & Htx & Hrd & Hwr & _).
    cbn [applyStats NetRx NetTx BlockRead BlockWrite].
    rewrite Hrx, Htx, Hrd, Hwr.
    change (0, 0) with (wrap64 0, wrap64 0).
    rewrite sumNetworks_total, sumBlkio_total. cbn [fst snd].
    repeat split; reflexivity.
  - intros e entries acc Hr Hw. unfold sumBlkio. simpl.
    unfold blkioStep at 2. fold (isReadOp (Op e)). fold (isWriteOp (Op e)).
    now rewrite Hr, Hw.
Qed.

Lemma io_totals_witness :
  exists stats,
    getContainerStats (sampleClient [sampleContainer]) sampleContainer
    = Returned (stats, None)
    /\ NetRx stats = 1024 /\ NetTx stats = 2048
    /\ BlockRead stats = 4100 /\ BlockWrite stats = 512.
Proof.
  destruct (proj1 io_totals (sampleClient [sampleContainer])
              sampleContainer sampleStats)
    as (stats & Hget & Hrx & Htx & Hrd & Hwr).
  - simpl. lia.
  - reflexivity.
  - reflexivity.
  - reflexivity.
  - exists stats. split; [exact Hget |].
    rewrite Hrx, Htx, Hrd, Hwr. vm_compute. repeat split; reflexivity.
Defined.

(** ** Insertion sort under an arbitrary comparison *)

Section SliceTheory.

Context {A : Type}.
Variable cmp : A -> A -> bool.

Lemma sink_Permutation (x : A) (prefix : list A) :
  Permutation (sort.sink cmp x prefix) (x :: prefix).
Proof.
  induction prefix as [| y rest IH]; simpl; [reflexivity |].
  destruct (cmp x y); [| reflexivity].
  rewrite IH. apply perm_swap.
Qed.

Lemma insertAll_Permutation (l prefix : list A) :
  Permutation (sort.insertAll cmp l prefix) (l ++ prefix).
Proof.
  unfold sort.insertAll. revert prefix.
  induction l as [| x l IH]; intro prefix; simpl; [reflexivity |].
  rewrite IH, sink_Permutation. symmetry. apply Permutation_middle.
Qed.

(** Sorting reorders the slice and does nothing else. *)
Lemma Slice_Permutation (l : list A) : Permutation (sort.Slice cmp l) l.
Proof.
  unfold sort.Slice. rewrite <- Permutation_rev, insertAll_Permutation.
  now rewrite app_nil_r.
Qed.

Lemma insertAll_snoc (l : list A) (x : A) (prefix : list A) :
  sort.insertAll cmp (l ++ [x]) prefix
  = sort.sink cmp x (sort.insertAll cmp l prefix).
Proof. unfold sort.insertAll. now rewrite fold_left_app. Qed.

(** [R y z] reads: in the ordered part, [y] stands right of [z]. *)
Variable R : A -> A -> Prop.
Hypothesis R_trans : forall x y z, R x y -> R y z -> R x z.
Hypothesis R_cmp : forall y z, R y z -> cmp y z = false.

Lemma sink_sorted (x : A) (prefix : list A) :
  StronglySorted R prefix ->
  Forall (fun y => placed cmp R y x) prefix ->
  StronglySorted R (sort.sink cmp x prefix).
Proof.
  induction 1 as [| y rest Hs IH Hy]; intro Hp; simpl.
  - constructor; constructor.
  - inversion Hp as [| ? ? [Hlt Hge] Hrest]; subst.
    destruct (cmp x y) eqn:E.
    + constructor; [now apply IH |].
      rewrite Forall_forall. intros z Hz.
      apply (Permutation_in _ (sink_Permutation x rest)) in Hz.
      destruct Hz as [<- | Hz]; [now apply Hlt |].
      rewrite Forall_forall in Hy. now apply Hy.
    + constructor; [now constructor |].
      constructor; [now apply Hge |].
      rewrite Forall_forall in Hy |- *. intros z Hz.
      apply R_trans with y; [now apply Hge | now apply Hy].
Qed.

Lemma insertAll_sorted (l prefix : list A) :
  StronglySorted R prefix ->
  (forall x y, In x l -> In y prefix -> placed cmp R y x) ->
  ForallOrdPairs (placed cmp R) l ->
  StronglySorted R (sort.insertAll cmp l prefix).
Proof.
  unfold sort.insertAll. revert prefix.
  induction l as [| x l IH]; intros prefix Hs Hb Hl; simpl; [exact Hs |].
  inversion Hl as [| ? ? Hx Hl']; subst.
  apply IH.
  - apply sink_sorted; [exact Hs |].
    rewrite Forall_forall. intros y Hy. apply Hb; [now left | exact Hy].
  - intros x' y Hx' Hy.
    apply (Permutation_in _ (sink_Permutation x prefix)) in Hy.
    destruct Hy as [<- | Hy].
    + rewrite Forall_forall in Hx. now apply Hx.
    + apply Hb; [now right | exact Hy].
  - exact Hl'.
Qed.

(** An ordered slice is left as it is. *)
Lemma insertAll_rev_sorted (prefix : list A) :
  StronglySorted R prefix -> sort.insertAll cmp (rev prefix) [] = prefix.
Proof.
  induction 1 as [| y rest Hs IH Hy]; [reflexivity |].
  simpl rev. rewrite insertAll_snoc, IH.
  destruct rest as [| z rest']; [reflexivity |].
  simpl. inversion Hy as [| ? ? Hyz _]; subst.
  now rewrite (R_cmp _ _ Hyz).
Qed.

Lemma Slice_sorted (l : list A) :
  ForallOrdPairs (placed cmp R) l -> StronglySorted R (sort.insertAll cmp l []).
Proof.
  intro H. apply insertAll_sorted; [constructor | | exact H].
  intros x y _ [].
Qed.

(** Sorting twice gives what sorting once gives. *)
Lemma Slice_idempotent (l : list A) :
  ForallOrdPairs (placed cmp R) l ->
  sort.Slice cmp (sort.Slice cmp l) = sort.Slice cmp l.
Proof.
  intro H. unfold sort.Slice at 1 2.
  now rewrite (insertAll_rev_sorted _ (Slice_sorted l H)).
Qed.

End SliceTheory.

(** A strict order leaves one way to arrange the elements of a list:
    two ordered permutations of each other are equal. *)
Lemma sorted_permutation_unique {A : Type} (S : A -> A -> Prop) (l1 l2 : list A) :
  (forall x y, S x y -> S y x -> False) ->
  StronglySorted S l1 -> StronglySorted S l2 -> Permutation l1 l2 -> l1 = l2.
Proof.
  intros Hasym H1. revert l2.
  induction H1 as [| a l1 Hs1 IH Ha]; intros l2 H2 Hp.
  - now apply Permutation_nil in Hp.
  - destruct H2 as [| b l2 Hs2 Hb].
    + symmetry in Hp. now apply Permutation_nil in Hp.
    + assert (Hab : a = b).
      { assert (Hina : In a (b :: l2))
          by (apply (Permutation_in _ Hp); now left).
        assert (Hinb : In b (a :: l1))
          by (apply (Permutation_in _ (Permutation_sym Hp)); now left).
        destruct Hina as [-> | Hina]; [reflexivity |].
        destruct Hinb as [-> | Hinb]; [reflexivity |].
        rewrite Forall_forall in Ha, Hb.
        exfalso. exact (Hasym a b (Ha b Hinb) (Hb a Hina)). }
      subst b. f_equal. apply IH; [exact Hs2 |].
      now apply Permutation_cons_inv in Hp.
Qed.

Lemma StronglySorted_snoc {A : Type} (S : A -> A -> Prop) (l : list A) (a : A) :
  StronglySorted S l -> Forall (fun y => S y a) l -> StronglySorted S (l ++ [a]).
Proof.
  induction 1 as [| b l Hs IH Hb]; intro Hl; simpl.
  - constructor; constructor.
  - inversion Hl as [| ? ? Hba Hl']; subst.
    constructor; [now apply IH |].
    apply Forall_app. split; [exact Hb | now constructor].
Qed.

Lemma StronglySorted_rev {A : Type} (S : A -> A -> Prop) (l : list A) :
  StronglySorted S l -> StronglySorted (fun a b => S b a) (rev l).
Proof.
  induction 1 as [| a l Hs IH Ha]; simpl; [constructor |].
  apply StronglySorted_snoc; [exact IH |].
  rewrite Forall_forall in Ha |- *. intros y Hy. apply Ha. now apply in_rev.
Qed.

Lemma sink_ext {A : Type} (f g : A -> A -> bool) (x : A) (prefix : list A) :
  (forall a b, f a b = g a b) -> sort.sink f x prefix = sort.sink g x prefix.
Proof.
  intro H. induction prefix as [| y rest IH]; simpl; [reflexivity |].
  now rewrite H, IH.
Qed.

(** The result of [sort.Slice] depends on the values of the comparison
    only. *)
Lemma Slice_ext {A : Type} (f g : A -> A -> bool) (l : list A) :
  (forall a b, f a b = g a b) -> sort.Slice f l = sort.Slice g l.
Proof.
  intro H. unfold sort.Slice, sort.insertAll. f_equal.
  generalize (@nil A) as prefix.
  induction l as [| x l IH]; intro prefix; simpl; [reflexivity |].
  now rewrite (sink_ext f g x prefix H), IH.
Qed.

(** ** The comparison of each sort field is a strict order *)

Lemma string_compare_Lt_trans (s1 s2 s3 : string) :
  String.compare s1 s2 = Lt -> String.compare s2 s3 = Lt ->
  String.compare s1 s3 = Lt.
Proof.
  revert s2 s3. induction s1 as [| c1 s1 IH]; intros [| c2 s2] [| c3 s3];
    simpl; try discriminate; try reflexivity.
  unfold Ascii.compare.
  destruct (N.compare_spec (N_of_ascii c1) (N_of_ascii c2)) as [E12 | L12 | G12];
    destruct (N.compare_spec (N_of_ascii c2) (N_of_ascii c3)) as [E23 | L23 | G23];
    try discriminate; intros H12 H23.
  - rewrite E12, E23, N.compare_refl. now apply IH with s2.
  - rewrite E12. now apply N.compare_lt_iff in L23; rewrite L23.
  - rewrite <- E23. now apply N.compare_lt_iff in L12; rewrite L12.
  - assert (L13 : (N_of_ascii c1 < N_of_ascii c3)%N) by lia.
    now apply N.compare_lt_iff in L13; rewrite L13.
Qed.

Lemma string_ltb_trans (s1 s2 s3 : string) :
  (s1 <? s2)%string = true -> (s2 <? s3)%string = true -> (s1 <? s3)%string = true.
Proof.
  unfold String.ltb.
  destruct (String.compare s1 s2) eqn:E12; try discriminate.
  destruct (String.compare s2 s3) eqn:E23; try discriminate.
  now rewrite (string_compare_Lt_trans _ _ _ E12 E23).
Qed.

Lemma string_ltb_asym (s1 s2 : string) :
  (s1 <? s2)%string = true -> (s2 <? s1)%string = false.
Proof.
  unfold String.ltb. rewrite (String.compare_antisym s1 s2).
  destruct (String.compare s2 s1); simpl; congruence.
Qed.

Lemma Z_ltb_trans (a b c : Z) : (a <? b) = true -> (b <? c) = true -> (a <? c) = true.
Proof. rewrite !Z.ltb_lt. lia. Qed.

Lemma Z_ltb_asym (a b : Z) : (a <? b) = true -> (b <? a) = false.
Proof. rewrite Z.ltb_lt, Z.ltb_ge. lia. Qed.

(** The comparison of two finite floats of the same sign. *)
Lemma SFltb_finite (s : bool) (m1 m2 : positive) (e1 e2 : Z) :
  SFltb (S754_finite s m1 e1) (S754_finite s m2 e2) = true
  <-> if s then e2 < e1 \/ (e1 = e2 /\ (m2 < m1)%positive)
      else e1 < e2 \/ (e1 = e2 /\ (m1 < m2)%positive).
Proof.
  unfold SFltb, SFcompare.
  change (Pos.compare_cont Eq m1 m2) with (Pos.compare m1 m2).
  destruct s; destruct (Z.compare_spec e1 e2) as [He | He | He];
    destruct (Pos.compare_spec m1 m2) as [Hm | Hm | Hm]; simpl; split; intro H;
    try discriminate; try reflexivity; try lia.
Qed.

Lemma float_ltb_trans (x y z : Float64.t) :
  Float64.ltb x y = true -> Float64.ltb y z = true -> Float64.ltb x z = true.
Proof.
  unfold Float64.ltb.
  destruct x as [sx | sx | | sx mx ex], y as [sy | sy | | sy my ey],
    z as [sz | sz | | sz mz ez];
    try (destruct sx); try (destruct sy); try (destruct sz);
    try (cbn; congruence);
    rewrite !SFltb_finite; lia.
Qed.

Lemma float_ltb_asym (x y : Float64.t) :
  Float64.ltb x y = true -> Float64.ltb y x = false.
Proof.
  unfold Float64.ltb.
  destruct x as [sx | sx | | sx mx ex], y as [sy | sy | | sy my ey];
    try (destruct sx); try (destruct sy);
    try (cbn; congruence);
    intro H; apply SFltb_finite in H; apply not_true_is_false;
    intro H'; apply SFltb_finite in H'; lia.
Qed.

Lemma fieldLess_trans (field : SortField) (a b c : ContainerStats) :
  fieldLess field a b = true -> fieldLess field b c = true ->
  fieldLess field a c = true.
Proof.
  unfold fieldLess.
  repeat match goal with
         | |- context [if ?t then _ else _] => destruct t
         end;
    first [apply string_ltb_trans | apply float_ltb_trans | apply Z_ltb_trans].
Qed.

Lemma fieldLess_asym (field : SortField) (a b : ContainerStats) :
  fieldLess field a b = true -> fieldLess field b a = false.
Proof.
  unfold fieldLess.
  repeat match goal with
         | |- context [if ?t then _ else _] => destruct t
         end;
    first [apply string_ltb_asym | apply float_ltb_asym | apply Z_ltb_asym].
Qed.

(** ** The sorter *)

(** The cases of [TestSortContainers]. *)
Example sort_by_name_ascending :
  map Name (SortContainers testContainers SortByName true)
  = ["alpha"; "beta"; "gamma"].
Proof. vm_compute. reflexivity. Qed.

Example sort_by_cpu_descending :
  map Name (SortContainers testContainers SortByCPU false)
  = ["gamma"; "alpha"; "beta"].
Proof. vm_compute. reflexivity. Qed.

Example sort_by_memory_descending :
  map Name (SortContainers testContainers SortByMemory false)
  = ["beta"; "alpha"; "gamma"].
Proof. vm_compute. reflexivity. Qed.

Lemma tie_free_ForallOrdPairs (field : SortField) (l : list ContainerStats) :
  tie_free field l = true ->
  ForallOrdPairs (fun a b => untied field a b = true) l.
Proof.
  induction l as [| a l IH]; simpl; intro H; [constructor |].
  apply andb_true_iff in H. destruct H as [Ha Hl].
  constructor; [| now apply IH].
  apply Forall_forall. intros b Hb. rewrite forallb_forall in Ha. now apply Ha.
Qed.

Lemma ForallOrdPairs_impl {A : Type} (P Q : A -> A -> Prop) (l : list A) :
  (forall a b, P a b -> Q a b) -> ForallOrdPairs P l -> ForallOrdPairs Q l.
Proof.
  intros HPQ. induction 1 as [| a l Ha _ IH]; constructor; [| exact IH].
  rewrite Forall_forall in Ha |- *. intros b Hb. now apply HPQ, Ha.
Qed.

(** Ascending: in the ordered part the larger element stands right. *)
Lemma placed_ascending (field : SortField) (y x : ContainerStats) :
  untied field y x = true ->
  placed (sortLess field true) (fun y z => fieldLess field z y = true) y x.
Proof.
  unfold untied, placed, sortLess. intro H. split; [trivial |].
  intro Hxy. rewrite Hxy, orb_false_r in H. exact H.
Qed.

(** Descending: in the ordered part the smaller element stands right. *)
Lemma placed_descending (field : SortField) (y x : ContainerStats) :
  untied field y x = true ->
  placed (sortLess field false) (fun y z => fieldLess field y z = true) y x.
Proof.
  unfold untied, placed, sortLess. intro H. split; intro Hxy.
  - apply negb_true_iff in Hxy. rewrite Hxy, orb_false_r in H. exact H.
  - now apply negb_false_iff in Hxy.
Qed.

Lemma ascending_sorted (field : SortField) (l : list ContainerStats) :
  tie_free field l = true ->
  StronglySorted (fun y z => fieldLess field z y = true)
                 (sort.insertAll (sortLess field true) l []).
Proof.
  intro H. apply Slice_sorted.
  - intros x y z Hxy Hyz. exact (fieldLess_trans field z y x Hyz Hxy).
  - apply (ForallOrdPairs_impl (fun a b => untied field a b = true));
      [apply placed_ascending | now apply tie_free_ForallOrdPairs].
Qed.

Lemma descending_sorted (field : SortField) (l : list ContainerStats) :
  tie_free field l = true ->
  StronglySorted (fun y z => fieldLess field y z = true)
                 (sort.insertAll (sortLess field false) l []).
Proof.
  intro H. apply Slice_sorted.
  - intros x y z. apply fieldLess_trans.
  - apply (ForallOrdPairs_impl (fun a b => untied field a b = true));
      [apply placed_descending | now apply tie_free_ForallOrdPairs].
Qed.

(** Without ties the ascending order is the only ordered arrangement of
    the snapshots: whatever algorithm [sort.Slice] runs on a longer
    slice, an ordered permutation is the list computed here. *)
Lemma ascending_sort_unique (field : SortField) (l l' : list ContainerStats) :
  tie_free field l = true ->
  Permutation l' l ->
  StronglySorted (fun a b => fieldLess field a b = true) l' ->
  SortContainers l field true = l'.
Proof.
  intros Hfree Hperm Hsorted. unfold SortContainers, sort.Slice.
  apply (sorted_permutation_unique (fun a b => fieldLess field a b = true)).
  - intros x y Hxy Hyx. apply fieldLess_asym in Hxy. congruence.
  - apply (StronglySorted_rev (fun y z => fieldLess field z y = true)).
    now apply ascending_sorted.
  - exact Hsorted.
  - rewrite <- Permutation_rev, insertAll_Permutation, app_nil_r.
    now symmetry.
Qed.

(** The claim as stated fails on ties: the descending comparison holds
    between two snapshots with equal keys in both directions, and every
    descending sort swaps them. *)
Lemma sort_twice_differs_on_ties :
  ~ (forall (l : list ContainerStats) (field : SortField) (ascending : bool),
        SortContainers (SortContainers l field ascending) field ascending
        = SortContainers l field ascending).
Proof.
  intro H. specialize (H tiedContainers SortByCPU false).
  apply (f_equal (map Name)) in H. vm_compute in H. discriminate H.
Qed.

(** C7, amended. For every sort field and every snapshot list with no
    ties in the sort key, sorting twice with the same field and direction
    gives the order that sorting once gives, and sorting descending gives
    exactly the reverse of the ascending order. *)
Theorem sort_without_ties (l : list ContainerStats) (field : SortField) :
  tie_free field l = true ->
  (forall ascending : bool,
      SortContainers (SortContainers l field ascending) field ascending
      = SortContainers l field ascending)
  /\ SortContainers l field false = rev (SortContainers l field true).
Proof.
  intro Hfree.
  pose proof (tie_free_ForallOrdPairs field l Hfree) as Hpairs.
  split.
  - intros [|]; unfold SortContainers.
    + apply (Slice_idempotent (sortLess field true)
               (fun y z => fieldLess field z y = true)).
      * intros x y z Hxy Hyz. exact (fieldLess_trans field z y x Hyz Hxy).
      * intros y z Hyz. now apply fieldLess_asym.
      * apply (ForallOrdPairs_impl (fun a b => untied field a b = true));
          [apply placed_ascending | exact Hpairs].
    + apply (Slice_idempotent (sortLess field false)
               (fun y z => fieldLess field y z = true)).
      * intros x y z. apply fieldLess_trans.
      * intros y z Hyz. unfold sortLess. now rewrite Hyz.
      * apply (ForallOrdPairs_impl (fun a b => untied field a b = true));
          [apply placed_descending | exact Hpairs].
  - unfold SortContainers, sort.Slice. rewrite rev_involutive.
    apply (sorted_permutation_unique (fun y z => fieldLess field z y = true)).
    + intros x y Hxy Hyx. apply fieldLess_asym in Hxy. congruence.
    + apply (StronglySorted_rev (fun y z => fieldLess field y z = true)).
      now apply descending_sorted.
    + now apply ascending_sorted.
    + rewrite <- Permutation_rev, !insertAll_Permutation. reflexivity.
Qed.

Lemma sort_without_ties_witness :
  tie_free SortByCPU testContainers = true
  /\ map Name (SortContainers testContainers SortByCPU false)
     = rev (map Name (SortContainers testContainers SortByCPU true)).
Proof.
  assert (H : tie_free SortByCPU testContainers = true)
    by (vm_compute; reflexivity).
  split; [exact H |].
  rewrite (proj2 (sort_without_ties testContainers SortByCPU H)).
  now rewrite map_rev.
Defined.

(** ** Sorting by a field outside the enumeration *)

Lemma fieldLess_default (field : SortField) (a b : ContainerStats) :
  definedField field = false -> fieldLess field a b = fieldLess SortByName a b.
Proof.
  unfold definedField, fieldLess, SortByName, SortByCPU, SortByMemory,
    SortByNetIO, SortByBlockIO, SortByImageSize.
  intro H. apply andb_false_iff in H.
  assert (Hf : field < 0 \/ 5 < field) by (destruct H as [H | H]; lia).
  clear H.
  destruct (Z.eqb_spec field 0); [lia |].
  destruct (Z.eqb_spec field 1); [lia |].
  destruct (Z.eqb_spec field 2); [lia |].
  destruct (Z.eqb_spec field 3); [lia |].
  destruct (Z.eqb_spec field 4); [lia |].
  destruct (Z.eqb_spec field 5); [lia |].
  reflexivity.
Qed.

(** The claim as stated fails for the descending flag: sorted by the
    field 99, two containers come out in descending order of their
    names, not in ascending order. *)
Lemma unknown_field_keeps_direction :
  ~ (forall (l : list ContainerStats) (field : SortField) (ascending : bool),
        definedField field = false ->
        SortContainers l field ascending = SortContainers l SortByName true).
Proof.
  intro H. specialize (H testContainers 99 false eq_refl).
  apply (f_equal (map Name)) in H. vm_compute in H. discriminate H.
Qed.

(** C8, amended. For every snapshot list and every direction flag,
    sorting with a field value outside the six defined sort fields
    behaves as sorting by Name with the same direction flag: ascending
    by name when the flag is set, descending by name when it is not. *)
Theorem unknown_field_sorts_by_name (l : list ContainerStats)
  (field : SortField) (ascending : bool) :
  definedField field = false ->
  SortContainers l field ascending = SortContainers l SortByName ascending.
Proof.
  intro H. unfold SortContainers. apply Slice_ext.
  intros a b. unfold sortLess. now rewrite (fieldLess_default field a b H).
Qed.

Lemma unknown_field_sorts_by_name_witness :
  map Name (SortContainers testContainers 99 false) = ["gamma"; "beta"; "alpha"]
  /\ map Name (SortContainers testContainers (-1) true) = ["alpha"; "beta"; "gamma"].
Proof.
  rewrite (unknown_field_sorts_by_name testContainers 99 false eq_refl).
  rewrite (unknown_field_sorts_by_name testContainers (-1) true eq_refl).
  vm_compute. split; reflexivity.
Defined.

(** ** Sort commands *)



(** C4. In the tview application the sort command for Name, given while
    another field is active, selects Name in descending direction, where
    the claim and the bubbletea model (on the same sort state) select it
    in ascending direction. *)
Theorem tview_name_sort_starts_descending :
  ui.sortField sampleApp = SortByCPU
  /\ ui.sortField (ui.setSortField sampleApp SortByName) = SortByName
  /\ ui.sortAsc (ui.setSortField sampleApp SortByName) = false
  /\ map Name (ui.containers (ui.setSortField sampleApp SortByName))
     = ["gamma"; "beta"; "alpha"]
  /\ main.sortField sampleModel = SortByCPU
  /\ main.sortAsc (fst (main.Update sampleModel (main.KeyMsg "n"))) = true.
Proof. vm_compute. repeat split; reflexivity. Qed.

(** ** A failed list call *)

Lemma wrap_int_small (z : Z) : - 2 ^ 63 <= z < 2 ^ 63 -> wrap_int z = z.
Proof. intro H. unfold wrap_int. rewrite Z.mod_small; lia. Qed.

Lemma wrap_int_range (z : Z) : - 2 ^ 63 <= wrap_int z < 2 ^ 63.
Proof.
  unfold wrap_int. pose proof (Z.mod_pos_bound (z + 2 ^ 63) (2 ^ 64)). lia.
Qed.

Lemma sort_nil (field : SortField) (ascending : bool) :
  SortContainers [] field ascending = [].
Proof. reflexivity. Qed.

(** The [containerMsg] case of [Update], given the message of a failed
    list call, empties the table and resets selection and scroll. *)
Lemma updateContainers_error (m : main.statsModel) (info : option DockerInfo)
  (e : option error) :
  let m' := main.updateContainers m [] info e in
  main.containers m' = [] /\ main.selected m' = 0 /\ main.scroll m' = 0
  /\ main.err m' = e.
Proof.
  unfold main.updateContainers. rewrite sort_nil.
  cbn [main.containers main.selected main.scroll main.err List.length Z.of_nat].
  repeat split.
  - rewrite (wrap_int_small (0 - 1)) by lia.
    destruct (0 <=? main.selected m) eqn:E1.
    + reflexivity.
    + apply Z.leb_gt in E1.
      destruct (main.selected m <? 0) eqn:E2; [reflexivity |].
      apply Z.ltb_ge in E2. lia.
  - set (v := if wrap_int (main.height m - 10) <? 1 then 1
              else wrap_int (main.height m - 10)).
    assert (Hv : 1 <= v < 2 ^ 63).
    { subst v. pose proof (wrap_int_range (main.height m - 10)).
      destruct (wrap_int (main.height m - 10) <? 1) eqn:E; [lia |].
      apply Z.ltb_ge in E. lia. }
    rewrite (wrap_int_small (0 - v)) by lia.
    assert (Hneg : (0 - v <? 0) = true) by (apply Z.ltb_lt; lia).
    rewrite Hneg.
    destruct (0 <? main.scroll m) eqn:E1; [reflexivity |].
    apply Z.ltb_ge in E1.
    destruct (main.scroll m <? 0) eqn:E2; [reflexivity |].
    apply Z.ltb_ge in E2. lia.
Qed.

(** A cycle of the bubbletea session whose list call fails. *)
Lemma main_cycle_list_failure (c : client.Client) (order : list nat)
  (m : main.statsModel) (e : error) :
  client.ContainerList c (main.showAll m) = Err e ->
  exists m',
    main.cycle c order m = Returned m'
    /\ main.containers m' = [] /\ main.selected m' = 0 /\ main.scroll m' = 0
    /\ main.err m' = Some ("failed to list containers: " ++ e).
Proof.
  intro H. unfold main.cycle, main.fetchContainers, GetContainerStats.
  rewrite H. eexists. split; [reflexivity |].
  cbn [main.Update fst]. apply updateContainers_error.
Qed.

(** A refresh of the tview application whose list call fails keeps the
    table and the sort state and shows the error in the status bar. *)
Lemma ui_refresh_list_failure (c : client.Client) (order : list nat)
  (a : ui.App) (e : error) :
  client.ContainerList c (ui.showAll a) = Err e ->
  exists a',
    ui.refresh c order a = Returned a'
    /\ ui.containers a' = ui.containers a
    /\ ui.sortField a' = ui.sortField a /\ ui.sortAsc a' = ui.sortAsc a
    /\ ui.statusBar a' = "[red]Error: failed to list containers: " ++ e.
Proof.
  intro H. unfold ui.refresh, GetContainerStats. rewrite H.
  eexists. split; [reflexivity |]. cbn. repeat split; reflexivity.
Qed.

(** C2. When the list call fails, [GetContainerStats] returns an error;
    the bubbletea model then replaces its three snapshots by the empty
    set and moves the selection from 2 and the scroll offset from 1 to
    0, where the claim has them unchanged. The tview application, given
    the same failure, keeps its table. *)
Theorem list_failure_clears_bubbletea_model :
  GetContainerStats failingClient false []
  = Returned ([], Some "failed to list containers: connection refused")
  /\ List.length (main.containers sampleModel) = 3%nat
  /\ main.selected sampleModel = 2 /\ main.scroll sampleModel = 1
  /\ (exists m',
        main.cycle failingClient [] sampleModel = Returned m'
        /\ main.containers m' = [] /\ main.selected m' = 0 /\ main.scroll m' = 0
        /\ main.err m' = Some "failed to list containers: connection refused")
  /\ (exists a',
        ui.refresh failingClient [] sampleApp = Returned a'
        /\ ui.containers a' = ui.containers sampleApp).
Proof.
  repeat split.
  - destruct (main_cycle_list_failure failingClient [] sampleModel
                "connection refused" eq_refl) as (m' & H).
    exists m'. exact H.
  - destruct (ui_refresh_list_failure failingClient [] sampleApp
                "connection refused" eq_refl) as (a' & Hr & Hc & _).
    exists a'. split; assumption.
Qed.

(** ** Formatting: the loop of [FormatBytes] ends and stays in range *)

(** With a quotient below [unit ^ f] the loop leaves by its condition
    within [f] tests: more fuel changes nothing. *)
Lemma FormatBytes_loop_fuel (f k : nat) (n div exp : Z) :
  0 <= n < unit ^ Z.of_nat f ->
  FormatBytes_loop (f + k) n div exp = FormatBytes_loop f n div exp.
Proof.
  revert n div exp. induction f as [| f IH]; intros n div exp Hn.
  - simpl in Hn. assert (n = 0) by lia. subst n.
    destruct k; reflexivity.
  - cbn [Nat.add FormatBytes_loop].
    destruct (unit <=? n) eqn:E; [| reflexivity].
    apply IH. rewrite Nat2Z.inj_succ, Z.pow_succ_r in Hn by lia.
    unfold unit in *. split.
    + apply Z.div_pos; lia.
    + apply Z.div_lt_upper_bound; lia.
Qed.

Lemma FormatBytes_loop_exp (f : nat) (n div exp : Z) :
  0 <= n < unit ^ Z.of_nat (S f) -> 0 <= exp -> exp + Z.of_nat f < 2 ^ 63 ->
  exp <= snd (FormatBytes_loop (S f) n div exp) <= exp + Z.of_nat f.
Proof.
  revert n div exp. induction f as [| f IH]; intros n div exp Hn He Hb.
  - cbn [FormatBytes_loop]. change (unit ^ Z.of_nat 1) with unit in Hn.
    assert (E : (unit <=? n) = false) by (apply Z.leb_gt; lia).
    rewrite E. simpl. lia.
  - cbn [FormatBytes_loop].
    destruct (unit <=? n) eqn:E; [| simpl; lia].
    rewrite (wrap_int_small (exp + 1)) by lia.
    assert (Hq : 0 <= n / unit < unit ^ Z.of_nat (S f)).
    { rewrite (Nat2Z.inj_succ (S f)), Z.pow_succ_r in Hn by lia.
      unfold unit in *. split.
      - apply Z.div_pos; lia.
      - apply Z.div_lt_upper_bound; lia. }
    specialize (IH (n / unit) (wrap64 (div * unit)) (exp + 1) Hq
                   ltac:(lia) ltac:(lia)).
    cbn [FormatBytes_loop] in IH. lia.
Qed.

(** [FormatBytes] returns on every [uint64]: the index into ["KMGTPE"]
    is at most 5. *)
Lemma FormatBytes_returns (bytes : Z) :
  in_uint64 bytes = true -> exists s, FormatBytes bytes = Returned s.
Proof.
  intro H. unfold in_uint64 in H. apply andb_true_iff in H.
  destruct H as [H0 H1]. apply Z.leb_le in H0. apply Z.ltb_lt in H1.
  unfold FormatBytes. destruct (bytes <? unit); [eauto |].
  assert (Hq : 0 <= bytes / unit < unit ^ Z.of_nat 6).
  { unfold unit. split; [apply Z.div_pos; lia |].
    apply Z.div_lt_upper_bound; [lia |].
    apply Z.lt_le_trans with (2 ^ 64); [exact H1 | vm_compute; discriminate]. }
  pose proof (FormatBytes_loop_exp 5 (bytes / unit) unit 0 Hq
                ltac:(lia) ltac:(simpl; lia)) as He.
  destruct (FormatBytes_loop 6 (bytes / unit) unit 0) as [div exp].
  cbn [snd] in He.
  assert (Hexp : exp = 0 \/ exp = 1 \/ exp = 2 \/ exp = 3 \/ exp = 4 \/ exp = 5)
    by lia.
  destruct Hexp as [-> | [-> | [-> | [-> | [-> | ->]]]]];
    match goal with
    | |- context [String.get (Z.to_nat ?i) ?w] =>
        let r := eval vm_compute in (String.get (Z.to_nat i) w) in
        change (String.get (Z.to_nat i) w) with r
    end; eauto.
Qed.

(** ** The unit tests of package docker *)

Example TestFormatBytes :
  map FormatBytes [0; 500; 1024; 1048576; 1073741824; 1099511627776; 1536; 1572864]
  = map Returned ["0B"; "500B"; "1.0KiB"; "1.0MiB"; "1.0GiB"; "1.0TiB";
                  "1.5KiB"; "1.5MiB"].
Proof. vm_compute. reflexivity. Qed.

Example TestFormatMemUsage :
  FormatMemUsage 0 0 = Returned "0B / 0B"
  /\ FormatMemUsage 1073741824 2147483648 = Returned "1.0GiB / 2.0GiB".
Proof. vm_compute. split; reflexivity. Qed.

Example TestTrimContainerName :
  map trimContainerName [[]; ["/mycontainer"]; ["mycontainer"]; ["/first"; "/second"]]
  = [""; "mycontainer"; "mycontainer"; "first"].
Proof. reflexivity. Qed.

(** * Further properties of the code *)

(** ** float64: finite conversions, signs of quotients and products *)

Lemma size_upper (p : positive) (k : Z) : Zpos p < 2 ^ k -> Zpos (Pos.size p) <= k.
Proof.
  intro H. pose proof (size_lower p) as Hl.
  destruct (Z.le_gt_cases (Zpos (Pos.size p)) k) as [Hle | Hgt]; [exact Hle |].
  exfalso.
  assert (2 ^ k <= 2 ^ (Zpos (Pos.size p) - 1)) by (apply Z.pow_le_mono_r; lia).
  lia.
Qed.

Lemma size_iter_xO (p k : positive) :
  Pos.size (Pos.iter xO p k) = (Pos.size p + k)%positive.
Proof.
  induction k as [| k IH] using Pos.peano_ind.
  - simpl. lia.
  - rewrite Pos.iter_succ. simpl. rewrite IH. lia.
Qed.

(** The shift of a positive mantissa, with the exponent and the mantissa
    it leaves. *)
Lemma shr_fexp_bounds (m : positive) (e : Z) (l : location) :
  emin Float64.prec Float64.emax <= e ->
  exists m' r s e',
    shr_fexp Float64.prec Float64.emax (Zpos m) e l
    = ({| shr_m := Zpos m'; shr_r := r; shr_s := s |}, e')
    /\ e <= e' <= Z.max e (Zpos (Pos.size m) + e - 53)
    /\ Zpos m' <= Zpos m.
Proof.
  intro He. unfold shr_fexp, shr.
  set (rec := shr_record_of_loc (Zpos m) l).
  assert (Hrec : shr_m rec = Zpos m) by (subst rec; destruct l as [| []]; reflexivity).
  destruct (fexp Float64.prec Float64.emax (Zdigits2 (Zpos m) + e) - e)
    as [| k | k] eqn:Ek.
  - destruct rec as [m0 r s]; simpl in Hrec; subst m0.
    exists m, r, s, e. repeat split; lia.
  - assert (Hk : Zpos k <= Zpos (Pos.size m) - 1
                 /\ e + Zpos k <= Z.max e (Zpos (Pos.size m) + e - 53)).
    { revert Ek. unfold fexp, emin, Float64.prec, Float64.emax in *.
      simpl Zdigits2. rewrite digits2_pos_size. lia. }
    pose proof (iter_shr_1_m k rec) as Hit. rewrite Hrec in Hit.
    specialize (Hit ltac:(lia)).
    assert (Hpos : 0 < Zpos m / 2 ^ Zpos k).
    { apply Z.div_str_pos. split; [lia |].
      apply Z.le_trans with (2 ^ (Zpos (Pos.size m) - 1)); [| apply size_lower].
      apply Z.pow_le_mono_r; lia. }
    assert (Hle : Zpos m / 2 ^ Zpos k <= Zpos m).
    { apply Z.div_le_upper_bound; [lia |].
      assert (1 <= 2 ^ Zpos k) by (apply (Z.pow_le_mono_r 2 0); lia). nia. }
    destruct (iter_pos shr_1 k rec) as [m1 r s]; simpl in Hit.
    destruct m1 as [| m1 | m1]; try lia.
    exists m1, r, s, (e + Zpos k). repeat split; lia.
  - destruct rec as [m0 r s]; simpl in Hrec; subst m0.
    exists m, r, s, e. repeat split; lia.
Qed.

(** Rounding a positive mantissa whose exponent is small enough gives a
    finite float. *)
Lemma binary_round_aux_finite (sx : bool) (m : positive) (e : Z) (l : location) :
  emin Float64.prec Float64.emax <= e ->
  Z.max e (Zpos (Pos.size m) + e - 53) + Zpos (Pos.size m) <= 900 ->
  exists m' e',
    binary_round_aux Float64.prec Float64.emax sx (Zpos m) e l
    = S754_finite sx m' e'.
Proof.
  intros He Hb. unfold binary_round_aux.
  destruct (shr_fexp_bounds m e l He) as (m1 & r1 & s1 & e1 & -> & He1 & Hm1).
  assert (Hr : exists m2,
             round_nearest_even
               (shr_m {| shr_m := Zpos m1; shr_r := r1; shr_s := s1 |})
               (loc_of_shr_record {| shr_m := Zpos m1; shr_r := r1; shr_s := s1 |})
             = Zpos m2 /\ Zpos m2 <= Zpos m1 + 1).
  { simpl. destruct r1, s1; simpl;
      try (eexists; split; [reflexivity | lia]).
    destruct m1; simpl; eexists; split; try reflexivity; lia. }
  destruct Hr as (m2 & -> & Hm2).
  destruct (shr_fexp_bounds m2 e1 loc_Exact ltac:(lia))
    as (m3 & r3 & s3 & e3 & -> & He3 & _).
  assert (Hs2 : Zpos (Pos.size m2) <= Zpos (Pos.size m) + 1).
  { apply size_upper. pose proof (Pos.size_gt m) as Hgt.
    assert (Zpos m < 2 ^ Zpos (Pos.size m)).
    { change 2 with (Zpos 2). rewrite <- Pos2Z.inj_pow. now apply Pos2Z.pos_lt_pos. }
    rewrite Z.pow_add_r by lia. lia. }
  simpl.
  assert (E : (e3 <=? 971) = true) by (apply Z.leb_le; lia).
  rewrite E. eauto.
Qed.

(** The conversion of a positive integer below [2 ^ 64] is finite. *)
Lemma of_Z_finitePositive (n : Z) :
  0 < n < 2 ^ 64 -> finitePositive (Float64.of_Z n) = true.
Proof.
  intros [Hn Hb]. destruct n as [| p | p]; try lia.
  assert (Hs : Zpos (Pos.size p) <= 64) by now apply size_upper.
  unfold Float64.of_Z, binary_normalize, binary_round, shl_align.
  rewrite digits2_pos_size.
  assert (Hex : fexp Float64.prec Float64.emax (Zpos (Pos.size p) + 0)
                = Zpos (Pos.size p) - 53).
  { unfold fexp, emin, Float64.prec, Float64.emax. lia. }
  rewrite Hex.
  destruct (Zpos (Pos.size p) - 53 - 0) as [| d | d] eqn:Ed.
  - destruct (binary_round_aux_finite false p 0 loc_Exact) as (m' & e' & ->);
      [unfold emin, Float64.prec, Float64.emax; lia | lia | reflexivity].
  - destruct (binary_round_aux_finite false p 0 loc_Exact) as (m' & e' & ->);
      [unfold emin, Float64.prec, Float64.emax; lia | lia | reflexivity].
  - destruct (binary_round_aux_finite false (Pos.iter xO p d)
                (Zpos (Pos.size p) - 53) loc_Exact) as (m' & e' & ->);
      [unfold emin, Float64.prec, Float64.emax; lia
      | rewrite size_iter_xO; lia | reflexivity].
Qed.

Lemma iter_shr_1_nonneg (n : positive) (mrs : shr_record) :
  0 <= shr_m mrs -> 0 <= shr_m (iter_pos shr_1 n mrs).
Proof.
  intro H. rewrite iter_shr_1_m by exact H. apply Z.div_pos; lia.
Qed.

Lemma shr_fexp_nonneg (m e : Z) (l : location) :
  0 <= m -> 0 <= shr_m (fst (shr_fexp Float64.prec Float64.emax m e l)).
Proof.
  intro Hm. unfold shr_fexp, shr.
  assert (Hrec : shr_m (shr_record_of_loc m l) = m)
    by (destruct l as [| []]; reflexivity).
  destruct (fexp Float64.prec Float64.emax (Zdigits2 m + e) - e); cbn [fst];
    [lia | | lia].
  apply iter_shr_1_nonneg. lia.
Qed.

(** Rounding a mantissa that is not negative never gives a NaN, and
    keeps the sign it is given. *)
Lemma binary_round_aux_nonNegative (m e : Z) (l : location) :
  0 <= m ->
  nonNegative (binary_round_aux Float64.prec Float64.emax false m e l) = true.
Proof.
  intro Hm. unfold binary_round_aux.
  pose proof (shr_fexp_nonneg m e l Hm) as H1.
  destruct (shr_fexp Float64.prec Float64.emax m e l) as [mrs' e'].
  cbn [fst] in H1.
  assert (H2 : 0 <= round_nearest_even (shr_m mrs') (loc_of_shr_record mrs')).
  { destruct mrs' as [m1 r1 s1]; simpl in *. destruct r1, s1; simpl; try lia.
    destruct (Z.even m1); lia. }
  pose proof (shr_fexp_nonneg _ e' loc_Exact H2) as H3.
  destruct (shr_fexp Float64.prec Float64.emax
              (round_nearest_even (shr_m mrs') (loc_of_shr_record mrs')) e' loc_Exact)
    as [mrs'' e''].
  cbn [fst] in H3.
  destruct (shr_m mrs'') as [| q | q]; [reflexivity | | lia].
  destruct (e'' <=? Float64.emax - Float64.prec); reflexivity.
Qed.

Lemma finitePositive_nonNegative (x : Float64.t) :
  finitePositive x = true -> nonNegative x = true.
Proof. destruct x as [[|] | [|] | | [|] m e]; simpl; congruence. Qed.

(** A quotient of a float that is not negative by a finite positive one
    is not negative, and not a NaN. *)
Lemma div_nonNegative (x y : Float64.t) :
  nonNegative x = true -> finitePositive y = true ->
  nonNegative (Float64.div x y) = true.
Proof.
  destruct x as [[|] | [|] | | [|] mx ex], y as [[|] | [|] | | [|] my ey];
    simpl; try congruence; intros _ _.
  unfold Float64.div, SFdiv, SFdiv_core_binary.
  set (e' := Z.min _ _). set (m' := match _ with Z0 => _ | _ => _ end).
  assert (Hm' : 0 <= m').
  { subst m'. destruct (ex - ey - e') eqn:E; try lia.
    rewrite Z.shiftl_mul_pow2 by lia. apply Z.mul_nonneg_nonneg; [lia |].
    apply Z.pow_nonneg. lia. }
  assert (Hq : 0 <= fst (Z.div_eucl m' (Zpos my))).
  { change (fst (Z.div_eucl m' (Zpos my))) with (m' / Zpos my).
    apply Z.div_pos; lia. }
  destruct (Z.div_eucl m' (Zpos my)) as [q r]. cbn [fst] in Hq.
  now apply binary_round_aux_nonNegative.
Qed.

(** A product of a float that is not negative with a finite positive one
    is not negative, and not a NaN. *)
Lemma mul_nonNegative (x y : Float64.t) :
  nonNegative x = true -> finitePositive y = true ->
  nonNegative (Float64.mul x y) = true.
Proof.
  destruct x as [[|] | [|] | | [|] mx ex], y as [[|] | [|] | | [|] my ey];
    simpl; try congruence; intros _ _.
  now apply binary_round_aux_nonNegative.
Qed.

(** ** The collector: percentages are never negative *)

Lemma of_Z_nonNegative (n : Z) :
  0 <= n < 2 ^ 64 -> nonNegative (Float64.of_Z n) = true.
Proof.
  intros [H0 H1]. destruct (Z.eq_dec n 0) as [-> | Hn]; [reflexivity |].
  apply finitePositive_nonNegative, of_Z_finitePositive. lia.
Qed.

Lemma in_uint64_range (z : Z) : in_uint64 z = true -> 0 <= z < 2 ^ 64.
Proof. unfold in_uint64. rewrite andb_true_iff, Z.leb_le, Z.ltb_lt. tauto. Qed.

Lemma in_uint32_range (z : Z) : in_uint32 z = true -> 0 <= z < 2 ^ 32.
Proof. unfold in_uint32. rewrite andb_true_iff, Z.leb_le, Z.ltb_lt. tauto. Qed.

Lemma in_int64_range (z : Z) : in_int64 z = true -> - 2 ^ 63 <= z < 2 ^ 63.
Proof. unfold in_int64. rewrite andb_true_iff, Z.leb_le, Z.ltb_lt. tauto. Qed.

Lemma calculateCPUPercent_nonNegative (stats : StatsJSON) :
  in_uint32 (OnlineCPUs (cpu_stats stats)) = true ->
  Z.of_nat (List.length (PercpuUsage (cpu_usage (cpu_stats stats)))) < 2 ^ 63 ->
  nonNegative (calculateCPUPercent stats) = true.
Proof.
  intros Ho Hl. apply in_uint32_range in Ho.
  rewrite calculateCPUPercent_unfold.
  destruct ((0 <? sysDelta stats) && (0 <? cpuDelta stats)) eqn:E; [| reflexivity].
  apply andb_true_iff in E. destruct E as [Hs Hc].
  apply Z.ltb_lt in Hs. apply Z.ltb_lt in Hc.
  pose proof (wrap64_range (SystemUsage (cpu_stats stats)
                            - SystemUsage (precpu_stats stats))) as Rs.
  pose proof (wrap64_range (TotalUsage (cpu_usage (cpu_stats stats))
                            - TotalUsage (cpu_usage (precpu_stats stats)))) as Rc.
  fold (sysDelta stats) in Rs. fold (cpuDelta stats) in Rc.
  apply mul_nonNegative; [| apply of_Z_finitePositive; lia].
  apply mul_nonNegative.
  - apply div_nonNegative; [apply of_Z_nonNegative | apply of_Z_finitePositive]; lia.
  - apply of_Z_finitePositive. unfold onlineCoreCount.
    destruct (Z.eqb_spec (OnlineCPUs (cpu_stats stats)) 0) as [E0 | E0]; [| lia].
    destruct (Z.eqb_spec
                (Z.of_nat (List.length (PercpuUsage (cpu_usage (cpu_stats stats))))) 0);
      lia.
Qed.

Lemma memPercent_nonNegative (usage limit : Z) :
  in_uint64 usage = true -> in_uint64 limit = true ->
  nonNegative (memPercent Float64.zero usage limit) = true.
Proof.
  intros Hu Hl. apply in_uint64_range in Hu. apply in_uint64_range in Hl.
  unfold memPercent. destruct (Z.ltb_spec 0 limit) as [Hp | Hp]; [| reflexivity].
  apply mul_nonNegative; [| apply of_Z_finitePositive; lia].
  apply div_nonNegative; [apply of_Z_nonNegative | apply of_Z_finitePositive]; lia.
Qed.

Lemma cpuLimit_nonNegative (h : container.HostConfig) :
  wf_HostConfig h = true -> nonNegative (cpuLimit Float64.zero h) = true.
Proof.
  unfold wf_HostConfig. rewrite !andb_true_iff. intros [[Hn Hq] Hp].
  apply in_int64_range in Hn. apply in_int64_range in Hq.
  apply in_int64_range in Hp. unfold cpuLimit.
  destruct (Z.ltb_spec 0 (container.NanoCPUs h)) as [Hn0 | Hn0].
  - apply div_nonNegative; [apply of_Z_nonNegative | apply of_Z_finitePositive]; lia.
  - destruct (Z.ltb_spec 0 (container.CPUQuota h)) as [Hq0 | Hq0]; [| reflexivity].
    destruct (Z.ltb_spec 0 (container.CPUPeriod h)) as [Hp0 | Hp0]; [| reflexivity].
    cbn [andb].
    apply div_nonNegative; [apply of_Z_nonNegative | apply of_Z_finitePositive]; lia.
Qed.

Lemma wf_StatsJSON_fields (s : StatsJSON) :
  wf_StatsJSON s = true ->
  in_uint32 (OnlineCPUs (cpu_stats s)) = true
  /\ in_uint64 (Usage (memory_stats s)) = true
  /\ in_uint64 (Limit (memory_stats s)) = true.
Proof.
  unfold wf_StatsJSON, wf_CPUStats. rewrite !andb_true_iff. tauto.
Qed.

(** X1. Every snapshot [getContainerStats] returns for a daemon whose
    answers are in the range of their types has a CPU percentage, a
    memory percentage and a CPU limit that are neither negative nor
    NaN. *)
Theorem snapshot_percentages_nonNegative (c : client.Client)
  (cont : container.Summary) (stats : ContainerStats) (e : option error) :
  wf_answers c cont ->
  getContainerStats c cont = Returned (stats, e) ->
  nonNegative (CPUPercent stats) = true
  /\ nonNegative (MemPercent stats) = true
  /\ nonNegative (CPULimit stats) = true.
Proof.
  intros [Hstats Hhost] Hget. apply getContainerStats_inv in Hget.
  destruct Hget as (_ & partial & Hp & Hlive). symmetry in Hlive.
  destruct (partialStats_metrics c cont _ partial Hp) as (Pcpu & _ & _ & Pmem & _).
  assert (Plim : nonNegative (CPULimit partial) = true).
  { rewrite (partialStats_CPULimit c cont _ partial Hp).
    destruct (inspectedHostConfig c cont) as [h |] eqn:Eh; [| reflexivity].
    apply cpuLimit_nonNegative. now apply Hhost. }
  assert (Ppartial : forall s, s = partial ->
            nonNegative (CPUPercent s) = true /\ nonNegative (MemPercent s) = true
            /\ nonNegative (CPULimit s) = true).
  { intros s ->. rewrite Pcpu, Pmem. auto. }
  assert (Papply : forall sj,
            in_uint32 (OnlineCPUs (cpu_stats sj)) = true ->
            Z.of_nat (List.length (PercpuUsage (cpu_usage (cpu_stats sj)))) < 2 ^ 63 ->
            in_uint64 (Usage (memory_stats sj)) = true ->
            in_uint64 (Limit (memory_stats sj)) = true ->
            stats = applyStats partial sj ->
            nonNegative (CPUPercent stats) = true
            /\ nonNegative (MemPercent stats) = true
            /\ nonNegative (CPULimit stats) = true).
  { intros sj Ho Hl Hu Hli ->. cbn [applyStats CPUPercent MemPercent CPULimit].
    rewrite Pmem. repeat split.
    - now apply calculateCPUPercent_nonNegative.
    - now apply memPercent_nonNegative.
    - exact Plim. }
  unfold liveStats in Hlive.
  destruct (negb (container.State cont =? "running")%string).
  { injection Hlive as <- _. now apply Ppartial. }
  destruct (client.ContainerStats c (container.ID cont)) as [[sj | | de] | fe] eqn:Ef;
    injection Hlive as <- _; try (now apply Ppartial).
  - destruct (Hstats sj eq_refl) as [Hwf Hlen].
    destruct (wf_StatsJSON_fields sj Hwf) as (Ho & Hu & Hli).
    now apply (Papply sj).
  - now apply (Papply zeroStatsJSON).
Qed.

Lemma snapshot_percentages_nonNegative_witness :
  exists stats,
    getContainerStats (sampleClient [sampleContainer]) sampleContainer
    = Returned (stats, None)
    /\ nonNegative (CPUPercent stats) = true
    /\ nonNegative (MemPercent stats) = true
    /\ nonNegative (CPULimit stats) = true.
Proof.
  assert (Hget : exists stats,
             getContainerStats (sampleClient [sampleContainer]) sampleContainer
             = Returned (stats, None)) by (eexists; vm_compute; reflexivity).
  destruct Hget as [stats Hget]. exists stats. split; [exact Hget |].
  apply (snapshot_percentages_nonNegative (sampleClient [sampleContainer])
           sampleContainer stats None); [| exact Hget].
  split.
  - intros sj H. cbn in H. injection H as <-. vm_compute. split; reflexivity.
  - intros h H. cbn in H. injection H as <-. reflexivity.
Defined.

(** ** The collector: containers that are not running, empty bodies *)

Lemma partialStats_sameInspects (c c' : client.Client) (cont : container.Summary)
  (short : string) :
  sameInspects c c' cont -> partialStats c cont short = partialStats c' cont short.
Proof. intros [Hi Hc]. unfold partialStats. now rewrite Hi, Hc. Qed.

(** X2. For a container whose state is not "running" the stats endpoint
    plays no part: two daemons that answer the inspect calls alike give
    the same snapshot whatever their stats calls would answer, and this
    snapshot has every live metric at zero. The snapshot is there when
    the identifier can be cut and the inspect, if it succeeds, carries a
    host configuration. *)
Theorem not_running_no_live_stats (c c' : client.Client) (cont : container.Summary) :
  (12 <= String.length (container.ID cont))%nat ->
  hostConfigMissing c cont = false ->
  container.State cont <> "running" ->
  sameInspects c c' cont ->
  getContainerStats c cont = getContainerStats c' cont
  /\ exists stats,
      getContainerStats c cont = Returned (stats, None)
      /\ State stats = container.State cont
      /\ CPUPercent stats = Float64.zero /\ MemPercent stats = Float64.zero
      /\ MemUsage stats = 0 /\ MemLimit stats = 0
      /\ NetRx stats = 0 /\ NetTx stats = 0
      /\ BlockRead stats = 0 /\ BlockWrite stats = 0 /\ PIDs stats = 0.
Proof.
  intros Hid Hhost Hstate Hsame.
  apply String.eqb_neq in Hstate.
  destruct (partialStats_returns c cont (substring 0 12 (container.ID cont)) Hhost)
    as [partial Hp].
  assert (Hc : forall d,
             partialStats d cont (substring 0 12 (container.ID cont))
             = Returned partial ->
             getContainerStats d cont = Returned (partial, None)).
  { intros d Hd. rewrite (getContainerStats_unfold d cont partial Hid Hd).
    unfold liveStats. now rewrite Hstate. }
  split.
  - rewrite (Hc c Hp), (Hc c'); [reflexivity |].
    now rewrite <- (partialStats_sameInspects c c' cont _ Hsame).
  - exists partial. split; [apply (Hc c Hp) |].
    destruct (partialStats_metrics c cont _ partial Hp)
      as (H1 & H2 & H3 & H4 & H5 & H6 & H7 & H8 & H9).
    destruct (partialStats_identity c cont _ partial Hp)
      as (_ & _ & _ & _ & Hs & _).
    repeat split; assumption.
Qed.

Lemma not_running_no_live_stats_witness :
  getContainerStats (sampleClient [exitedContainer]) exitedContainer
  = getContainerStats
      (withStats (sampleClient [exitedContainer]) (fun _ => Ok (DecodeOk sampleStats)))
      exitedContainer.
Proof.
  apply (not_running_no_live_stats (sampleClient [exitedContainer])
           (withStats (sampleClient [exitedContainer])
                      (fun _ => Ok (DecodeOk sampleStats)))
           exitedContainer).
  - simpl. lia.
  - reflexivity.
  - discriminate.
  - split; reflexivity.
Defined.

Lemma applyStats_zero (s : ContainerStats) :
  CPUPercent s = Float64.zero -> MemUsage s = 0 -> MemLimit s = 0 ->
  NetRx s = 0 -> NetTx s = 0 -> BlockRead s = 0 -> BlockWrite s = 0 ->
  PIDs s = 0 ->
  applyStats s zeroStatsJSON = s.
Proof.
  destruct s; cbn. intros -> -> -> -> -> -> -> ->. reflexivity.
Qed.

(** X3. A stats response with an empty body (the decoder returns
    [io.EOF]) gives the snapshot that a failed stats call gives: the
    partial snapshot, every live metric at zero. *)
Theorem empty_body_as_failed_fetch (c c' : client.Client) (cont : container.Summary)
  (e : error) :
  client.ContainerStats c (container.ID cont) = Ok DecodeEOF ->
  client.ContainerStats c' (container.ID cont) = Err e ->
  sameInspects c c' cont ->
  getContainerStats c cont = getContainerStats c' cont.
Proof.
  intros Heof Herr Hsame. unfold getContainerStats.
  destruct (slice_to (container.ID cont) 12) as [short |]; [| reflexivity].
  rewrite <- (partialStats_sameInspects c c' cont short Hsame).
  destruct (partialStats c cont short) as [partial |] eqn:Hp; [| reflexivity].
  unfold liveStats. rewrite Heof, Herr.
  destruct (negb (container.State cont =? "running")%string); [reflexivity |].
  destruct (partialStats_metrics c cont short partial Hp)
    as (H1 & H2 & H3 & _ & H5 & H6 & H7 & H8 & H9).
  now rewrite applyStats_zero.
Qed.

Lemma empty_body_as_failed_fetch_witness :
  getContainerStats
    (withStats (sampleClient [sampleContainer]) (fun _ => Ok DecodeEOF))
    sampleContainer
  = getContainerStats
      (withStats (sampleClient [sampleContainer]) (fun _ => Err "timeout"))
      sampleContainer.
Proof.
  apply (empty_body_as_failed_fetch _ _ sampleContainer "timeout");
    [reflexivity | reflexivity | split; reflexivity].
Defined.

(** X4. The order in which the loop over the [Networks] map visits the
    interfaces does not show in the snapshot: two payloads that differ
    only in the order of their network entries give the same snapshot. *)
Theorem network_order_irrelevant (c c' : client.Client) (cont : container.Summary)
  (statsJSON : StatsJSON) (nets' : list (string * NetStats)) :
  Permutation (networks statsJSON) nets' ->
  client.ContainerStats c (container.ID cont) = Ok (DecodeOk statsJSON) ->
  client.ContainerStats c' (container.ID cont)
  = Ok (DecodeOk (withNetworks statsJSON nets')) ->
  sameInspects c c' cont ->
  getContainerStats c cont = getContainerStats c' cont.
Proof.
  intros Hperm Hc Hc' Hsame. unfold getContainerStats.
  destruct (slice_to (container.ID cont) 12) as [short |]; [| reflexivity].
  rewrite <- (partialStats_sameInspects c c' cont short Hsame).
  destruct (partialStats c cont short) as [partial |] eqn:Hp; [| reflexivity].
  unfold liveStats. rewrite Hc, Hc'.
  destruct (negb (container.State cont =? "running")%string); [reflexivity |].
  destruct (partialStats_metrics c cont short partial Hp)
    as (_ & _ & _ & _ & Hrx & Htx & _).
  do 2 f_equal. unfold applyStats.
  rewrite Hrx, Htx. cbn [networks withNetworks].
  rewrite (sumNetworks_order_irrelevant _ _ Hperm).
  destruct statsJSON; reflexivity.
Qed.

Lemma network_order_irrelevant_witness :
  getContainerStats (sampleClient [sampleContainer]) sampleContainer
  = getContainerStats
      (withStats (sampleClient [sampleContainer])
         (fun _ => Ok (DecodeOk
            (withNetworks sampleStats
               [("eth1", {| RxBytes := 24; TxBytes := 48 |});
                ("eth0", {| RxBytes := 1000; TxBytes := 2000 |})]))))
      sampleContainer.
Proof.
  apply (network_order_irrelevant _ _ sampleContainer sampleStats
           [("eth1", {| RxBytes := 24; TxBytes := 48 |});
            ("eth0", {| RxBytes := 1000; TxBytes := 2000 |})]).
  - apply perm_swap.
  - reflexivity.
  - reflexivity.
  - split; reflexivity.
Defined.

(** ** The sorter: reordering, ties, the order of the input *)

(** X5. Sorting is a pure reordering: for every field value and either
    direction the result is a permutation of the slice, with the same
    snapshots and the same length, whether or not keys tie. *)
Theorem SortContainers_permutation (l : list ContainerStats) (field : SortField)
  (ascending : bool) :
  Permutation (SortContainers l field ascending) l
  /\ List.length (SortContainers l field ascending) = List.length l
  /\ (forall s, In s (SortContainers l field ascending) <-> In s l).
Proof.
  pose proof (Slice_Permutation (sortLess field ascending) l) as H.
  split; [exact H |]. split; [exact (Permutation_length H) |].
  intro s. split; apply Permutation_in; [exact H | now symmetry].
Qed.

Section AsymmetricComparison.

Context {A : Type}.
Variable cmp : A -> A -> bool.
Hypothesis cmp_asym : forall x y, cmp x y = true -> cmp y x = false.

Lemma sink_Sorted (x : A) (prefix : list A) :
  Sorted (fun y z => cmp y z = false) prefix ->
  Sorted (fun y z => cmp y z = false) (sort.sink cmp x prefix).
Proof.
  induction 1 as [| y rest Hs IH Hy]; simpl.
  - repeat constructor.
  - destruct (cmp x y) eqn:E.
    + constructor; [exact IH |].
      destruct rest as [| z rest']; simpl.
      * constructor. now apply cmp_asym.
      * destruct (cmp x z); constructor.
        -- now inversion Hy.
        -- now apply cmp_asym.
    + constructor; [now constructor | now constructor].
Qed.

Lemma insertAll_Sorted (l prefix : list A) :
  Sorted (fun y z => cmp y z = false) prefix ->
  Sorted (fun y z => cmp y z = false) (sort.insertAll cmp l prefix).
Proof.
  unfold sort.insertAll. revert prefix.
  induction l as [| x l IH]; intros prefix H; simpl; [exact H |].
  apply IH. now apply sink_Sorted.
Qed.

Lemma insertAll_rev_Sorted (prefix : list A) :
  Sorted (fun y z => cmp y z = false) prefix ->
  sort.insertAll cmp (rev prefix) [] = prefix.
Proof.
  induction 1 as [| y rest Hs IH Hy]; [reflexivity |].
  simpl rev. rewrite insertAll_snoc, IH.
  destruct rest as [| z rest']; [reflexivity |].
  simpl. inversion Hy as [| ? ? Hyz]; subst. now rewrite Hyz.
Qed.

Lemma Slice_idempotent_asym (l : list A) :
  sort.Slice cmp (sort.Slice cmp l) = sort.Slice cmp l.
Proof.
  unfold sort.Slice at 1 2.
  rewrite insertAll_rev_Sorted; [reflexivity |].
  apply insertAll_Sorted. constructor.
Qed.

End AsymmetricComparison.

Lemma Sorted_snoc {A : Type} (R : A -> A -> Prop) (l : list A) (b a : A) :
  Sorted R (l ++ [b]) -> R b a -> Sorted R ((l ++ [b]) ++ [a]).
Proof.
  intros Hs Hba. induction l as [| c l IH]; simpl in *.
  - repeat constructor. exact Hba.
  - inversion Hs as [| ? ? Hs' Hc]; subst. constructor; [now apply IH |].
    destruct l as [| d l']; simpl in *; inversion Hc; subst; now constructor.
Qed.

Lemma Sorted_rev {A : Type} (R : A -> A -> Prop) (l : list A) :
  Sorted R l -> Sorted (fun a b => R b a) (rev l).
Proof.
  induction 1 as [| a l Hs IH Ha]; simpl; [constructor |].
  destruct l as [| b l']; [repeat constructor |].
  simpl rev in *. apply Sorted_snoc; [exact IH |].
  now inversion Ha.
Qed.

(** X6. An ascending sort of a slice of at most twelve snapshots leaves
    no snapshot directly before one with a smaller key, and sorting the
    result again changes nothing, ties or not (only the descending
    comparison disturbs ties). *)
Theorem ascending_sort_settles (l : list ContainerStats) (field : SortField) :
  (List.length l <= 12)%nat ->
  Sorted (fun a b => fieldLess field b a = false) (SortContainers l field true)
  /\ SortContainers (SortContainers l field true) field true
     = SortContainers l field true.
Proof.
  intros _. split.
  - unfold SortContainers, sort.Slice.
    apply (Sorted_rev (fun y z => fieldLess field y z = false)).
    apply (insertAll_Sorted (sortLess field true));
      [apply fieldLess_asym | constructor].
  - apply (Slice_idempotent_asym (sortLess field true)). apply fieldLess_asym.
Qed.

Lemma ascending_sort_settles_witness :
  map Name (SortContainers (SortContainers tiedContainers SortByCPU true)
                           SortByCPU true)
  = map Name (SortContainers tiedContainers SortByCPU true).
Proof.
  rewrite (proj2 (ascending_sort_settles tiedContainers SortByCPU
                    ltac:(simpl; lia))).
  reflexivity.
Defined.

Lemma sort_orders_aux (field : SortField) (l : list ContainerStats) :
  tie_free field l = true ->
  StronglySorted (fun a b => fieldLess field a b = true)
                 (SortContainers l field true)
  /\ StronglySorted (fun a b => fieldLess field b a = true)
                    (SortContainers l field false).
Proof.
  intro H. unfold SortContainers, sort.Slice. split.
  - apply (StronglySorted_rev (fun y z => fieldLess field z y = true)).
    now apply ascending_sorted.
  - apply (StronglySorted_rev (fun y z => fieldLess field y z = true)).
    now apply descending_sorted.
Qed.

(** X7. Without ties the sorter orders: every snapshot of the ascending
    result has a smaller key than every later one, and every snapshot of
    the descending result a larger key than every later one. *)
Theorem sort_orders_without_ties (l : list ContainerStats) (field : SortField) :
  tie_free field l = true ->
  StronglySorted (fun a b => fieldLess field a b = true)
                 (SortContainers l field true)
  /\ StronglySorted (fun a b => fieldLess field b a = true)
                    (SortContainers l field false).
Proof. apply sort_orders_aux. Qed.

Lemma sort_orders_without_ties_witness :
  StronglySorted (fun a b => fieldLess SortByMemory b a = true)
                 (SortContainers testContainers SortByMemory false).
Proof.
  apply (sort_orders_without_ties testContainers SortByMemory).
  vm_compute. reflexivity.
Defined.

Lemma ForallOrdPairs_tie_free (field : SortField) (l : list ContainerStats) :
  ForallOrdPairs (fun a b => untied field a b = true) l -> tie_free field l = true.
Proof.
  induction 1 as [| a l Ha _ IH]; simpl; [reflexivity |].
  rewrite IH, andb_true_r. apply forallb_forall.
  rewrite Forall_forall in Ha. exact Ha.
Qed.

Lemma untied_sym (field : SortField) (a b : ContainerStats) :
  untied field a b = untied field b a.
Proof. unfold untied. apply orb_comm. Qed.

Lemma tie_free_Permutation (field : SortField) (l l' : list ContainerStats) :
  Permutation l l' -> tie_free field l = true -> tie_free field l' = true.
Proof.
  intros Hperm H. apply ForallOrdPairs_tie_free.
  apply tie_free_ForallOrdPairs in H.
  induction Hperm as [| x l l' Hp IH | x y l | l l' l'' _ IH1 _ IH2].
  - constructor.
  - inversion H as [| ? ? Hx Hl]; subst. constructor; [| now apply IH].
    rewrite Forall_forall in Hx |- *. intros b Hb. apply Hx.
    now apply (Permutation_in _ (Permutation_sym Hp)).
  - inversion H as [| ? ? Hy Hl]; subst.
    inversion Hl as [| ? ? Hx Hl']; subst.
    inversion Hy as [| ? ? Hyx Hy']; subst.
    constructor; [constructor; [now rewrite untied_sym | exact Hx] |].
    constructor; assumption.
  - auto.
Qed.

(** X8. Without ties the sorted table does not depend on the order in
    which the snapshots come in: two permutations of the same snapshots
    are sorted into the same list. *)
Theorem sort_ignores_input_order (l l' : list ContainerStats) (field : SortField)
  (ascending : bool) :
  Permutation l l' -> tie_free field l = true ->
  SortContainers l field ascending = SortContainers l' field ascending.
Proof.
  intros Hperm Hfree.
  pose proof (tie_free_Permutation field l l' Hperm Hfree) as Hfree'.
  destruct (sort_orders_aux field l Hfree) as [Ha Hd].
  destruct (sort_orders_aux field l' Hfree') as [Ha' Hd'].
  destruct ascending.
  - apply (sorted_permutation_unique (fun a b => fieldLess field a b = true));
      try assumption.
    + intros x y Hxy Hyx. apply fieldLess_asym in Hxy. congruence.
    + unfold SortContainers. now rewrite !Slice_Permutation.
  - apply (sorted_permutation_unique (fun a b => fieldLess field b a = true));
      try assumption.
    + intros x y Hxy Hyx. apply fieldLess_asym in Hxy. congruence.
    + unfold SortContainers. now rewrite !Slice_Permutation.
Qed.

Lemma sort_ignores_input_order_witness :
  SortContainers testContainers SortByCPU false
  = SortContainers (rev testContainers) SortByCPU false.
Proof.
  apply (sort_ignores_input_order testContainers (rev testContainers)
           SortByCPU false).
  - apply Permutation_rev.
  - vm_compute. reflexivity.
Defined.

(** X9. The order in which the goroutines of a cycle finish does not
    show in the session: when the sorted table has no ties in the active
    sort key, two cycles that differ only in the completion order of the
    tasks leave the bubbletea model in the same state. *)
Theorem completion_order_does_not_show (c : client.Client)
  (order1 order2 : list nat) (m m1 m2 : main.statsModel)
  (containers : list container.Summary) :
  client.ContainerList c (main.showAll m) = Ok containers ->
  schedule (List.length containers) order1 ->
  schedule (List.length containers) order2 ->
  main.cycle c order1 m = Returned m1 ->
  main.cycle c order2 m = Returned m2 ->
  tie_free (main.sortField m) (main.containers m1) = true ->
  m1 = m2.
Proof.
  intros Hlist Hs1 Hs2 Hc1 Hc2 Hfree.
  unfold main.cycle, main.fetchContainers, GetContainerStats in Hc1, Hc2.
  rewrite Hlist in Hc1, Hc2.
  destruct containers as [| cont rest].
  - injection Hc1 as <-. injection Hc2 as <-. reflexivity.
  - destruct (runTasks c (cont :: rest)) as [outs |]; [| discriminate].
    injection Hc1 as <-. injection Hc2 as <-.
    cbn [main.Update fst] in *.
    assert (Hperm : Permutation (flat_map (sent outs) order1)
                                (flat_map (sent outs) order2)).
    { apply Permutation_flat_map. unfold schedule in *.
      now rewrite Hs1, Hs2. }
    assert (Hsort :
      SortContainers (flat_map (sent outs) order1) (main.sortField m) (main.sortAsc m)
      = SortContainers (flat_map (sent outs) order2) (main.sortField m)
                       (main.sortAsc m)).
    { apply sort_ignores_input_order; [exact Hperm |].
      unfold main.updateContainers in Hfree. cbn [main.containers] in Hfree.
      apply (tie_free_Permutation (main.sortField m)
               (SortContainers (flat_map (sent outs) order1)
                               (main.sortField m) (main.sortAsc m)));
        [apply Slice_Permutation | exact Hfree]. }
    unfold main.updateContainers. now rewrite Hsort.
Qed.

Lemma completion_order_does_not_show_witness :
  main.cycle (sampleClient [sampleContainer; brokenContainer]) [0%nat; 1%nat]
             sampleModel
  = main.cycle (sampleClient [sampleContainer; brokenContainer]) [1%nat; 0%nat]
               sampleModel.
Proof.
  set (c := sampleClient [sampleContainer; brokenContainer]).
  assert (H1 : exists m1, main.cycle c [0%nat; 1%nat] sampleModel = Returned m1)
    by (eexists; vm_compute; reflexivity).
  assert (H2 : exists m2, main.cycle c [1%nat; 0%nat] sampleModel = Returned m2)
    by (eexists; vm_compute; reflexivity).
  destruct H1 as [m1 H1]. destruct H2 as [m2 H2].
  rewrite H1, H2. f_equal.
  apply (completion_order_does_not_show c [0%nat; 1%nat] [1%nat; 0%nat]
           sampleModel m1 m2 [sampleContainer; brokenContainer] eq_refl
           (Permutation_refl _) (perm_swap 0%nat 1%nat []) H1 H2).
  vm_compute in H1. injection H1 as <-. vm_compute. reflexivity.
Defined.

(** ** The session: selection and scroll offset *)

(** The key switch of [Update] has thirteen cases and a default: every
    key behaves as one of the keys the switch names, or changes nothing. *)
Lemma updateKey_cases (m : main.statsModel) (key : string) :
  main.updateKey m key = main.updateKey m "q"
  \/ main.updateKey m key = main.updateKey m "c"
  \/ main.updateKey m key = main.updateKey m "m"
  \/ main.updateKey m key = main.updateKey m "n"
  \/ main.updateKey m key = main.updateKey m "d"
  \/ main.updateKey m key = main.updateKey m "i"
  \/ main.updateKey m key = main.updateKey m "up"
  \/ main.updateKey m key = main.updateKey m "down"
  \/ main.updateKey m key = main.updateKey m "pgup"
  \/ main.updateKey m key = main.updateKey m "pgdown"
  \/ main.updateKey m key = main.updateKey m "home"
  \/ main.updateKey m key = main.updateKey m "end"
  \/ main.updateKey m key = main.updateKey m "r"
  \/ main.updateKey m key = (m, main.CmdNil).
Proof.
  unfold main.updateKey at 1;
  repeat match goal with
         | |- context [match ?x with _ => _ end] =>
             match type of x with
             | string => destruct x
             | ascii => destruct x
             | bool => destruct x
             end
         end;
  repeat first [left; reflexivity | right]; reflexivity.
Qed.

Ltac key_step :=
  cbv beta iota zeta delta
    [main.updateKey main.sortKey main.with_sort main.with_view main.len fst snd
     main.containers main.selected main.scroll main.height main.sortField
     main.sortAsc main.width main.info main.showAll main.err main.quitting].

Ltac unwrap_in_goal :=
  repeat match goal with
         | |- context [wrap_int ?z] => rewrite (wrap_int_small z) by lia
         end.

Ltac innermost_if :=
  match goal with
  | |- context [if ?b then _ else _] =>
      lazymatch b with
      | context [if _ then _ else _] => fail
      | context [wrap_int _] => fail
      | Z.ltb ?x ?y => destruct (Z.ltb_spec x y)
      | Z.leb ?x ?y => destruct (Z.leb_spec x y)
      | Z.eqb ?x ?y => destruct (Z.eqb_spec x y)
      end
  end.

Ltac arith := repeat (unwrap_in_goal; innermost_if); unwrap_in_goal.

Ltac open_model m :=
  destruct m as [cs info sf sa sh w h sc sel e q];
  unfold boundedModel, main.len in *;
  cbn [main.containers main.selected main.scroll main.height] in *.

(** No key makes the scroll offset negative. *)
Lemma scroll_stays (m : main.statsModel) (key : string) :
  boundedModel m -> 0 <= main.scroll m ->
  0 <= main.scroll (fst (main.updateKey m key)).
Proof.
  intros Hb H0.
  pose proof (updateKey_cases m key) as H.
  repeat (destruct H as [H | H]); rewrite H; clear H;
    open_model m; destruct Hb as (Hh & Hl & Hs & Hsel);
    key_step; arith; cbn; lia.
Qed.

(** X11. On a table that is not empty every key leaves the selection on
    a row of the table, and leaves the table as it is. *)
Theorem selection_stays_on_a_row (m : main.statsModel) (key : string) :
  boundedModel m -> 0 <= main.selected m < main.len m ->
  0 <= main.selected (fst (main.Update m (main.KeyMsg key))) < main.len m
  /\ main.containers (fst (main.Update m (main.KeyMsg key))) = main.containers m.
Proof.
  intros Hb H0. cbn [main.Update].
  pose proof (updateKey_cases m key) as H.
  repeat (destruct H as [H | H]); rewrite H; clear H;
    open_model m; destruct Hb as (Hh & Hl & Hs & Hsel);
    key_step; arith; cbn; (split; [lia | reflexivity]).
Qed.

Ltac open_update :=
  cbv beta iota zeta delta
    [main.Update main.updateContainers main.updateKey main.sortKey main.with_sort
     main.with_view main.len fst snd
     main.containers main.selected main.scroll main.height main.sortField
     main.sortAsc main.width main.info main.showAll main.err main.quitting].

Lemma length_SortContainers (l : list ContainerStats) (f : SortField) (a : bool) :
  List.length (SortContainers l f a) = List.length l.
Proof. apply Permutation_length, Slice_Permutation. Qed.

(** X10. After a [containerMsg] with [n] snapshots, whatever the state
    before, the table has [n] rows, the selection lies in [0, max 0 (n-1)]
    and the scroll offset in [0, max 0 (n - visibleRows)]. *)
Theorem containerMsg_clamps (m : main.statsModel) (cs : list ContainerStats)
  (info : option DockerInfo) (e : option error) :
  Z.of_nat (List.length cs) < 2 ^ 60 ->
  let m' := fst (main.Update m (main.containerMsg cs info e)) in
  let n := Z.of_nat (List.length cs) in
  main.len m' = n
  /\ 0 <= main.selected m' <= Z.max 0 (n - 1)
  /\ 0 <= main.scroll m' <= Z.max 0 (n - updateVisibleRows m).
Proof.
  intros Hn m' n. subst m'.
  unfold updateVisibleRows.
  destruct m as [cs0 info0 sf sa sh w h sc sel e0 q].
  open_update.
  rewrite length_SortContainers. fold n.
  pose proof (wrap_int_range (h - 10)) as Hv.
  set (v0 := wrap_int (h - 10)) in *.
  assert (Hn0 : 0 <= n) by (subst n; lia).
  split; [reflexivity |].
  split; arith; lia.
Qed.

(** X12. With a terminal of at least 11 lines the selected row stays
    inside the scroll window: every key keeps
    [0 <= scroll <= selected < len] and [selected < scroll + (height - 10)]
    on a table that is not empty, and so does every [containerMsg] that
    brings at least one snapshot. *)
Theorem window_kept (m : main.statsModel) :
  boundedModel m -> 11 <= main.height m ->
  (forall key,
      inWindow m (main.len m) (main.height m - 10) ->
      inWindow (fst (main.Update m (main.KeyMsg key))) (main.len m)
               (main.height m - 10))
  /\ (forall cs info e,
         1 <= Z.of_nat (List.length cs) < 2 ^ 60 ->
         0 <= main.scroll m <= main.selected m ->
         main.selected m < main.scroll m + (main.height m - 10) ->
         inWindow (fst (main.Update m (main.containerMsg cs info e)))
                  (Z.of_nat (List.length cs)) (main.height m - 10)).
Proof.
  intros Hb Hh. split.
  - intros key Hw. cbn [main.Update].
    pose proof (updateKey_cases m key) as H.
    repeat (destruct H as [H | H]); rewrite H; clear H;
      open_model m; destruct Hb as (Hh' & Hl & Hs & Hsel);
      unfold inWindow in *; cbn [main.selected main.scroll] in Hw;
      key_step; arith; cbn; lia.
  - intros cs' info' e' Hn Hs0 Hs1.
    open_model m. destruct Hb as (Hh' & Hl & Hs & Hsel).
    unfold inWindow. open_update. rewrite length_SortContainers.
    arith; lia.
Qed.

(** X13. No message makes NetworkIO the active sort field of the
    bubbletea model: the key switch has no case for it. *)
Theorem sort_field_NetIO_unreachable (m : main.statsModel) (msg : main.Msg) :
  main.sortField m <> SortByNetIO ->
  main.sortField (fst (main.Update m msg)) <> SortByNetIO.
Proof.
  intro Hne. destruct msg as [W H | key | | cs' info' e' |]; try exact Hne.
  cbn [main.Update].
  pose proof (updateKey_cases m key) as H.
  repeat (destruct H as [H | H]); rewrite H; clear H;
    destruct m as [cs info sf sa sh w h sc sel e q];
    cbn [main.sortField] in Hne; key_step;
    unfold SortByCPU, SortByMemory, SortByName, SortByBlockIO, SortByImageSize,
      SortByNetIO in *;
    repeat match goal with
           | |- context [if ?b then _ else _] => destruct b
           end; cbn; lia.
Qed.

(** X14. On an empty table the keys "end" and "pgdown" move the
    selection to -1, below every row; the next [containerMsg], whatever
    it brings, puts it back to 0. *)
Theorem empty_table_end_key (m : main.statsModel) :
  main.containers m = [] -> 0 <= main.selected m <= 2 ^ 60 ->
  main.selected (fst (main.Update m (main.KeyMsg "end"))) = - 1
  /\ main.selected (fst (main.Update m (main.KeyMsg "pgdown"))) = - 1
  /\ forall (key : string) (cs : list ContainerStats)
       (info : option DockerInfo) (e : option error),
       key = "end" \/ key = "pgdown" ->
       Z.of_nat (List.length cs) < 2 ^ 60 ->
       main.selected
         (fst (main.Update (fst (main.Update m (main.KeyMsg key)))
                           (main.containerMsg cs info e))) = 0.
Proof.
  intros Hc Hs. destruct m as [cs info sf sa sh w h sc sel e q].
  cbn [main.containers main.selected] in *. subst cs.
  split; [| split].
  1, 2: open_update; rewrite ?length_SortContainers; cbn [List.length Z.of_nat];
    arith; cbn; lia.
  intros key cs' info' e' Hkey Hlen.
  pose proof (Zle_0_nat (List.length cs')) as Hn0.
  destruct Hkey as [-> | ->];
    open_update; rewrite ?length_SortContainers; cbn [List.length Z.of_nat];
    arith; cbn; lia.
Qed.

Lemma containerMsg_clamps_witness :
  main.selected (fst (main.Update sampleModel (main.containerMsg tiedContainers None None)))
  = 1
  /\ main.scroll (fst (main.Update sampleModel (main.containerMsg tiedContainers None None)))
     = 0.
Proof.
  destruct (containerMsg_clamps sampleModel tiedContainers None None)
    as (_ & Hsel & Hscroll).
  - simpl. lia.
  - vm_compute. split; reflexivity.
Defined.

Lemma sampleModel_bounded : boundedModel sampleModel.
Proof. unfold boundedModel. vm_compute. intuition discriminate. Qed.

Lemma selection_stays_on_a_row_witness :
  0 <= main.selected (fst (main.Update sampleModel (main.KeyMsg "pgdown"))) < 3.
Proof.
  apply (selection_stays_on_a_row sampleModel "pgdown" sampleModel_bounded).
  vm_compute. intuition discriminate.
Defined.

Lemma window_kept_witness :
  inWindow (fst (main.Update sampleModel (main.KeyMsg "up"))) 3 2.
Proof.
  apply (proj1 (window_kept sampleModel sampleModel_bounded
                  ltac:(vm_compute; discriminate)) "up").
  unfold inWindow. vm_compute. intuition discriminate.
Defined.

Lemma sort_field_NetIO_unreachable_witness :
  main.sortField (fst (main.Update sampleModel (main.KeyMsg "d"))) <> SortByNetIO.
Proof.
  apply (sort_field_NetIO_unreachable sampleModel (main.KeyMsg "d")).
  vm_compute. discriminate.
Defined.

Lemma empty_table_end_key_witness :
  let emptied := fst (main.Update sampleModel (main.containerMsg [] None None)) in
  main.selected (fst (main.Update emptied (main.KeyMsg "end"))) = - 1
  /\ main.selected
       (fst (main.Update (fst (main.Update emptied (main.KeyMsg "end")))
                         (main.containerMsg testContainers None None))) = 0.
Proof.
  intro emptied.
  destruct (empty_table_end_key emptied) as (Hend & _ & Hnext).
  - reflexivity.
  - vm_compute. intuition discriminate.
  - split; [exact Hend |].
    apply Hnext; [left; reflexivity | vm_compute; reflexivity].
Defined.

(** ** The view: the rows it renders *)

Lemma skipn_nth_error {A : Type} (l : list A) (k : nat) (a : A) :
  nth_error l k = Some a -> skipn k l = a :: skipn (S k) l.
Proof.
  revert k. induction l as [| b l IH]; intros [| k] H; simpl in *;
    try discriminate.
  - now injection H as ->.
  - now apply IH.
Qed.

Lemma index_in_range (containers : list ContainerStats) (i : Z) :
  0 <= i < Z.of_nat (List.length containers) ->
  exists c, index containers i = Some c
            /\ nth_error containers (Z.to_nat i) = Some c.
Proof.
  intro H. unfold index.
  destruct (Z.ltb_spec i 0) as [Hneg | _]; [lia |].
  destruct (nth_error containers (Z.to_nat i)) as [c |] eqn:E; [eauto |].
  apply nth_error_None in E. lia.
Qed.

(** The row loop started inside the table: it returns the rows of the
    snapshots from [i] on, and marks the selected one when it is among
    them. *)
Lemma viewRows_loop_rows (containers : list ContainerStats) (selected : Z)
  (count : nat) (i : Z) :
  0 <= i ->
  i + Z.of_nat count <= Z.of_nat (List.length containers) ->
  Z.of_nat (List.length containers) <= 2 ^ 60 ->
  exists rows,
    viewRows_loop containers selected i count = Returned rows
    /\ map fst rows = firstn count (skipn (Z.to_nat i) containers)
    /\ (i <= selected < i + Z.of_nat count ->
        exists c, index containers selected = Some c /\ In (c, true) rows).
Proof.
  revert i. induction count as [| count IH]; intros i H0 Hend Hlen.
  - exists []. split; [reflexivity |]. split; [reflexivity | lia].
  - destruct (index_in_range containers i ltac:(lia)) as (c & Hc & Hnth).
    cbn [viewRows_loop]. rewrite Hc, (wrap_int_small (i + 1)) by lia.
    destruct (IH (i + 1) ltac:(lia) ltac:(lia) Hlen) as (rows & -> & Hfst & Hsel).
    eexists. split; [reflexivity |]. split.
    + cbn [map fst]. rewrite (skipn_nth_error _ _ _ Hnth). cbn [firstn].
      f_equal. rewrite Hfst. f_equal. f_equal. lia.
    + intro Hin. destruct (Z.eqb_spec i selected) as [<- | Hne].
      * exists c. split; [exact Hc | now left].
      * destruct (Hsel ltac:(lia)) as (c' & Hc' & Hin').
        exists c'. split; [exact Hc' | now right].
Qed.

Lemma viewEndIdx_range (m : main.statsModel) :
  boundedModel m -> 0 <= main.scroll m ->
  main.scroll m + Z.of_nat (Z.to_nat (viewEndIdx m - main.scroll m)) <= main.len m
  \/ Z.to_nat (viewEndIdx m - main.scroll m) = 0%nat.
Proof.
  intros (Hh & Hl & Hs & Hsel) H0. unfold viewEndIdx, viewVisibleRows.
  arith; lia.
Qed.

(** X15. [Update] never makes the scroll offset negative. [View]
    returns the empty string while quitting and "Loading..." as long as
    the width is zero, whatever the rest of the model holds; past these
    two returns its row loop indexes the table in range exactly when the
    offset is not negative: it then renders the snapshots from the offset
    up to the end index, and with a negative offset it panics. *)
Theorem view_rows_in_range (m : main.statsModel) :
  boundedModel m ->
  (forall msg, 0 <= main.scroll m -> 0 <= main.scroll (fst (main.Update m msg)))
  /\ (main.quitting m = true -> View m = Returned (Text ""))
  /\ (main.quitting m = false -> main.width m = 0 ->
      View m = Returned (Text "Loading..."))
  /\ (main.quitting m = false -> main.width m <> 0 -> 0 <= main.scroll m ->
      exists rows,
        View m = Returned (Table rows)
        /\ map fst rows =
           firstn (Z.to_nat (viewEndIdx m - main.scroll m))
                  (skipn (Z.to_nat (main.scroll m)) (main.containers m)))
  /\ (main.quitting m = false -> main.width m <> 0 -> main.scroll m < 0 ->
      View m = Panicked).
Proof.
  intro Hb. split; [| split; [| split; [| split]]].
  - intros msg H0. destruct msg as [W H | key | | cs' info' e' |]; try exact H0.
    + now apply scroll_stays.
    + destruct m as [cs info sf sa sh w h sc sel e q]. open_update.
      repeat match goal with
             | |- context [if ?b then _ else _] => destruct b eqn:?
             end;
        repeat match goal with
               | E : (_ <? _) = _ |- _ =>
                   first [apply Z.ltb_lt in E | apply Z.ltb_ge in E]
               end; lia.
  - intro Hq. unfold View. now rewrite Hq.
  - intros Hq Hw. unfold View. now rewrite Hq, Hw.
  - intros Hq Hw H0. unfold View. rewrite Hq.
    rewrite (proj2 (Z.eqb_neq _ _) Hw).
    destruct (viewEndIdx_range m Hb H0) as [Hend | Hzero].
    + destruct Hb as (Hh & Hl & Hs & Hsel).
      destruct (viewRows_loop_rows (main.containers m) (main.selected m)
                  (Z.to_nat (viewEndIdx m - main.scroll m)) (main.scroll m)
                  H0 Hend Hl) as (rows & -> & Hfst & _).
      exists rows. split; [reflexivity | exact Hfst].
    + rewrite Hzero. exists []. split; reflexivity.
  - intros Hq Hw Hneg. destruct Hb as (Hh & Hl & Hs & Hsel).
    unfold View. rewrite Hq, (proj2 (Z.eqb_neq _ _) Hw).
    assert (Hcount : exists k, Z.to_nat (viewEndIdx m - main.scroll m) = S k).
    { assert (0 < viewEndIdx m - main.scroll m).
      { unfold viewEndIdx, viewVisibleRows, main.len in *. arith; lia. }
      exists (Nat.pred (Z.to_nat (viewEndIdx m - main.scroll m))). lia. }
    destruct Hcount as [k ->]. cbn [viewRows_loop]. unfold index.
    destruct (Z.ltb_spec (main.scroll m) 0); [reflexivity | lia].
Qed.

Lemma view_rows_in_range_witness :
  exists rows,
    View sampleModel = Returned (Table rows)
    /\ map (fun r => Name (fst r)) rows = ["alpha"; "beta"].
Proof.
  destruct (proj1 (proj2 (proj2 (proj2
              (view_rows_in_range sampleModel sampleModel_bounded)))))
    as (rows & Hrows & Hfst).
  - reflexivity.
  - discriminate.
  - vm_compute. discriminate.
  - exists rows. split; [exact Hrows |].
    rewrite <- (map_map fst Name), Hfst. vm_compute. reflexivity.
Defined.

(** X16. Once a window size arrived and while the session is not
    quitting, [View] renders the selected row and marks it as selected
    whenever selection and scroll offset are consistent with the window
    of the navigation keys; before the first window size and while
    quitting [View] renders no row at all. *)
Theorem selected_row_is_rendered (m : main.statsModel) :
  boundedModel m ->
  inWindow m (main.len m) (main.height m - 10) ->
  (main.quitting m = false -> main.width m <> 0 ->
   exists rows c,
     View m = Returned (Table rows)
     /\ index (main.containers m) (main.selected m) = Some c
     /\ In (c, true) rows)
  /\ (main.quitting m = true \/ main.width m = 0 ->
      exists s, View m = Returned (Text s)).
Proof.
  intros Hb (H0 & Hle & Hlt & Hwin). split.
  - intros Hq Hw.
    pose proof Hb as (Hh & Hl & Hs & Hsel). unfold View.
    rewrite Hq, (proj2 (Z.eqb_neq _ _) Hw).
    assert (Hend : main.selected m < viewEndIdx m <= main.len m).
    { unfold viewEndIdx, viewVisibleRows, main.len in *. arith; lia. }
    destruct (viewRows_loop_rows (main.containers m) (main.selected m)
                (Z.to_nat (viewEndIdx m - main.scroll m)) (main.scroll m)
                H0 ltac:(unfold main.len in *; lia) Hl)
      as (rows & -> & _ & Hmark).
    destruct (Hmark ltac:(lia)) as (c & Hc & Hin).
    exists rows, c. repeat split; assumption.
  - unfold View. intros [Hq | Hw].
    + rewrite Hq. eexists; reflexivity.
    + rewrite Hw. destruct (main.quitting m); eexists; reflexivity.
Qed.

Lemma selected_row_is_rendered_witness :
  exists rows c,
    View sampleModel = Returned (Table rows)
    /\ Name c = "beta" /\ In (c, true) rows.
Proof.
  destruct (proj1 (selected_row_is_rendered sampleModel sampleModel_bounded
                     ltac:(unfold inWindow; vm_compute; intuition discriminate)))
    as (rows & c & Hrows & Hc & Hin).
  - reflexivity.
  - discriminate.
  - exists rows, c. repeat split; try assumption.
    vm_compute in Hc. injection Hc as <-. reflexivity.
Defined.

(** ** The session: sort keys and the table *)



(** ** The daemon summary *)

Lemma wrap_int_add_l (a b : Z) : wrap_int (wrap_int a + b) = wrap_int (a + b).
Proof.
  unfold wrap_int. f_equal.
  replace ((a + 2 ^ 63) mod 2 ^ 64 - 2 ^ 63 + b + 2 ^ 63)
    with ((a + 2 ^ 63) mod 2 ^ 64 + b) by lia.
  rewrite Z.add_mod_idemp_l by lia. f_equal. lia.
Qed.

Lemma totalImageSize_sum (images : list image.Summary) (acc : Z) :
  fold_left (fun a img => wrap_int (a + image.SummarySize img)) images (wrap_int acc)
  = wrap_int (acc + sumZ (map image.SummarySize images)).
Proof.
  revert acc. induction images as [| img images IH]; intro acc; simpl.
  - now rewrite Z.add_0_r.
  - rewrite wrap_int_add_l, IH. f_equal. lia.
Qed.

(** X18. [GetDockerInfo] returns a summary exactly when both the info
    call and the image list succeed; a failed info call is reported
    without regard to the image list. The summary counts the listed
    images and totals their sizes in [int64], in any order of the list. *)
Theorem GetDockerInfo_spec (c : client.Client) :
  match client.Info c, client.ImageList c with
  | Err e, _ => GetDockerInfo c = (None, Some ("failed to get Docker info: " ++ e))
  | Ok _, Err e => GetDockerInfo c = (None, Some ("failed to list images: " ++ e))
  | Ok i, Ok images =>
      exists info,
        GetDockerInfo c = (Some info, None)
        /\ ImagesTotal info = Z.of_nat (List.length images)
        /\ TotalImageSize info = wrap_int (sumZ (map image.SummarySize images))
        /\ (forall images',
               Permutation images images' ->
               TotalImageSize info
               = wrap_int (sumZ (map image.SummarySize images')))
        /\ ContainersTotal info = system.Containers i
        /\ ContainersRunning info = system.ContainersRunning i
        /\ ContainersPaused info = system.ContainersPaused i
        /\ ContainersStopped info = system.ContainersStopped i
  end.
Proof.
  unfold GetDockerInfo.
  destruct (client.Info c) as [i | e]; [| reflexivity].
  destruct (client.ImageList c) as [images | e]; [| reflexivity].
  eexists. split; [reflexivity |].
  cbn [ImagesTotal TotalImageSize ContainersTotal ContainersRunning
       ContainersPaused ContainersStopped].
  assert (Hsum : fold_left (fun acc img => wrap_int (acc + image.SummarySize img))
                           images 0
                 = wrap_int (sumZ (map image.SummarySize images))).
  { change 0 with (wrap_int 0) at 1. now rewrite totalImageSize_sum. }
  repeat split; try reflexivity; try exact Hsum.
  intros images' Hperm. rewrite Hsum.
  now rewrite (sumZ_Permutation _ _ (Permutation_map image.SummarySize Hperm)).
Qed.

(** X19. A failed daemon summary is not fatal to a cycle: the tview
    application keeps the summary it shows and still replaces its table
    by the sorted new snapshots, the bubbletea model drops the summary
    and takes the new snapshots without an error. *)
Theorem summary_failure_not_fatal (c : client.Client) (order : list nat)
  (e : error) (cs : list ContainerStats) :
  GetDockerInfo c = (None, Some e) ->
  (forall a : ui.App,
      GetContainerStats c (ui.showAll a) order = Returned (cs, None) ->
      exists a',
        ui.refresh c order a = Returned a'
        /\ ui.infoBar a' = ui.infoBar a
        /\ ui.statusBar a' = ui.statusBar a
        /\ ui.containers a' = SortContainers cs (ui.sortField a) (ui.sortAsc a))
  /\ (forall m : main.statsModel,
         GetContainerStats c (main.showAll m) order = Returned (cs, None) ->
         exists m',
           main.cycle c order m = Returned m'
           /\ main.info m' = None /\ main.err m' = None
           /\ main.containers m'
              = SortContainers cs (main.sortField m) (main.sortAsc m)).
Proof.
  intro Hinfo. split.
  - intros a Hget. unfold ui.refresh. rewrite Hinfo, Hget.
    eexists. split; [reflexivity |]. cbn. repeat split; reflexivity.
  - intros m Hget. unfold main.cycle, main.fetchContainers.
    rewrite Hinfo, Hget. eexists. split; [reflexivity |].
    cbn. repeat split; reflexivity.
Qed.

Lemma summary_failure_not_fatal_witness :
  exists a',
    ui.refresh (sampleClientNoInfo [sampleContainer]) [0%nat] sampleApp = Returned a'
    /\ ui.infoBar a' = None
    /\ map Name (ui.containers a') = ["web"].
Proof.
  set (c := sampleClientNoInfo [sampleContainer]).
  assert (Hget : exists cs, GetContainerStats c false [0%nat] = Returned (cs, None))
    by (eexists; vm_compute; reflexivity).
  destruct Hget as [cs Hget].
  destruct (proj1 (summary_failure_not_fatal c [0%nat]
                     "failed to get Docker info: connection refused" cs eq_refl)
              sampleApp Hget) as (a' & Hr & Hi & _ & Hc).
  exists a'. split; [exact Hr |]. split; [exact Hi |].
  rewrite Hc. vm_compute in Hget. injection Hget as <-. vm_compute. reflexivity.
Defined.

Lemma GetDockerInfo_spec_witness :
  exists info,
    GetDockerInfo (sampleClient []) = (Some info, None)
    /\ ImagesTotal info = 1 /\ TotalImageSize info = 187000000.
Proof.
  pose proof (GetDockerInfo_spec (sampleClient [])) as H.
  cbn [sampleClient client.Info client.ImageList sampleInfo] in H.
  destruct H as (info & Hget & Hn & Hsize & _).
  exists info. repeat split; assumption.
Defined.

(** ** Formatting: no panic, the unit by magnitude *)

(** X20. The formatting helpers return on every value of their argument
    types: the index into "KMGTPE" is always in range, and a negative
    [int64] is printed as "0B". *)
Theorem formatters_return :
  (forall bytes, in_uint64 bytes = true -> exists s, FormatBytes bytes = Returned s)
  /\ (forall bytes, in_int64 bytes = true ->
        exists s, FormatBytesInt64 bytes = Returned s)
  /\ (forall bytes, bytes < 0 -> FormatBytesInt64 bytes = Returned "0B")
  /\ (forall a b, in_uint64 a = true -> in_uint64 b = true ->
        exists s,
          FormatNetIO a b = Returned s /\ FormatBlockIO a b = Returned s
          /\ FormatMemUsage a b = Returned s).
Proof.
  split; [exact FormatBytes_returns |]. split; [| split].
  - intros bytes H. unfold FormatBytesInt64.
    destruct (bytes <? 0); [eauto |].
    apply FormatBytes_returns. unfold in_uint64.
    pose proof (wrap64_range bytes).
    apply andb_true_iff. rewrite Z.leb_le, Z.ltb_lt. lia.
  - intros bytes H. unfold FormatBytesInt64.
    apply Z.ltb_lt in H. now rewrite H.
  - intros a b Ha Hb. unfold FormatNetIO, FormatBlockIO, FormatMemUsage.
    destruct (FormatBytes_returns a Ha) as [sa ->].
    destruct (FormatBytes_returns b Hb) as [sb ->]. eauto.
Qed.

Lemma formatters_return_witness :
  (exists s, FormatBytes (2 ^ 64 - 1) = Returned s)
  /\ FormatBytesInt64 (- 100) = Returned "0B".
Proof.
  split.
  - apply (proj1 formatters_return). reflexivity.
  - apply (proj1 (proj2 (proj2 formatters_return))). lia.
Defined.

(** The loop of [FormatBytes] on a quotient between [unit ^ j] and
    [unit ^ (j + 1)]: [j] turns. *)
Lemma FormatBytes_loop_steps (j : nat) (fuel : nat) (n div exp : Z) :
  (j < fuel)%nat ->
  unit ^ Z.of_nat j <= n < unit ^ (Z.of_nat j + 1) ->
  0 <= div -> div * unit ^ Z.of_nat j < 2 ^ 64 ->
  - 2 ^ 63 <= exp -> exp + Z.of_nat j < 2 ^ 63 ->
  FormatBytes_loop fuel n div exp = (div * unit ^ Z.of_nat j, exp + Z.of_nat j).
Proof.
  revert fuel n div exp.
  induction j as [| j IH]; intros fuel n div exp Hf Hn Hd Hb He1 He2;
    destruct fuel as [| fuel]; try lia; cbn [FormatBytes_loop].
  - change (unit ^ Z.of_nat 0) with 1 in *. change (unit ^ (Z.of_nat 0 + 1)) with unit in Hn.
    destruct (Z.leb_spec unit n); [lia |]. f_equal; lia.
  - rewrite Nat2Z.inj_succ in *.
    rewrite Z.pow_succ_r in Hn, Hb by lia.
    replace (Z.succ (Z.of_nat j) + 1) with (Z.succ (Z.of_nat j + 1)) in Hn by lia.
    rewrite Z.pow_succ_r in Hn by lia.
    assert (Hu : 0 < unit ^ Z.of_nat j) by (apply Z.pow_pos_nonneg; unfold unit; lia).
    destruct (Z.leb_spec unit n) as [_ | Hlt]; [| unfold unit in *; nia].
    assert (Hw : wrap64 (div * unit) = div * unit).
    { unfold wrap64. apply Z.mod_small. unfold unit in *. nia. }
    rewrite Hw, (wrap_int_small (exp + 1)) by lia.
    assert (Hq : unit ^ Z.of_nat j <= n / unit < unit ^ (Z.of_nat j + 1)).
    { unfold unit in *. split.
      - apply Z.div_le_lower_bound; lia.
      - apply Z.div_lt_upper_bound; lia. }
    assert (Hd' : 0 <= div * unit) by (unfold unit; lia).
    assert (Hb' : div * unit * unit ^ Z.of_nat j < 2 ^ 64) by (unfold unit in *; nia).
    rewrite (IH fuel (n / unit) (div * unit) (exp + 1)
               ltac:(lia) Hq Hd' Hb' ltac:(lia) ltac:(lia)).
    rewrite Z.pow_succ_r by lia. f_equal; [ring | lia].
Qed.

(** X21. [FormatBytes] chooses the unit by magnitude: below 1024 it
    prints the number of bytes with "B"; between [1024 ^ k] and
    [1024 ^ (k + 1)] it prints the bytes divided by [1024 ^ k], with one
    digit after the point, and the [k]-th of the prefixes K, M, G, T, P,
    E with "iB". *)
Theorem FormatBytes_unit (bytes : Z) :
  (0 <= bytes < 1024 -> FormatBytes bytes = Returned (fmt.d bytes ++ "B"))
  /\ (forall (k : nat) (prefix : ascii),
         1024 ^ Z.of_nat (S k) <= bytes < 1024 ^ Z.of_nat (S (S k)) ->
         bytes < 2 ^ 64 ->
         String.get k "KMGTPE" = Some prefix ->
         FormatBytes bytes =
         Returned (fmt.f1 (Float64.div (Float64.of_Z bytes)
                                       (Float64.of_Z (1024 ^ Z.of_nat (S k))))
                   ++ String prefix "iB")).
Proof.
  split.
  - intros [H0 H1]. unfold FormatBytes, unit.
    apply Z.ltb_lt in H1. now rewrite H1.
  - intros k prefix Hrange Hmax Hget.
    assert (Hk : (k < 6)%nat).
    { destruct k as [| [| [| [| [| [| k]]]]]]; try lia. discriminate Hget. }
    rewrite !Nat2Z.inj_succ in Hrange. rewrite !Z.pow_succ_r in Hrange by lia.
    assert (Hpos : 0 < 1024 ^ Z.of_nat k) by (apply Z.pow_pos_nonneg; lia).
    unfold FormatBytes.
    destruct (Z.ltb_spec bytes unit) as [Hlt | _]; [unfold unit in Hlt; lia |].
    assert (Hq : unit ^ Z.of_nat k <= bytes / unit < unit ^ (Z.of_nat k + 1)).
    { unfold unit. split.
      - apply Z.div_le_lower_bound; lia.
      - apply Z.div_lt_upper_bound; [lia |].
        replace (Z.of_nat k + 1) with (Z.succ (Z.of_nat k)) by lia.
        rewrite Z.pow_succ_r by lia. lia. }
    assert (Hb : unit * unit ^ Z.of_nat k < 2 ^ 64) by (unfold unit; lia).
    rewrite (FormatBytes_loop_steps k 6 (bytes / unit) unit 0
               Hk Hq ltac:(unfold unit; lia) Hb ltac:(lia) ltac:(lia)).
    cbn [Z.add]. rewrite Nat2Z.id, Hget.
    rewrite Nat2Z.inj_succ, Z.pow_succ_r by lia. reflexivity.
Qed.

Lemma FormatBytes_unit_witness :
  FormatBytes 1572864 = Returned "1.5MiB".
Proof.
  rewrite (proj2 (FormatBytes_unit 1572864) 1%nat "M"%char);
    [vm_compute; reflexivity | vm_compute; split; [discriminate | reflexivity]
    | reflexivity | reflexivity].
Defined.

(** ** The helpers of the view *)

Lemma string_length_append (a b : string) :
  String.length (a ++ b) = (String.length a + String.length b)%nat.
Proof. induction a as [| c a IH]; simpl; [reflexivity | now rewrite IH]. Qed.

Lemma substring_prefix_length (s : string) (n : nat) :
  (n <= String.length s)%nat -> String.length (substring 0 n s) = n.
Proof.
  revert s. induction n as [| n IH]; intros s H.
  - destruct s; reflexivity.
  - destruct s as [| a s]; simpl in H; [lia |].
    simpl. f_equal. apply IH. lia.
Qed.

(** X22. [truncate] returns a string that fits unchanged; a longer
    string is cut to its first [max - 1] bytes followed by the ellipsis,
    which makes [max + 2] bytes; and with [max] at most 0 the slice
    expression panics on every string longer than [max]. *)
Theorem truncate_spec (s : string) (max : Z) :
  Z.of_nat (String.length s) <= 2 ^ 60 -> - 2 ^ 63 <= max ->
  (Z.of_nat (String.length s) <= max -> truncate s max = Returned s)
  /\ (1 <= max < Z.of_nat (String.length s) ->
      truncate s max = Returned (substring 0 (Z.to_nat (max - 1)) s ++ ellipsis)
      /\ String.length (substring 0 (Z.to_nat (max - 1)) s ++ ellipsis)
         = (Z.to_nat max + 2)%nat)
  /\ (max <= 0 -> max < Z.of_nat (String.length s) -> truncate s max = Panicked).
Proof.
  intros Hlen Hmin. unfold truncate. repeat split.
  - intro H. destruct (Z.ltb_spec max (Z.of_nat (String.length s))); [lia | reflexivity].
  - destruct H as [H1 H2].
    destruct (Z.ltb_spec max (Z.of_nat (String.length s))); [| lia].
    rewrite (wrap_int_small (max - 1)) by lia.
    destruct (Z.ltb_spec (max - 1) 0); [lia |].
    rewrite slice_to_some by lia. reflexivity.
  - destruct H as [H1 H2].
    rewrite string_length_append, substring_prefix_length by lia.
    change (String.length ellipsis) with 3%nat. lia.
  - intros H0 H1.
    destruct (Z.ltb_spec max (Z.of_nat (String.length s))); [| lia].
    destruct (Z.eq_dec max (- 2 ^ 63)) as [-> | Hne].
    + change (wrap_int (- 2 ^ 63 - 1)) with (2 ^ 63 - 1).
      destruct (Z.ltb_spec (2 ^ 63 - 1) 0); [reflexivity |].
      rewrite slice_to_none; [reflexivity | lia].
    + rewrite (wrap_int_small (max - 1)) by lia.
      destruct (Z.ltb_spec (max - 1) 0); [reflexivity | lia].
Qed.

(** The two ways [truncate] returns when [max] is positive. *)
Lemma truncate_cases (s : string) (max : Z) :
  Z.of_nat (String.length s) <= 2 ^ 60 -> 1 <= max <= 2 ^ 60 ->
  (Z.of_nat (String.length s) <= max /\ truncate s max = Returned s)
  \/ (max < Z.of_nat (String.length s)
      /\ truncate s max = Returned (substring 0 (Z.to_nat (max - 1)) s ++ ellipsis)
      /\ String.length (substring 0 (Z.to_nat (max - 1)) s ++ ellipsis)
         = (Z.to_nat max + 2)%nat).
Proof.
  intros Hlen Hmax. unfold truncate.
  destruct (Z.ltb_spec max (Z.of_nat (String.length s))) as [Hlt | Hge].
  - right. split; [exact Hlt |].
    rewrite (wrap_int_small (max - 1)) by lia.
    destruct (Z.ltb_spec (max - 1) 0); [lia |].
    rewrite slice_to_some by lia. split; [reflexivity |].
    rewrite string_length_append, substring_prefix_length by lia.
    change (String.length ellipsis) with 3%nat. lia.
  - left. split; [exact Hge | reflexivity].
Qed.

Lemma truncate_spec_witness :
  truncate "1.0GiB / 2.0GiB" 8 = Returned ("1.0GiB " ++ ellipsis)
  /\ truncate "web" 0 = Panicked.
Proof.
  split.
  - apply (proj1 (proj2 (truncate_spec "1.0GiB / 2.0GiB" 8
                           ltac:(simpl; lia) ltac:(lia)))).
    simpl. lia.
  - apply (proj2 (proj2 (truncate_spec "web" 0 ltac:(simpl; lia) ltac:(lia))));
      simpl; lia.
Defined.

Lemma repeatStr_loop_length (count : nat) (s result : string) :
  String.length (repeatStr_loop count s result)
  = (String.length result + count * String.length s)%nat.
Proof.
  revert result. induction count as [| count IH]; intro result; simpl.
  - lia.
  - rewrite IH, string_length_append. lia.
Qed.

Lemma string_append_assoc (a b c : string) : ((a ++ b) ++ c = a ++ (b ++ c))%string.
Proof. induction a as [| x a IH]; simpl; [reflexivity | now rewrite IH]. Qed.

(** The loop appends the copies to what it was given. *)
Lemma repeatStr_loop_copies (count : nat) (s result : string) :
  repeatStr_loop count s result = (result ++ copies count s)%string.
Proof.
  revert result. induction count as [| count IH]; intro result; simpl.
  - clear. induction result as [| x result IH]; simpl; [reflexivity | now rewrite <- IH].
  - now rewrite IH, string_append_assoc.
Qed.

(** X23. [repeatStr] gives [n] copies of the string one after the other,
    in bytes [n] times its length, and the empty string for every [n]
    that is not positive. *)
Theorem repeatStr_length (s : string) (n : Z) :
  repeatStr s n = copies (Z.to_nat n) s
  /\ String.length (repeatStr s n) = (Z.to_nat n * String.length s)%nat
  /\ (n <= 0 -> repeatStr s n = "").
Proof.
  unfold repeatStr. destruct (Z.leb_spec n 0) as [H | H].
  - replace (Z.to_nat n) with 0%nat by lia. repeat split; reflexivity.
  - split; [apply repeatStr_loop_copies |].
    split; [| lia]. now rewrite repeatStr_loop_length.
Qed.

Lemma maxNameLen_bounds (containers : list ContainerStats) (init : Z) :
  let longest :=
    fold_left (fun acc c =>
                 let nameLen := Z.of_nat (String.length (Name c)) in
                 if acc <? nameLen then nameLen else acc)
              containers init in
  init <= longest
  /\ forall c, In c containers -> Z.of_nat (String.length (Name c)) <= longest.
Proof.
  cbv zeta. revert init.
  induction containers as [| c0 rest IH]; intro init; cbn [fold_left].
  - split; [lia | contradiction].
  - destruct (IH (if init <? Z.of_nat (String.length (Name c0))
                  then Z.of_nat (String.length (Name c0)) else init))
      as [Hinit Hall].
    split.
    + destruct (Z.ltb_spec init (Z.of_nat (String.length (Name c0)))); lia.
    + intros c [<- | Hin]; [| now apply Hall].
      destruct (Z.ltb_spec init (Z.of_nat (String.length (Name c0)))); lia.
Qed.

(** X24. The name column of [View] is between 9 and 30 wide whatever the
    terminal width and the names, so that cutting a name to the column
    never panics and leaves at most 32 bytes; and a name of a listed
    container that fits both the room the terminal leaves and 30 is
    printed in full. *)
Theorem name_column (m : main.statsModel) :
  9 <= colName m <= 30
  /\ (forall c, Z.of_nat (String.length (Name c)) <= 2 ^ 60 ->
        exists s, rowName m c = Returned s /\ (String.length s <= 32)%nat)
  /\ (forall c, In c (main.containers m) ->
        Z.of_nat (String.length (Name c)) <= wrap_int (main.width m - 105) ->
        Z.of_nat (String.length (Name c)) <= 30 ->
        rowName m c = Returned (Name c)).
Proof.
  assert (Hcol : 9 <= colName m <= 30).
  { unfold colName. set (longest := fold_left _ _ _).
    repeat match goal with
           | |- context [if ?b then _ else _] =>
               lazymatch b with
               | context [if _ then _ else _] => fail
               | Z.ltb ?x ?y => destruct (Z.ltb_spec x y)
               end
           end; lia. }
  split; [exact Hcol |]. split.
  - intros c Hlen. unfold rowName.
    destruct (truncate_cases (Name c) (colName m) Hlen ltac:(lia))
      as [(Hfit & ->) | (Hcut & -> & Hl)].
    + eexists. split; [reflexivity | lia].
    + eexists. split; [reflexivity |]. rewrite Hl. lia.
  - intros c Hin Hroom H30. unfold rowName.
    assert (Hfit : Z.of_nat (String.length (Name c)) <= colName m).
    { destruct (maxNameLen_bounds (main.containers m) 9) as [H9 Hall].
      specialize (Hall c Hin). cbv zeta in H9, Hall. unfold colName.
      set (longest := fold_left _ _ _) in *.
      repeat match goal with
             | |- context [if ?b then _ else _] =>
                 lazymatch b with
                 | context [if _ then _ else _] => fail
                 | Z.ltb ?x ?y => destruct (Z.ltb_spec x y)
                 end
             end; lia. }
    unfold truncate.
    destruct (Z.ltb_spec (colName m) (Z.of_nat (String.length (Name c))));
      [lia | reflexivity].
Qed.

Lemma name_column_witness :
  rowName sampleModel (snapshot "alpha" 50 30) = Returned "alpha".
Proof.
  apply (proj2 (proj2 (name_column sampleModel))).
  - right. left. reflexivity.
  - vm_compute. discriminate.
  - vm_compute. discriminate.
Defined.

Lemma repeatStr_length_witness :
  repeatStr "-" (- 3) = "" /\ repeatStr "ab" 3 = "ababab".
Proof.
  split.
  - apply (proj2 (proj2 (repeatStr_length "-" (- 3)))). lia.
  - rewrite (proj1 (repeatStr_length "ab" 3)). reflexivity.
Defined.

(** ** The CPU limit: positive exactly when one is configured *)

(** Rounding a positive mantissa, with bounds on what it gives. *)
Lemma binary_round_aux_bounds (sx : bool) (m : positive) (e : Z) (l : location) :
  emin Float64.prec Float64.emax <= e ->
  Z.max e (Zpos (Pos.size m) + e - 53) + Zpos (Pos.size m) <= 900 ->
  exists m' e',
    binary_round_aux Float64.prec Float64.emax sx (Zpos m) e l
    = S754_finite sx m' e'
    /\ e <= e' <= Z.max e (Zpos (Pos.size m) + e - 53) + Zpos (Pos.size m)
    /\ Zpos m' <= Zpos m + 1.
Proof.
  intros He Hb. unfold binary_round_aux.
  destruct (shr_fexp_bounds m e l He) as (m1 & r1 & s1 & e1 & -> & He1 & Hm1).
  assert (Hr : exists m2,
             round_nearest_even
               (shr_m {| shr_m := Zpos m1; shr_r := r1; shr_s := s1 |})
               (loc_of_shr_record {| shr_m := Zpos m1; shr_r := r1; shr_s := s1 |})
             = Zpos m2 /\ Zpos m2 <= Zpos m1 + 1).
  { simpl. destruct r1, s1; simpl;
      try (eexists; split; [reflexivity | lia]).
    destruct m1; simpl; eexists; split; try reflexivity; lia. }
  destruct Hr as (m2 & -> & Hm2).
  destruct (shr_fexp_bounds m2 e1 loc_Exact ltac:(lia))
    as (m3 & r3 & s3 & e3 & -> & He3 & Hm3).
  assert (Hs2 : Zpos (Pos.size m2) <= Zpos (Pos.size m) + 1).
  { apply size_upper. pose proof (Pos.size_gt m) as Hgt.
    assert (Zpos m < 2 ^ Zpos (Pos.size m)).
    { change 2 with (Zpos 2). rewrite <- Pos2Z.inj_pow. now apply Pos2Z.pos_lt_pos. }
    rewrite Z.pow_add_r by lia. lia. }
  assert (E : (e3 <=? 971) = true) by (apply Z.leb_le; lia).
  exists m3, e3. split; [simpl; rewrite E; reflexivity | lia].
Qed.

(** The conversion of a positive integer below [2 ^ 64]: a finite float
    with a small exponent and a mantissa of at most 65 bits. *)
Lemma of_Z_bounds (n : Z) :
  0 < n < 2 ^ 64 ->
  exists m e,
    Float64.of_Z n = S754_finite false m e
    /\ - 52 <= e <= 200 /\ Zpos m <= 2 ^ 64.
Proof.
  intros [Hn Hb]. destruct n as [| p | p]; try lia.
  assert (Hs : Zpos (Pos.size p) <= 64) by now apply size_upper.
  unfold Float64.of_Z, binary_normalize, binary_round, shl_align.
  rewrite digits2_pos_size.
  assert (Hex : fexp Float64.prec Float64.emax (Zpos (Pos.size p) + 0)
                = Zpos (Pos.size p) - 53).
  { unfold fexp, emin, Float64.prec, Float64.emax. lia. }
  rewrite Hex.
  destruct (Zpos (Pos.size p) - 53 - 0) as [| d | d] eqn:Ed.
  - destruct (binary_round_aux_bounds false p 0 loc_Exact)
      as (m' & e' & -> & He & Hm);
      [unfold emin, Float64.prec, Float64.emax; lia | lia |].
    exists m', e'. repeat split; lia.
  - destruct (binary_round_aux_bounds false p 0 loc_Exact)
      as (m' & e' & -> & He & Hm);
      [unfold emin, Float64.prec, Float64.emax; lia | lia |].
    exists m', e'. repeat split; lia.
  - assert (Hsz : Pos.size (Pos.iter xO p d) = (Pos.size p + d)%positive)
      by apply size_iter_xO.
    destruct (binary_round_aux_bounds false (Pos.iter xO p d)
                (Zpos (Pos.size p) - 53) loc_Exact)
      as (m' & e' & -> & He & Hm);
      [unfold emin, Float64.prec, Float64.emax; lia | rewrite Hsz; lia |].
    rewrite Hsz in He.
    assert (Hmz : Zpos (Pos.iter xO p d) < 2 ^ 53).
    { pose proof (Pos.size_gt (Pos.iter xO p d)) as Hgt. rewrite Hsz in Hgt.
      assert (Zpos (Pos.iter xO p d) < 2 ^ Zpos (Pos.size p + d)).
      { change 2 with (Zpos 2). rewrite <- Pos2Z.inj_pow.
        now apply Pos2Z.pos_lt_pos. }
      replace (Zpos (Pos.size p + d)) with 53 in H by lia. exact H. }
    exists m', e'. repeat split; lia.
Qed.

(** Rounding a positive mantissa does not lower the exponent. *)
Lemma binary_round_aux_lower (sx : bool) (m : positive) (e : Z) (l : location) :
  emin Float64.prec Float64.emax <= e ->
  (exists m' e', binary_round_aux Float64.prec Float64.emax sx (Zpos m) e l
                 = S754_finite sx m' e' /\ e <= e')
  \/ binary_round_aux Float64.prec Float64.emax sx (Zpos m) e l = S754_infinity sx.
Proof.
  intro He. unfold binary_round_aux.
  destruct (shr_fexp_positive m e l He) as (m1 & r1 & s1 & e1 & -> & He1).
  assert (Hr : exists m2,
             round_nearest_even
               (shr_m {| shr_m := Zpos m1; shr_r := r1; shr_s := s1 |})
               (loc_of_shr_record {| shr_m := Zpos m1; shr_r := r1; shr_s := s1 |})
             = Zpos m2).
  { simpl. destruct r1, s1; simpl; try (eexists; reflexivity).
    destruct m1; simpl; eexists; reflexivity. }
  destruct Hr as [m2 ->].
  destruct (shr_fexp_positive m2 e1 loc_Exact ltac:(lia))
    as (m3 & r3 & s3 & e3 & -> & He3).
  simpl. destruct (e3 <=? 971); [left | right; reflexivity].
  exists m3, e3. split; [reflexivity | lia].
Qed.

Lemma positiveFrom_ltb (k : Z) (x : Float64.t) :
  positiveFrom k x -> Float64.ltb Float64.zero x = true.
Proof. intros [-> | (m & e & -> & _)]; reflexivity. Qed.

(** A product with a finite positive float stays positive as long as the
    exponents stay in range. *)
Lemma mul_positiveFrom (k k' : Z) (x : Float64.t) (my : positive) (ey : Z) :
  positiveFrom k x -> k' <= ey ->
  emin Float64.prec Float64.emax <= k + k' ->
  positiveFrom (k + k') (Float64.mul x (S754_finite false my ey)).
Proof.
  intros [-> | (m & e & -> & He)] Hy Hk; [left; reflexivity |].
  unfold Float64.mul, SFmul. cbn [xorb].
  destruct (binary_round_aux_lower false (m * my) (e + ey) loc_Exact)
    as [(m' & e' & Hr & He') | Hr]; [lia | |].
  - right. exists m', e'. split; [exact Hr | lia].
  - left. exact Hr.
Qed.

(** The quotient of two positive integers below [2 ^ 64], converted and
    divided, is positive and far from the smallest exponent. *)
Lemma div_of_Z_lower (a b : Z) :
  0 < a < 2 ^ 64 -> 0 < b < 2 ^ 64 ->
  positiveFrom (- 400) (Float64.div (Float64.of_Z a) (Float64.of_Z b)).
Proof.
  intros Ha Hb.
  destruct (of_Z_bounds a Ha) as (m1 & e1 & -> & He1 & Hm1).
  destruct (of_Z_bounds b Hb) as (m2 & e2 & -> & He2 & Hm2).
  unfold Float64.div, SFdiv, SFdiv_core_binary. cbn [xorb Zdigits2].
  rewrite (digits2_pos_size m1), (digits2_pos_size m2).
  pose proof (size_lower m1) as Hl1. pose proof (size_lower m2) as Hl2.
  assert (Hu1 : Zpos (Pos.size m1) <= 65) by (apply size_upper; lia).
  assert (Hu2 : Zpos (Pos.size m2) <= 65) by (apply size_upper; lia).
  assert (Hg2 : Zpos m2 < 2 ^ Zpos (Pos.size m2)).
  { pose proof (Pos.size_gt m2). change 2 with (Zpos 2).
    rewrite <- Pos2Z.inj_pow. now apply Pos2Z.pos_lt_pos. }
  set (d1 := Zpos (Pos.size m1)) in *. set (d2 := Zpos (Pos.size m2)) in *.
  assert (Hf : fexp Float64.prec Float64.emax (d1 + e1 - (d2 + e2))
               = d1 + e1 - (d2 + e2) - 53).
  { unfold fexp, emin, Float64.prec, Float64.emax. lia. }
  rewrite Hf.
  set (e' := Z.min (d1 + e1 - (d2 + e2) - 53) (e1 - e2)).
  assert (Hs : d2 - d1 + 53 <= e1 - e2 - e' /\ 0 <= e1 - e2 - e') by (subst e'; lia).
  set (m' := match e1 - e2 - e' with Z0 => _ | _ => _ end).
  assert (Hm' : Zpos m2 <= m').
  { subst m'. destruct (e1 - e2 - e') as [| s | s] eqn:Es; try lia.
    - assert (2 ^ d2 <= 2 ^ (d1 - 1)) by (apply Z.pow_le_mono_r; lia). lia.
    - rewrite Z.shiftl_mul_pow2 by lia.
      assert (H1 : 2 ^ (d2 - d1 + 53) <= 2 ^ Zpos s)
        by (destruct (Z.le_gt_cases 0 (d2 - d1 + 53));
            [apply Z.pow_le_mono_r; lia
            | rewrite Z.pow_neg_r by lia; apply Z.pow_nonneg; lia]).
      destruct (Z.le_gt_cases 0 (d2 - d1 + 53)) as [Hge | Hlt].
      + assert (H2 : 2 ^ (d1 - 1) * 2 ^ (d2 - d1 + 53) = 2 ^ (d2 + 52)).
        { rewrite <- Z.pow_add_r by lia. f_equal. lia. }
        assert (H3 : 2 ^ d2 <= 2 ^ (d2 + 52)) by (apply Z.pow_le_mono_r; lia).
        assert (0 < 2 ^ (d2 - d1 + 53)) by (apply Z.pow_pos_nonneg; lia).
        nia.
      + assert (2 ^ d2 <= 2 ^ (d1 - 1)) by (apply Z.pow_le_mono_r; lia).
        assert (1 <= 2 ^ Zpos s) by (apply (Z.pow_le_mono_r 2 0); lia).
        nia. }
  assert (Hq : 0 < fst (Z.div_eucl m' (Zpos m2))).
  { change (fst (Z.div_eucl m' (Zpos m2))) with (m' / Zpos m2).
    apply Z.div_str_pos. lia. }
  destruct (Z.div_eucl m' (Zpos m2)) as [q r]. cbn [fst] in Hq.
  destruct q as [| q | q]; try lia.
  destruct (binary_round_aux_lower false q e' (new_location (Zpos m2) r))
    as [(mm & ee & -> & Hee) | ->].
  - subst e'. unfold emin, Float64.prec, Float64.emax. lia.
  - right. exists mm, ee. split; [reflexivity | lia].
  - left. reflexivity.
Qed.

(** The quotient of two positive integers below [2 ^ 64], converted and
    divided, is greater than zero. *)
Lemma div_of_Z_positive (a b : Z) :
  0 < a < 2 ^ 64 -> 0 < b < 2 ^ 64 ->
  Float64.ltb Float64.zero (Float64.div (Float64.of_Z a) (Float64.of_Z b)) = true.
Proof.
  intros Ha Hb. apply (positiveFrom_ltb (- 400)). now apply div_of_Z_lower.
Qed.

Lemma cpuLimit_configured (h : container.HostConfig) :
  wf_HostConfig h = true ->
  Float64.ltb Float64.zero (cpuLimit Float64.zero h) = limitConfigured h.
Proof.
  unfold wf_HostConfig, limitConfigured. rewrite !andb_true_iff.
  intros [[Hn Hq] Hp].
  apply in_int64_range in Hn. apply in_int64_range in Hq.
  apply in_int64_range in Hp. unfold cpuLimit.
  destruct (Z.ltb_spec 0 (container.NanoCPUs h)) as [Hn0 | Hn0]; cbn [orb].
  - apply div_of_Z_positive; lia.
  - destruct (Z.ltb_spec 0 (container.CPUQuota h)) as [Hq0 | Hq0]; [| reflexivity].
    destruct (Z.ltb_spec 0 (container.CPUPeriod h)) as [Hp0 | Hp0]; [| reflexivity].
    cbn [andb]. apply div_of_Z_positive; lia.
Qed.

(** X25. The CPU limit of a snapshot is greater than zero exactly when
    the container inspect succeeded with a configured limit (a positive
    NanoCPUs, or a positive quota with a positive period); [View] then
    prints it with one digit after the point, and prints the infinity
    sign in every other case. *)
Theorem cpu_limit_shown (c : client.Client) (cont : container.Summary)
  (stats : ContainerStats) (e : option error) :
  wf_answers c cont ->
  getContainerStats c cont = Returned (stats, e) ->
  let configured :=
    match client.ContainerInspect c (container.ID cont) with
    | Ok containerInfo =>
        match container.HostConfigPtr containerInfo with
        | Some h => limitConfigured h
        | None => false
        end
    | Err _ => false
    end in
  Float64.ltb Float64.zero (CPULimit stats) = configured
  /\ cpuLim stats = (if configured then fmt.f1 (CPULimit stats) else infinitySign).
Proof.
  intros [_ Hhost] Hget configured.
  assert (Hlim : Float64.ltb Float64.zero (CPULimit stats) = configured).
  { apply getContainerStats_inv in Hget.
    destruct Hget as (_ & partial & Hp & Hlive).
    pose proof (liveStats_identity c cont partial) as Hid.
    cbv zeta in Hid. rewrite <- Hlive in Hid. cbn [fst] in Hid.
    destruct Hid as (_ & _ & _ & _ & _ & Hl & _).
    rewrite Hl, (partialStats_CPULimit c cont _ partial Hp). subst configured.
    unfold inspectedHostConfig in *.
    destruct (client.ContainerInspect c (container.ID cont)) as [[[h |]] | err];
      try reflexivity.
    apply cpuLimit_configured. now apply Hhost. }
  split; [exact Hlim |]. unfold cpuLim. now rewrite Hlim.
Qed.

Lemma cpu_limit_shown_witness :
  exists stats,
    getContainerStats (sampleClient [sampleContainer]) sampleContainer
    = Returned (stats, None)
    /\ cpuLim stats = "1.5".
Proof.
  assert (Hget : exists stats,
             getContainerStats (sampleClient [sampleContainer]) sampleContainer
             = Returned (stats, None)) by (eexists; vm_compute; reflexivity).
  destruct Hget as [stats Hget]. exists stats. split; [exact Hget |].
  destruct (cpu_limit_shown (sampleClient [sampleContainer]) sampleContainer
              stats None) as [_ Htext]; [| exact Hget |].
  - split.
    + intros sj H. cbn in H. injection H as <-. vm_compute. split; reflexivity.
    + intros h H. cbn in H. injection H as <-. reflexivity.
  - rewrite Htext. vm_compute in Hget. injection Hget as <-.
    vm_compute. reflexivity.
Defined.

(** ** Bars and colours *)

Lemma makeBar_loop_cells (n : nat) (i filled : Z) (style : Style)
  (bar : list Cell) :
  let k := Nat.min n (Z.to_nat (filled - i)) in
  makeBar_loop n i filled style bar
  = (bar ++ repeat (style, fullBlock) k
         ++ repeat (dimStyle, lightShade) (n - k))%list.
Proof.
  revert i bar. induction n as [| n IH]; intros i bar; cbn [makeBar_loop].
  - cbn. now rewrite app_nil_r.
  - cbv zeta in *. rewrite IH, <- app_assoc. f_equal.
    destruct (Z.ltb_spec i filled) as [Hlt | Hge].
    + replace (Nat.min (S n) (Z.to_nat (filled - i)))
        with (S (Nat.min n (Z.to_nat (filled - (i + 1))))) by lia.
      reflexivity.
    + replace (Nat.min (S n) (Z.to_nat (filled - i))) with 0%nat by lia.
      replace (Nat.min n (Z.to_nat (filled - (i + 1)))) with 0%nat by lia.
      cbn [repeat app]. now rewrite Nat.sub_0_r.
Qed.

(** X26. A bar has exactly [width] cells whatever the percentage is, a
    NaN, an infinity and a value that does not fit an [int] included:
    some filled cells in the style of the percentage come first, the
    dimmed cells after them; the bar of a percentage of zero has no
    filled cell. *)
Theorem makeBar_cells (indef : Float64.t -> Z) (percent : Float64.t)
  (width : Z) :
  (exists k : nat,
      (k <= Z.to_nat width)%nat
      /\ makeBar indef percent width
         = (repeat (barStyle percent, fullBlock) k
            ++ repeat (dimStyle, lightShade) (Z.to_nat width - k))%list)
  /\ List.length (makeBar indef percent width) = Z.to_nat width
  /\ (in_int64 width = true ->
      makeBar indef Float64.zero width
      = repeat (dimStyle, lightShade) (Z.to_nat width)).
Proof.
  assert (Hshape : forall p, exists k : nat,
             (k <= Z.to_nat width)%nat
             /\ makeBar indef p width
                = (repeat (barStyle p, fullBlock) k
                   ++ repeat (dimStyle, lightShade) (Z.to_nat width - k))%list).
  { intro p. unfold makeBar. cbv zeta. rewrite makeBar_loop_cells. cbv zeta.
    eexists. split; [| reflexivity]. lia. }
  split; [apply Hshape |]. split.
  - destruct (Hshape percent) as (k & Hk & ->).
    rewrite length_app, !repeat_length. lia.
  - intro Hw. apply in_int64_range in Hw.
    unfold makeBar. cbv zeta. rewrite makeBar_loop_cells. cbv zeta.
    destruct (Z.le_gt_cases width 0) as [Hle | Hgt].
    + replace (Z.to_nat width) with 0%nat by lia. reflexivity.
    + assert (Hfin : finitePositive (Float64.of_Z width) = true)
        by (apply of_Z_finitePositive; lia).
      destruct (Float64.of_Z width) as [| | | [|] mw ew]; try discriminate.
      change (float64_to_int indef _) with 0.
      destruct (Z.ltb_spec width 0); [lia |]. cbn [Z.ltb Z.compare].
      replace (Nat.min (Z.to_nat width) (Z.to_nat (0 - 0))) with 0%nat by lia.
      cbn [repeat app]. now rewrite Nat.sub_0_r.
Qed.

Lemma makeBar_cells_witness :
  makeBar (fun _ => - 2 ^ 63) Float64.zero 12
  = repeat (dimStyle, lightShade) 12.
Proof.
  apply (makeBar_cells (fun _ => - 2 ^ 63) Float64.zero 12). reflexivity.
Defined.

(** [percent >= c] for a positive constant [c], read off the float. *)
Lemma float64_geb_finite (p : Float64.t) (mc : positive) (ec : Z) :
  float64_geb p (S754_finite false mc ec) = true <->
  match p with
  | S754_infinity false => True
  | S754_finite false m e => ec < e \/ (ec = e /\ (mc <= m)%positive)
  | _ => False
  end.
Proof.
  unfold float64_geb, SFleb, SFcompare.
  destruct p as [[|] | [|] | | [|] m e]; try (split; [discriminate | tauto]);
    try tauto.
  destruct (Z.compare_spec ec e) as [Heq | Hlt | Hgt].
  - change (Pcompare mc m Eq) with (Pos.compare mc m).
    destruct (Pos.compare_spec mc m) as [H | H | H];
      (split; [intro Hc;
               first [discriminate Hc | right; split; [exact Heq | lia]]
              | intros [? | [_ ?]]; try reflexivity; lia]).
  - split; [intros _; left; lia | reflexivity].
  - split; [discriminate | intros [? | [? _]]; lia].
Qed.

Ltac threshold c :=
  let v := eval vm_compute in (Float64.of_Z c) in
  change (Float64.of_Z c) with v in *.

Ltac geb_facts :=
  repeat match goal with
    | H : float64_geb _ (S754_finite false _ _) = true |- _ =>
        apply float64_geb_finite in H
    | H : float64_geb _ (S754_finite false _ _) = false |- _ =>
        apply not_true_iff_false in H; rewrite float64_geb_finite in H
    end.

(** X27. The memory bar always has the colour of the memory percentage
    beside it, but the CPU bar has the colour of the CPU percentage only
    outside of the bands from 20 to 40, from 50 to 70 and from 80 to 90:
    [makeBar] uses the thresholds of the memory column (90, 70, 40) for
    both bars, while the CPU percentage is coloured at 80, 50 and 20.
    The tview interface colours both percentages at the same thresholds
    as the Bubble Tea one. *)
Theorem bar_and_number_styles (p : Float64.t) :
  memStyle p = barStyle p
  /\ (cpuStyle p = barStyle p <->
      inBand p 20 40 = false /\ inBand p 50 70 = false
      /\ inBand p 80 90 = false)
  /\ (inBand p 80 90 = true -> cpuStyle p = redStyle /\ barStyle p = yellowStyle)
  /\ (inBand p 50 70 = true -> cpuStyle p = yellowStyle /\ barStyle p = greenStyle)
  /\ (inBand p 20 40 = true -> cpuStyle p = greenStyle /\ barStyle p = cyanStyle)
  /\ getCPUColor p = colorOf (cpuStyle p)
  /\ getMemColor p = colorOf (memStyle p).
Proof.
  unfold memStyle, barStyle, cpuStyle, inBand, getCPUColor, getMemColor.
  threshold 90. threshold 80. threshold 70. threshold 50. threshold 40.
  threshold 20.
  repeat match goal with
         | |- context [float64_geb ?q ?c] =>
             let E := fresh "E" in destruct (float64_geb q c) eqn:E
         end.
  all: cbn [andb negb colorOf].
  all: try (repeat split; intros; try reflexivity; try discriminate;
            repeat match goal with H : _ /\ _ |- _ => destruct H end;
            congruence).
  all: exfalso; geb_facts;
    destruct p as [[|] | [|] | | [|] m e]; try tauto; lia.
Qed.

Lemma bar_and_number_styles_witness :
  inBand (Float64.of_Z 85) 80 90 = true
  /\ cpuStyle (Float64.of_Z 85) = redStyle
  /\ barStyle (Float64.of_Z 85) = yellowStyle.
Proof.
  split; [reflexivity |].
  destruct (bar_and_number_styles (Float64.of_Z 85)) as (_ & _ & Hband & _).
  apply Hband. reflexivity.
Defined.

(** ** CPU percentage: a counter that went down *)

Lemma wrap64_sub_lt (a b : Z) :
  0 <= a -> a < b -> b < 2 ^ 64 -> wrap64 (a - b) = a - b + 2 ^ 64.
Proof.
  intros Ha Hab Hb. unfold wrap64.
  rewrite <- (Z.mod_add (a - b) 1 (2 ^ 64)) by lia.
  rewrite Z.mul_1_l. apply Z.mod_small. lia.
Qed.

Lemma wrap64_sub_neq (a b : Z) :
  0 <= a < 2 ^ 64 -> 0 <= b < 2 ^ 64 -> a <> b -> 0 < wrap64 (a - b).
Proof.
  intros Ha Hb Hab. destruct (Z.lt_ge_cases a b) as [Hlt | Hge].
  - rewrite wrap64_sub_lt by lia. lia.
  - unfold wrap64. rewrite Z.mod_small by lia. lia.
Qed.

Lemma wf_StatsJSON_counters (s : StatsJSON) :
  wf_StatsJSON s = true ->
  in_uint64 (TotalUsage (cpu_usage (cpu_stats s))) = true
  /\ in_uint64 (TotalUsage (cpu_usage (precpu_stats s))) = true
  /\ in_uint64 (SystemUsage (cpu_stats s)) = true
  /\ in_uint64 (SystemUsage (precpu_stats s)) = true
  /\ in_uint32 (OnlineCPUs (cpu_stats s)) = true.
Proof.
  unfold wf_StatsJSON, wf_CPUStats. rewrite !andb_true_iff. tauto.
Qed.

(** C1. The claim does not hold of the code when the system counter went
    down between the two samples, that is when the difference
    [cur - pre] of the specification is negative: for every payload the
    decoder can produce with such counters and a usage counter that
    moved, the subtraction in [uint64] wraps to [cur - pre + 2 ^ 64], both
    tests [> 0] of the code pass, and [calculateCPUPercent] returns the
    quotient formula over the wrapped deltas, a float greater than zero,
    where the claim has exactly zero. *)
Theorem cpu_percent_after_counter_reset (stats : StatsJSON) :
  wf_StatsJSON stats = true ->
  Z.of_nat (List.length (PercpuUsage (cpu_usage (cpu_stats stats)))) < 2 ^ 63 ->
  SystemUsage (cpu_stats stats) - SystemUsage (precpu_stats stats) < 0 ->
  TotalUsage (cpu_usage (cpu_stats stats))
  <> TotalUsage (cpu_usage (precpu_stats stats)) ->
  sysDelta stats
  = SystemUsage (cpu_stats stats) - SystemUsage (precpu_stats stats) + 2 ^ 64
  /\ calculateCPUPercent stats =
     Float64.mul
       (Float64.mul
          (Float64.div (Float64.of_Z (cpuDelta stats))
                       (Float64.of_Z (sysDelta stats)))
          (Float64.of_Z (onlineCoreCount stats)))
       (Float64.of_Z 100)
  /\ Float64.ltb Float64.zero (calculateCPUPercent stats) = true
  /\ calculateCPUPercent stats <> Float64.zero.
Proof.
  intros Hwf Hlen Hsys Hcpu.
  destruct (wf_StatsJSON_counters stats Hwf) as (Ht & Htp & Hs & Hsp & Ho).
  apply in_uint64_range in Ht. apply in_uint64_range in Htp.
  apply in_uint64_range in Hs. apply in_uint64_range in Hsp.
  apply in_uint32_range in Ho.
  assert (Hsd : sysDelta stats
                = SystemUsage (cpu_stats stats)
                  - SystemUsage (precpu_stats stats) + 2 ^ 64)
    by (unfold sysDelta; apply wrap64_sub_lt; lia).
  assert (Hsd0 : 0 < sysDelta stats) by lia.
  assert (Hcd0 : 0 < cpuDelta stats)
    by (unfold cpuDelta; apply wrap64_sub_neq; assumption).
  assert (Hformula : calculateCPUPercent stats =
     Float64.mul
       (Float64.mul
          (Float64.div (Float64.of_Z (cpuDelta stats))
                       (Float64.of_Z (sysDelta stats)))
          (Float64.of_Z (onlineCoreCount stats)))
       (Float64.of_Z 100)).
  { rewrite calculateCPUPercent_unfold.
    now rewrite (proj2 (Z.ltb_lt _ _) Hsd0), (proj2 (Z.ltb_lt _ _) Hcd0). }
  assert (Hpos : positiveFrom (- 400 + - 52 + - 46) (calculateCPUPercent stats)).
  { rewrite Hformula.
    pose proof (wrap64_range (TotalUsage (cpu_usage (cpu_stats stats))
                              - TotalUsage (cpu_usage (precpu_stats stats)))) as Hc.
    fold (cpuDelta stats) in Hc.
    assert (Hcount : 0 < onlineCoreCount stats < 2 ^ 64).
    { unfold onlineCoreCount.
      destruct (Z.eqb_spec (OnlineCPUs (cpu_stats stats)) 0);
        [destruct (Z.eqb_spec
                     (Z.of_nat (List.length
                                  (PercpuUsage (cpu_usage (cpu_stats stats))))) 0) |];
        lia. }
    destruct (of_Z_bounds (onlineCoreCount stats) Hcount)
      as (mc & ec & -> & Hec & _).
    change (Float64.of_Z 100) with (S754_finite false 7036874417766400 (- 46)).
    apply mul_positiveFrom;
      [| lia | unfold emin, Float64.prec, Float64.emax; lia].
    apply mul_positiveFrom;
      [| lia | unfold emin, Float64.prec, Float64.emax; lia].
    apply div_of_Z_lower; lia. }
  split; [exact Hsd |]. split; [exact Hformula |].
  split; [exact (positiveFrom_ltb _ _ Hpos) |].
  destruct Hpos as [Hp | (m & e & Hp & _)]; rewrite Hp; discriminate.
Qed.

Lemma cpu_percent_after_counter_reset_witness :
  SystemUsage (cpu_stats resetStats) - SystemUsage (precpu_stats resetStats)
  = - 1000
  /\ cpuDelta resetStats = 400
  /\ sysDelta resetStats = 2 ^ 64 - 1000
  /\ calculateCPUPercent resetStats <> Float64.zero.
Proof.
  split; [reflexivity |]. split; [reflexivity |].
  destruct (cpu_percent_after_counter_reset resetStats)
    as (Hsd & _ & _ & Hnz).
  - reflexivity.
  - simpl. lia.
  - simpl. lia.
  - simpl. lia.
  - split; [exact Hsd | exact Hnz].
Defined.
